(** * ArduinoIoTCloudTCP: the connection state machine of the cloud client

    A shallow embedding of [src/ArduinoIoTCloudTCP.cpp]: the object's fields
    are a record, every member function is a computation in a small monad
    that threads the object, the log of calls made to the collaborators
    (MQTT client, connection handler, clock, codec, event callback) and the
    answers of those collaborators. *)

From Stdlib Require Import ZArith List String Bool Lia.
From Stdlib.Strings Require Import Byte.
Import ListNotations.

Local Open Scope Z_scope.
Local Open Scope string_scope.
Local Open Scope list_scope.

(** ** Types of the program *)

(** [enum class State] of ArduinoIoTCloudTCP. *)
Inductive State : Type :=
| ConnectPhy
| SyncTime
| ConnectMqttBroker
| SubscribeMqttTopics
| RequestLastValues
| Connected.

(** [enum class ArduinoIoTCloudEvent], the argument of
    [execCloudEventCallback]. *)
Inductive ArduinoIoTCloudEvent : Type := SYNC | CONNECT | DISCONNECT.

(** [enum class NetworkConnectionState] of the connection handler, the
    result of [_connection->check()]. *)
Inductive NetworkConnectionState : Type :=
| NCS_INIT
| NCS_CONNECTING
| NCS_CONNECTED
| NCS_DISCONNECTING
| NCS_DISCONNECTED
| NCS_CLOSED
| NCS_ERROR.

Definition State_eqb (a b : State) : bool :=
  match a, b with
  | ConnectPhy, ConnectPhy
  | SyncTime, SyncTime
  | ConnectMqttBroker, ConnectMqttBroker
  | SubscribeMqttTopics, SubscribeMqttTopics
  | RequestLastValues, RequestLastValues
  | Connected, Connected => true
  | _, _ => false
  end.

Definition Event_eqb (a b : ArduinoIoTCloudEvent) : bool :=
  match a, b with
  | SYNC, SYNC | CONNECT, CONNECT | DISCONNECT, DISCONNECT => true
  | _, _ => false
  end.

Definition NetworkConnectionState_eqb (a b : NetworkConnectionState) : bool :=
  match a, b with
  | NCS_INIT, NCS_INIT
  | NCS_CONNECTING, NCS_CONNECTING
  | NCS_CONNECTED, NCS_CONNECTED
  | NCS_DISCONNECTING, NCS_DISCONNECTING
  | NCS_DISCONNECTED, NCS_DISCONNECTED
  | NCS_CLOSED, NCS_CLOSED
  | NCS_ERROR, NCS_ERROR => true
  | _, _ => false
  end.

(** ** Machine integers

    [millis()] and [_lastSyncRequestTickTime] are [unsigned long], 32 bits
    wide on every board the library targets; subtraction wraps around. *)

Definition ULONG_BITS : Z := 32.
Definition ULONG_MODULUS : Z := 2 ^ ULONG_BITS.

Definition to_ulong (z : Z) : Z := z mod ULONG_MODULUS.
Definition ulong_sub (a b : Z) : Z := (a - b) mod ULONG_MODULUS.

(** [static const int TIMEOUT_FOR_LASTVALUES_SYNC = 10000;] *)
Definition TIMEOUT_FOR_LASTVALUES_SYNC : Z := 10000.

(** [CborNoError] of tinycbor's [enum CborError]. *)
Definition CborNoError : Z := 0.

(** ** Bytes and buffers *)

(** [memcpy(dst, src, n)] on arrays held as lists: the first [n] bytes of
    [dst] are replaced by the first [n] bytes of [src]. *)
Definition memcpy (dst src : list byte) (n : Z) : list byte :=
  firstn (Z.to_nat n) src ++ skipn (Z.to_nat n) dst.

(** The bytes a call [f(data, length)] on a buffer actually covers. *)
Definition span (data : list byte) (length : Z) : list byte :=
  firstn (Z.to_nat length) data.

(** A message held by the MQTT client while its callback runs:
    [messageTopic()] and the bytes [read()] hands out one by one. *)
Record Message : Type := mkMessage {
  msg_topic : string;
  msg_payload : list byte
}.

(** The loop [for (i = 0; i < length; i++) bytes[i] = _mqttClient.read();].
    [read()] returns -1 once the message is exhausted, which the
    assignment to a [byte] turns into 0xFF. *)
Fixpoint read_bytes (length : nat) (rx : list byte) : list byte :=
  match length with
  | O => []
  | S k =>
      match rx with
      | [] => xff :: read_bytes k []
      | b :: rx' => b :: read_bytes k rx'
      end
  end.

(** ** The collaborators *)

(** Build configuration: the preprocessor switches the file tests and the
    size of the transmit buffer (declared in the header). *)
Class Board : Type := {
  OTA_ENABLED : bool;
  OTA_STORAGE_SNU : bool;
  AVR : bool;
  MQTT_TRANSMIT_BUFFER_SIZE : nat
}.

(** What [CBOREncoder::encode(container, data, size, bytes_encoded, light)]
    leaves behind: its return code, the contents of [data], the value
    written to [bytes_encoded] and the container (the encoder clears the
    markers of what it has encoded). *)
Record EncodeResult (PropertyContainer : Type) : Type := mkEncodeResult {
  enc_error : Z;
  enc_data : list byte;
  enc_bytes_encoded : Z;
  enc_container : PropertyContainer
}.
Arguments mkEncodeResult {PropertyContainer}.
Arguments enc_error {PropertyContainer}.
Arguments enc_data {PropertyContainer}.
Arguments enc_bytes_encoded {PropertyContainer}.
Arguments enc_container {PropertyContainer}.

(** What [CBORDecoder::decode] does. The function returns [void]:
    [dec_failed] is the decoder's own verdict (it gives up on malformed
    bytes), which no caller can observe. *)
Record DecodeResult (PropertyContainer : Type) : Type := mkDecodeResult {
  dec_container : PropertyContainer;
  dec_failed : bool
}.
Arguments mkDecodeResult {PropertyContainer}.
Arguments dec_container {PropertyContainer}.
Arguments dec_failed {PropertyContainer}.

(** The property container and the code around it that this file calls.
    The OTA members ([_ota_req], [_ota_error], [_ota_url]) are registered
    in the container by reference in [begin], so the decoder writes them
    and the encoder reads them: they are cells of the container's store. *)
Class PropertyCodec (PropertyContainer : Type) : Type := {
  CBOREncoder_encode :
    PropertyContainer -> nat -> bool -> EncodeResult PropertyContainer;
  CBORDecoder_decode :
    PropertyContainer -> list byte -> bool -> DecodeResult PropertyContainer;
  (** [updateTimestampOnLocallyChangedProperties], at the given time. *)
  updateTimestampOnLocallyChangedProperties :
    Z -> PropertyContainer -> PropertyContainer;
  ota_req : PropertyContainer -> bool;
  ota_url : PropertyContainer -> string;
  (** [_ota_error = static_cast<int>(OTAError::None)] *)
  assign_ota_error_None : PropertyContainer -> PropertyContainer;
  (** [_ota_error = static_cast<int>(OTAError::DownloadFailed)] *)
  assign_ota_error_DownloadFailed : PropertyContainer -> PropertyContainer;
  (** [_ota_req = false] *)
  assign_ota_req_false : PropertyContainer -> PropertyContainer
}.

(** Every call that leaves the object, with the answer it got. *)
Inductive IO : Type :=
| ConnectionCheck (r : NetworkConnectionState)
| TimeServiceGetTime (t : Z)
| Millis (t : Z)
| MqttConnect (host : string) (port : Z) (ok : bool)
| MqttSubscribe (topic : string) (ok : bool)
| MqttConnected (r : bool)
| MqttStop
| MqttPoll
| MqttBeginMessage (topic : string) (size : Z) (ok : bool)
| MqttWrite (data : list byte) (ok : bool)
| MqttEndMessage (ok : bool)
| CloudEvent (e : ArduinoIoTCloudEvent)
| CborEncode
| CborDecode (payload : list byte) (isSyncMessage : bool)
| WiFiStorageRemove (path : string)
| WiFiStorageDownloadOTA (url : string) (ok : bool)
| NvicSystemReset.

(** The collaborators' answers. Each one may depend on everything that
    has happened so far (the log) and on the arguments of the call. *)
Record Env : Type := mkEnv {
  connection_check : list IO -> NetworkConnectionState;
  time_service_getTime : list IO -> Z;
  millis : list IO -> Z;
  mqtt_connect : list IO -> string -> Z -> bool;
  mqtt_subscribe : list IO -> string -> bool;
  mqtt_connected : list IO -> bool;
  mqtt_beginMessage : list IO -> string -> Z -> bool;
  mqtt_write : list IO -> list byte -> bool;
  mqtt_endMessage : list IO -> bool;
  (** the messages [poll()] hands to the [onMessage] callback *)
  mqtt_poll : list IO -> list Message;
  wifi_downloadOTA : list IO -> string -> bool
}.

Section Cloud.

Context {PropertyContainer : Type}.
Context {codec : PropertyCodec PropertyContainer}.
Context {board : Board}.

(** ** The object *)

Record ArduinoIoTCloudTCP : Type := mkCloud {
  _state : State;
  _lastSyncRequestTickTime : Z;
  _mqtt_data_buf : list byte;
  _mqtt_data_len : Z;
  _mqtt_data_request_retransmit : bool;
  _shadowTopicOut : string;
  _shadowTopicIn : string;
  _dataTopicOut : string;
  _dataTopicIn : string;
  _brokerAddress : string;
  _brokerPort : Z;
  _property_container : PropertyContainer
}.

Definition with_state (v : State) (o : ArduinoIoTCloudTCP) :=
  mkCloud v (_lastSyncRequestTickTime o) (_mqtt_data_buf o) (_mqtt_data_len o)
    (_mqtt_data_request_retransmit o) (_shadowTopicOut o) (_shadowTopicIn o)
    (_dataTopicOut o) (_dataTopicIn o) (_brokerAddress o) (_brokerPort o)
    (_property_container o).

Definition with_lastSyncRequestTickTime (v : Z) (o : ArduinoIoTCloudTCP) :=
  mkCloud (_state o) v (_mqtt_data_buf o) (_mqtt_data_len o)
    (_mqtt_data_request_retransmit o) (_shadowTopicOut o) (_shadowTopicIn o)
    (_dataTopicOut o) (_dataTopicIn o) (_brokerAddress o) (_brokerPort o)
    (_property_container o).

Definition with_mqtt_data_buf (v : list byte) (o : ArduinoIoTCloudTCP) :=
  mkCloud (_state o) (_lastSyncRequestTickTime o) v (_mqtt_data_len o)
    (_mqtt_data_request_retransmit o) (_shadowTopicOut o) (_shadowTopicIn o)
    (_dataTopicOut o) (_dataTopicIn o) (_brokerAddress o) (_brokerPort o)
    (_property_container o).

Definition with_mqtt_data_len (v : Z) (o : ArduinoIoTCloudTCP) :=
  mkCloud (_state o) (_lastSyncRequestTickTime o) (_mqtt_data_buf o) v
    (_mqtt_data_request_retransmit o) (_shadowTopicOut o) (_shadowTopicIn o)
    (_dataTopicOut o) (_dataTopicIn o) (_brokerAddress o) (_brokerPort o)
    (_property_container o).

Definition with_mqtt_data_request_retransmit (v : bool) (o : ArduinoIoTCloudTCP) :=
  mkCloud (_state o) (_lastSyncRequestTickTime o) (_mqtt_data_buf o)
    (_mqtt_data_len o) v (_shadowTopicOut o) (_shadowTopicIn o)
    (_dataTopicOut o) (_dataTopicIn o) (_brokerAddress o) (_brokerPort o)
    (_property_container o).

Definition with_property_container (v : PropertyContainer) (o : ArduinoIoTCloudTCP) :=
  mkCloud (_state o) (_lastSyncRequestTickTime o) (_mqtt_data_buf o)
    (_mqtt_data_len o) (_mqtt_data_request_retransmit o) (_shadowTopicOut o)
    (_shadowTopicIn o) (_dataTopicOut o) (_dataTopicIn o) (_brokerAddress o)
    (_brokerPort o) v.

(** The constructor's member initialisers: state [ConnectPhy], timer 0,
    buffer zeroed, length 0, no retransmit requested, all topics empty. *)
Definition constructed (pc : PropertyContainer) : ArduinoIoTCloudTCP :=
  {| _state := ConnectPhy;
     _lastSyncRequestTickTime := 0;
     _mqtt_data_buf := repeat x00 MQTT_TRANSMIT_BUFFER_SIZE;
     _mqtt_data_len := 0;
     _mqtt_data_request_retransmit := false;
     _shadowTopicOut := "";
     _shadowTopicIn := "";
     _dataTopicOut := "";
     _dataTopicIn := "";
     _brokerAddress := "";
     _brokerPort := 0;
     _property_container := pc |}.

(** The object once [begin(brokerAddress, brokerPort)] has returned 1: of
    the fields above it assigns the broker's address and the four topics
    (the results of [getTopic_shadowout()] and its three siblings). *)
Definition begun (brokerAddress : string) (brokerPort : Z)
    (shadowout shadowin dataout datain : string)
    (o : ArduinoIoTCloudTCP) : ArduinoIoTCloudTCP :=
  mkCloud (_state o) (_lastSyncRequestTickTime o) (_mqtt_data_buf o)
    (_mqtt_data_len o) (_mqtt_data_request_retransmit o)
    shadowout shadowin dataout datain brokerAddress brokerPort
    (_property_container o).

(** ** The monad: object, log, answers, and a reset that never returns *)

Record Machine : Type := mkMachine {
  self : ArduinoIoTCloudTCP;
  log : list IO
}.

Inductive Outcome (A : Type) : Type :=
| Returned (a : A) (m : Machine)
| Reset (m : Machine).
Arguments Returned {A}.
Arguments Reset {A}.

Definition M (A : Type) : Type := Env -> Machine -> Outcome A.

Definition ret {A : Type} (a : A) : M A := fun _ m => Returned a m.

Definition bind {A B : Type} (c : M A) (k : A -> M B) : M B :=
  fun e m =>
    match c e m with
    | Returned a m' => k a e m'
    | Reset m' => Reset m'
    end.

Notation "x <- c ;; k" := (bind c (fun x => k))
  (at level 61, c at next level, right associativity).
Notation "c ;; k" := (bind c (fun _ => k))
  (at level 61, right associativity).

(** Read a field of [this]. *)
Definition read {A : Type} (f : ArduinoIoTCloudTCP -> A) : M A :=
  fun _ m => Returned (f (self m)) m.

(** Assign to a field of [this]. *)
Definition assign (f : ArduinoIoTCloudTCP -> ArduinoIoTCloudTCP) : M unit :=
  fun _ m => Returned tt (mkMachine (f (self m)) (log m)).

(** A call without an answer. *)
Definition call (ev : IO) : M unit :=
  fun _ m => Returned tt (mkMachine (self m) (log m ++ [ev])).

(** A call with an answer, chosen by the environment. *)
Definition query {A : Type} (answer : Env -> list IO -> A) (ev : A -> IO) : M A :=
  fun e m =>
    let r := answer e (log m) in
    Returned r (mkMachine (self m) (log m ++ [ev r])).

(** An answer that is read without a call of this file's own (the clock
    behind the container's time stamps). *)
Definition peek {A : Type} (answer : Env -> list IO -> A) : M A :=
  fun e m => Returned (answer e (log m)) m.

(** [NVIC_SystemReset()]. *)
Definition reset {A : Type} : M A :=
  fun _ m => Reset (mkMachine (self m) (log m ++ [NvicSystemReset])).

(** The machine an outcome ends in. *)
Definition final {A : Type} (r : Outcome A) : Machine :=
  match r with
  | Returned _ m => m
  | Reset m => m
  end.

(** ** Calls to the collaborators *)

Definition connection_check_ : M NetworkConnectionState :=
  query connection_check ConnectionCheck.

Definition time_service_getTime_ : M Z :=
  query time_service_getTime TimeServiceGetTime.

(** [millis()], an [unsigned long]. *)
Definition millis_ : M Z :=
  query (fun e l => to_ulong (millis e l)) Millis.

Definition mqttClient_connect (host : string) (port : Z) : M bool :=
  query (fun e l => mqtt_connect e l host port) (MqttConnect host port).

Definition mqttClient_subscribe (topic : string) : M bool :=
  query (fun e l => mqtt_subscribe e l topic) (MqttSubscribe topic).

Definition mqttClient_connected : M bool :=
  query mqtt_connected MqttConnected.

Definition mqttClient_stop : M unit := call MqttStop.

Definition mqttClient_beginMessage (topic : string) (size : Z) : M bool :=
  query (fun e l => mqtt_beginMessage e l topic size) (MqttBeginMessage topic size).

Definition mqttClient_write (data : list byte) (length : Z) : M bool :=
  query (fun e l => mqtt_write e l (span data length)) (MqttWrite (span data length)).

Definition mqttClient_endMessage : M bool :=
  query mqtt_endMessage MqttEndMessage.

Definition execCloudEventCallback (event : ArduinoIoTCloudEvent) : M unit :=
  call (CloudEvent event).

(** [CBORDecoder::decode(_property_container, bytes, length, isSyncMessage)] *)
Definition CBORDecoder_decode_ (bytes : list byte) (length : Z)
    (isSyncMessage : bool) : M unit :=
  pc <- read _property_container ;;
  call (CborDecode (span bytes length) isSyncMessage) ;;
  assign (with_property_container
            (dec_container (CBORDecoder_decode pc (span bytes length) isSyncMessage))).

(** [updateTimestampOnLocallyChangedProperties(_property_container)]; the
    time it stamps is the time service's. *)
Definition updateTimestampOnLocallyChangedProperties_ : M unit :=
  t <- peek time_service_getTime ;;
  pc <- read _property_container ;;
  assign (with_property_container
            (updateTimestampOnLocallyChangedProperties t pc)).

(** ** Private member functions *)

(** [int write(String const topic, byte const data[], int const length)] *)
Definition write (topic : string) (data : list byte) (length : Z) : M Z :=
  began <- mqttClient_beginMessage topic length ;;
  if began then
    written <- mqttClient_write data length ;;
    if written then
      ended <- mqttClient_endMessage ;;
      if ended then ret 1 else ret 0
    else ret 0
  else ret 0.

(** [void sendPropertiesToCloud()] *)
Definition sendPropertiesToCloud : M unit :=
  pc <- read _property_container ;;
  let r := CBOREncoder_encode pc MQTT_TRANSMIT_BUFFER_SIZE false in
  call CborEncode ;;
  assign (with_property_container (enc_container r)) ;;
  let bytes_encoded := enc_bytes_encoded r in
  if (enc_error r =? CborNoError)%Z then
    if (0 <? bytes_encoded)%Z then
      assign (with_mqtt_data_len bytes_encoded) ;;
      len <- read _mqtt_data_len ;;
      buf <- read _mqtt_data_buf ;;
      assign (with_mqtt_data_buf (memcpy buf (enc_data r) len)) ;;
      topic <- read _dataTopicOut ;;
      buf <- read _mqtt_data_buf ;;
      len <- read _mqtt_data_len ;;
      write topic buf len ;;
      ret tt
    else ret tt
  else ret tt.

(** The request for the last values,
    [[{0: "r:m", 3: "getLastValues"}]] in CBOR. *)
Definition CBOR_REQUEST_LAST_VALUE_MSG : list byte :=
  [ x81; xa2; x00; x63; x72; x3a; x6d; x03; x6d; x67; x65; x74; x4c; x61;
    x73; x74; x56; x61; x6c; x75; x65; x73 ].

(** [void requestLastValue()] *)
Definition requestLastValue : M unit :=
  topic <- read _shadowTopicOut ;;
  write topic CBOR_REQUEST_LAST_VALUE_MSG
    (Z.of_nat (List.length CBOR_REQUEST_LAST_VALUE_MSG)) ;;
  ret tt.

(** [void onOTARequest()]. [None] stands for the early [return] after a
    failed download, [Some b] for reaching the end of the
    [OTA_STORAGE_SNU] block with [ota_download_success = b]. *)
Definition onOTARequest : M unit :=
  let ota_download_success := false in
  after_download <-
    (if OTA_STORAGE_SNU then
       call (WiFiStorageRemove "/fs/UPDATE.BIN.LZSS") ;;
       call (WiFiStorageRemove "/fs/UPDATE.BIN.LZSS.TMP") ;;
       pc <- read _property_container ;;
       downloaded <-
         query (fun e l => wifi_downloadOTA e l (ota_url pc))
               (WiFiStorageDownloadOTA (ota_url pc)) ;;
       if negb downloaded then
         assign (with_property_container (assign_ota_error_DownloadFailed pc)) ;;
         ret None
       else ret (Some true)
     else ret (Some ota_download_success)) ;;
  match after_download with
  | None => ret tt
  | Some ota_download_success =>
      if negb AVR then
        if ota_download_success then reset else ret tt
      else ret tt
  end.

(** [State handle_ConnectPhy()] *)
Definition handle_ConnectPhy : M State :=
  r <- connection_check_ ;;
  if NetworkConnectionState_eqb r NCS_CONNECTED then ret SyncTime
  else ret ConnectPhy.

(** [State handle_SyncTime()] *)
Definition handle_SyncTime : M State :=
  internal_posix_time <- time_service_getTime_ ;;
  ret ConnectMqttBroker.

(** [State handle_ConnectMqttBroker()] *)
Definition handle_ConnectMqttBroker : M State :=
  host <- read _brokerAddress ;;
  port <- read _brokerPort ;;
  ok <- mqttClient_connect host port ;;
  if ok then ret SubscribeMqttTopics else ret ConnectPhy.

(** [State handle_SubscribeMqttTopics()] *)
Definition handle_SubscribeMqttTopics : M State :=
  dataTopicIn <- read _dataTopicIn ;;
  ok <- mqttClient_subscribe dataTopicIn ;;
  if negb ok then ret SubscribeMqttTopics
  else
    shadowTopicIn <- read _shadowTopicIn ;;
    ok2 <- (if negb (String.eqb shadowTopicIn "")
            then mqttClient_subscribe shadowTopicIn
            else ret true) ;;
    if negb ok2 then ret SubscribeMqttTopics
    else
      execCloudEventCallback CONNECT ;;
      if negb (String.eqb shadowTopicIn "") then ret RequestLastValues
      else ret Connected.

(** [State handle_RequestLastValues()] *)
Definition handle_RequestLastValues : M State :=
  now <- millis_ ;;
  last <- read _lastSyncRequestTickTime ;;
  (if (TIMEOUT_FOR_LASTVALUES_SYNC <? ulong_sub now last)%Z then
     requestLastValue ;;
     assign (with_lastSyncRequestTickTime now)
   else ret tt) ;;
  ret RequestLastValues.

(** [State handle_Connected()] *)
Definition handle_Connected : M State :=
  connected <- mqttClient_connected ;;
  if negb connected then
    mqttClient_stop ;;
    assign (with_mqtt_data_request_retransmit true) ;;
    execCloudEventCallback DISCONNECT ;;
    ret ConnectPhy
  else
    updateTimestampOnLocallyChangedProperties_ ;;
    retransmit <- read _mqtt_data_request_retransmit ;;
    len <- read _mqtt_data_len ;;
    (if retransmit && (0 <? len)%Z then
       topic <- read _dataTopicOut ;;
       buf <- read _mqtt_data_buf ;;
       write topic buf len ;;
       assign (with_mqtt_data_request_retransmit false)
     else ret tt) ;;
    sendPropertiesToCloud ;;
    (if OTA_ENABLED then
       pc <- read _property_container ;;
       if ota_req pc then
         assign (with_property_container (assign_ota_error_None pc)) ;;
         sendPropertiesToCloud ;;
         pc' <- read _property_container ;;
         assign (with_property_container (assign_ota_req_false pc')) ;;
         onOTARequest
       else ret tt
     else ret tt) ;;
    ret Connected.

(** [void handleMessage(int length)], on the message [rx] the client holds. *)
Definition handleMessage (rx : Message) (length : Z) : M unit :=
  let topic := msg_topic rx in
  let bytes := read_bytes (Z.to_nat length) (msg_payload rx) in
  dataTopicIn <- read _dataTopicIn ;;
  (if String.eqb dataTopicIn topic
   then CBORDecoder_decode_ bytes length false
   else ret tt) ;;
  shadowTopicIn <- read _shadowTopicIn ;;
  st <- read _state ;;
  if String.eqb shadowTopicIn topic && State_eqb st RequestLastValues then
    CBORDecoder_decode_ bytes length true ;;
    sendPropertiesToCloud ;;
    execCloudEventCallback SYNC ;;
    assign (with_state Connected)
  else ret tt.

(** [static void onMessage(int length)] forwards to the one instance. *)
Definition onMessage (rx : Message) (length : Z) : M unit :=
  handleMessage rx length.

(** [_mqttClient.poll()]: every message that has arrived goes to the
    callback, with the size of its payload. *)
Fixpoint dispatch (inbox : list Message) : M unit :=
  match inbox with
  | [] => ret tt
  | rx :: rest =>
      onMessage rx (Z.of_nat (List.length (msg_payload rx))) ;;
      dispatch rest
  end.

Definition mqttClient_poll : M unit :=
  inbox <- query mqtt_poll (fun _ => MqttPoll) ;;
  dispatch inbox.

(** ** Public member functions *)

(** [void update()] *)
Definition update : M unit :=
  st <- read _state ;;
  next_state <-
    match st with
    | ConnectPhy => handle_ConnectPhy
    | SyncTime => handle_SyncTime
    | ConnectMqttBroker => handle_ConnectMqttBroker
    | SubscribeMqttTopics => handle_SubscribeMqttTopics
    | RequestLastValues => handle_RequestLastValues
    | Connected => handle_Connected
    end ;;
  assign (with_state next_state) ;;
  connected <- mqttClient_connected ;;
  if connected then mqttClient_poll else ret tt.

(** [int connected()] *)
Definition connected : M bool := mqttClient_connected.

(** ** Executions *)

(** One [update()] per tick, each tick with its own answers; a system
    reset ends the execution. *)
Fixpoint run (ticks : list Env) (m : Machine) : Machine :=
  match ticks with
  | [] => m
  | e :: rest =>
      match update e m with
      | Returned _ m' => run rest m'
      | Reset m' => m'
      end
  end.

(** ** Observations on a log *)

Definition is_event (ev : ArduinoIoTCloudEvent) (io : IO) : bool :=
  match io with
  | CloudEvent e => Event_eqb e ev
  | _ => false
  end.

(** How often [execCloudEventCallback(ev)] was called. *)
Definition events (ev : ArduinoIoTCloudEvent) (l : list IO) : nat :=
  List.length (filter (is_event ev) l).

Definition is_beginMessage (io : IO) : bool :=
  match io with
  | MqttBeginMessage _ _ _ => true
  | _ => false
  end.

(** How many messages were started on the transport. *)
Definition transmissions (l : list IO) : nat :=
  List.length (filter is_beginMessage l).

Definition is_stop (io : IO) : bool :=
  match io with
  | MqttStop => true
  | _ => false
  end.

(** How often the transport was stopped. *)
Definition stops (l : list IO) : nat := List.length (filter is_stop l).

Definition is_sync_decode (io : IO) : bool :=
  match io with
  | CborDecode _ true => true
  | _ => false
  end.

(** The payloads handed to the transport, in order. *)
Fixpoint payloads (l : list IO) : list (list byte) :=
  match l with
  | [] => []
  | MqttWrite data _ :: rest => data :: payloads rest
  | _ :: rest => payloads rest
  end.

(** What one call of [write] puts on the log: the message is refused at
    [beginMessage], cut at [write], or handed over whole. *)
Inductive sent (topic : string) (payload : list byte) (size : Z) : list IO -> Prop :=
| sent_refused :
    sent topic payload size [MqttBeginMessage topic size false]
| sent_cut :
    sent topic payload size
      [MqttBeginMessage topic size true; MqttWrite payload false]
| sent_whole (ok : bool) :
    sent topic payload size
      [MqttBeginMessage topic size true; MqttWrite payload true;
       MqttEndMessage ok].

(** ** Notions the statements are written with *)

(** [preserves f c]: whatever the answers, and whether [c] returns or
    resets, the observation [f] of the machine is the same afterwards. *)
Definition preserves {A B : Type} (f : Machine -> B) (c : M A) : Prop :=
  forall (e : Env) (m : Machine), f (final (c e m)) = f m.

(** The observations the claims are about. *)
Definition record_of (m : Machine) : list byte * Z * bool :=
  (_mqtt_data_buf (self m), _mqtt_data_len (self m),
   _mqtt_data_request_retransmit (self m)).

Definition timer_of (m : Machine) : Z := _lastSyncRequestTickTime (self m).

Definition pending_of (m : Machine) : bool :=
  _mqtt_data_request_retransmit (self m).

Definition state_of (m : Machine) : State := _state (self m).

Definition topics_of (m : Machine) : string * string * string * string :=
  (_shadowTopicOut (self m), _shadowTopicIn (self m),
   _dataTopicOut (self m), _dataTopicIn (self m)).

Definition events_of (ev : ArduinoIoTCloudEvent) (m : Machine) : nat :=
  events ev (log m).

Definition stops_of (m : Machine) : nat := stops (log m).

(** *** The send path *)

(** The object after [sendPropertiesToCloud] has stored what the encoder
    produced. *)
Definition stored (r : EncodeResult PropertyContainer)
    (o : ArduinoIoTCloudTCP) : ArduinoIoTCloudTCP :=
  with_mqtt_data_buf
    (memcpy (_mqtt_data_buf o) (enc_data r) (enc_bytes_encoded r))
    (with_mqtt_data_len (enc_bytes_encoded r)
       (with_property_container (enc_container r) o)).

(** The encoder's result on the object's container. *)
Definition encoded (o : ArduinoIoTCloudTCP) : EncodeResult PropertyContainer :=
  CBOREncoder_encode (_property_container o) MQTT_TRANSMIT_BUFFER_SIZE false.

(** The condition under which [sendPropertiesToCloud] transmits. *)
Definition to_send (r : EncodeResult PropertyContainer) : bool :=
  (enc_error r =? CborNoError)%Z && (0 <? enc_bytes_encoded r)%Z.

(** *** Messages outside the handshake *)

(** The bytes [handleMessage] hands to the decoder. *)
Definition received (rx : Message) (length : Z) : list byte :=
  span (read_bytes (Z.to_nat length) (msg_payload rx)) length.

(** The machine after a partial update has been decoded into the
    container. *)
Definition delta_decoded (payload : list byte) (m : Machine) : Machine :=
  mkMachine
    (with_property_container
       (dec_container
          (CBORDecoder_decode (_property_container (self m)) payload false))
       (self m))
    (log m ++ [CborDecode payload false]).

(** The handshake branch of [handleMessage] is taken. *)
Definition completes_handshake (rx : Message) (o : ArduinoIoTCloudTCP) : bool :=
  String.eqb (_shadowTopicIn o) (msg_topic rx)
  && State_eqb (_state o) RequestLastValues.

(** Log entries that come from polling the transport outside the
    handshake: the connection test, the poll, partial decodes. *)
Definition is_inbound (io : IO) : bool :=
  match io with
  | MqttConnected _ | MqttPoll | CborDecode _ false => true
  | _ => false
  end.

Definition inbound (d : list IO) : Prop := forallb is_inbound d = true.

(** The end of [update()], after the handler has returned [next_state]. *)
Definition update_tail (next_state : State) : M unit :=
  assign (with_state next_state) ;;
  connected <- mqttClient_connected ;;
  if connected then mqttClient_poll else ret tt.

(** The handler [update()] selects. *)
Definition handler (st : State) : M State :=
  match st with
  | ConnectPhy => handle_ConnectPhy
  | SyncTime => handle_SyncTime
  | ConnectMqttBroker => handle_ConnectMqttBroker
  | SubscribeMqttTopics => handle_SubscribeMqttTopics
  | RequestLastValues => handle_RequestLastValues
  | Connected => handle_Connected
  end.

(** The machine after a full snapshot has been decoded into the
    container. *)
Definition sync_decoded (payload : list byte) (m : Machine) : Machine :=
  mkMachine
    (with_property_container
       (dec_container
          (CBORDecoder_decode (_property_container (self m)) payload true))
       (self m))
    (log m ++ [CborDecode payload true]).

(** *** The handlers *)

(** The byte sequence the specification prescribes for the request, as
    numbers; [requestLastValue]'s constant is compared with it below. *)
Definition SPEC_REQUEST_BYTES : list N :=
  [ 0x81; 0xA2; 0x00; 0x63; 0x72; 0x3A; 0x6D; 0x03; 0x6D; 0x67; 0x65; 0x74;
    0x4C; 0x61; 0x73; 0x74; 0x56; 0x61; 0x6C; 0x75; 0x65; 0x73 ]%N.

(** The reading of [millis()] a tick gets. *)
Definition now (e : Env) (m : Machine) : Z := to_ulong (millis e (log m)).

(** The condition under which [handle_RequestLastValues] sends. *)
Definition request_due (e : Env) (m : Machine) : bool :=
  (TIMEOUT_FOR_LASTVALUES_SYNC
     <? ulong_sub (now e m) (_lastSyncRequestTickTime (self m)))%Z.

(** The messages started by one call of the handler. *)
Definition requests_in (e : Env) (m : Machine) : nat :=
  (transmissions (log (final (handle_RequestLastValues e m)))
   - transmissions (log m))%nat.

(** The object once [updateTimestampOnLocallyChangedProperties] has run
    in a tick that found the transport connected. *)
Definition stamped (e : Env) (m : Machine) : ArduinoIoTCloudTCP :=
  with_property_container
    (updateTimestampOnLocallyChangedProperties
       (time_service_getTime e (log m ++ [MqttConnected true]))
       (_property_container (self m)))
    (self m).

(** The condition under which [handle_Connected] resends the buffer. *)
Definition resend_due (o : ArduinoIoTCloudTCP) : bool :=
  _mqtt_data_request_retransmit o && (0 <? _mqtt_data_len o)%Z.

(** The object when [handle_Connected] reaches [sendPropertiesToCloud]. *)
Definition resent (e : Env) (m : Machine) : ArduinoIoTCloudTCP :=
  if resend_due (self m)
  then with_mqtt_data_request_retransmit false (stamped e m)
  else stamped e m.

(** What follows the first [sendPropertiesToCloud()] in
    [handle_Connected]: the OTA block and the [return]. *)
Definition ota_and_return : M State :=
  (if OTA_ENABLED then
     pc <- read _property_container ;;
     if ota_req pc then
       assign (with_property_container (assign_ota_error_None pc)) ;;
       sendPropertiesToCloud ;;
       pc' <- read _property_container ;;
       assign (with_property_container (assign_ota_req_false pc')) ;;
       onOTARequest
     else ret tt
   else ret tt) ;;
  ret Connected.

(** [appends c]: [c] only adds to the log. *)
Definition appends {A : Type} (c : M A) : Prop :=
  forall (e : Env) (m : Machine), exists d, log (final (c e m)) = log m ++ d.

(** [yields P c]: whatever [c] returns satisfies [P]. *)
Definition yields {A : Type} (P : A -> Prop) (c : M A) : Prop :=
  forall (e : Env) (m : Machine) (a : A) (m' : Machine),
    c e m = Returned a m' -> P a.

(** No shadow-in topic, and not in RequestLastValues. *)
Definition no_shadow (m : Machine) : Prop :=
  _shadowTopicIn (self m) = "" /\ _state (self m) <> RequestLastValues.

(** Every subscription [handle_SubscribeMqttTopics] needs is granted:
    data-in, and shadow-in when that topic is not empty. *)
Definition subscriptions_succeed (e : Env) (m : Machine) : bool :=
  mqtt_subscribe e (log m) (_dataTopicIn (self m))
  && (String.eqb (_shadowTopicIn (self m)) ""
      || mqtt_subscribe e
           (log m ++ [MqttSubscribe (_dataTopicIn (self m)) true])
           (_shadowTopicIn (self m))).

(** The state [handle_SubscribeMqttTopics] returns on success. *)
Definition after_subscription (o : ArduinoIoTCloudTCP) : State :=
  if String.eqb (_shadowTopicIn o) "" then Connected else RequestLastValues.

(** ** Notions for the further properties *)

(** The states before the broker has accepted the connection. *)
Definition before_broker (st : State) : bool :=
  match st with
  | ConnectPhy | SyncTime | ConnectMqttBroker => true
  | _ => false
  end.

(** The states in which the session is up: subscribed, and no
    disconnection detected since. *)
Definition session_up (st : State) : bool :=
  match st with
  | RequestLastValues | Connected => true
  | _ => false
  end.

(** The state a tick taken before the broker connection leads to. *)
Definition next_before_broker (e : Env) (m : Machine) : State :=
  match _state (self m) with
  | ConnectPhy =>
      if NetworkConnectionState_eqb (connection_check e (log m)) NCS_CONNECTED
      then SyncTime else ConnectPhy
  | SyncTime => ConnectMqttBroker
  | ConnectMqttBroker =>
      if mqtt_connect e (log m) (_brokerAddress (self m)) (_brokerPort (self m))
      then SubscribeMqttTopics else ConnectPhy
  | st => st
  end.


Definition is_subscribe (io : IO) : bool :=
  match io with
  | MqttSubscribe _ _ => true
  | _ => false
  end.

(** How many subscriptions were asked for. *)
Definition subscriptions (l : list IO) : nat :=
  List.length (filter is_subscribe l).

(** How many full snapshots were decoded. *)
Definition sync_decodes (l : list IO) : nat :=
  List.length (filter is_sync_decode l).

(** Whatever the tick polls, no message of it is on the shadow-in topic. *)
Definition no_shadow_reply (e : Env) (o : ArduinoIoTCloudTCP) : Prop :=
  forall l : list IO,
    existsb (fun rx => String.eqb (_shadowTopicIn o) (msg_topic rx))
      (mqtt_poll e l) = false.

(** The three event counters of a log agree with the state: CONNECT is
    one ahead of DISCONNECT exactly while the session is up, and SYNC
    never outnumbers CONNECT (it is one short while the handshake is
    outstanding). *)
Definition accounted (m : Machine) : Prop :=
  events CONNECT (log m) =
    (events DISCONNECT (log m)
     + if session_up (_state (self m)) then 1 else 0)%nat
  /\ (events SYNC (log m)
      + (if State_eqb (_state (self m)) RequestLastValues then 1 else 0)
      <= events CONNECT (log m))%nat
  /\ sync_decodes (log m) = events SYNC (log m).

(** [maintains I c]: [c] keeps [I], whether it returns or resets. *)
Definition maintains {A : Type} (I : Machine -> Prop) (c : M A) : Prop :=
  forall (e : Env) (m : Machine), I m -> I (final (c e m)).

(** A property of the retransmit buffer and its length. *)
Definition buffer_has (Q : list byte -> Z -> Prop) (m : Machine) : Prop :=
  Q (_mqtt_data_buf (self m)) (_mqtt_data_len (self m)).

(** The encoder stays within the buffer it is given: when it reports
    success with something encoded, [data] has the size asked for and
    [bytes_encoded] does not exceed it. *)
Definition encoder_fits : Prop :=
  forall pc : PropertyContainer,
    let r := CBOREncoder_encode pc MQTT_TRANSMIT_BUFFER_SIZE false in
    to_send r = true ->
    List.length (enc_data r) = MQTT_TRANSMIT_BUFFER_SIZE
    /\ enc_bytes_encoded r <= Z.of_nat MQTT_TRANSMIT_BUFFER_SIZE.

(** The buffer has its declared size and the length lies within it. *)
Definition within_buffer (buf : list byte) (len : Z) : Prop :=
  List.length buf = MQTT_TRANSMIT_BUFFER_SIZE
  /\ 0 <= len <= Z.of_nat MQTT_TRANSMIT_BUFFER_SIZE.

(** What the object is configured with: the topics and the broker. *)
Definition config_of (m : Machine) : (string * string * string * string) * string * Z :=
  (topics_of m, _brokerAddress (self m), _brokerPort (self m)).

(** Along [ticks], started from [m], no tick is taken in Connected with
    the transport up: the device is still on its way back. *)
Fixpoint on_the_way_back (ticks : list Env) (m : Machine) : Prop :=
  match ticks with
  | [] => True
  | e :: rest =>
      (_state (self m) <> Connected \/ mqtt_connected e (log m) = false)
      /\ on_the_way_back rest (final (update e m))
  end.

(** [starts_at_most n c]: [c] starts at most [n] messages on the
    transport, whether it returns or resets. *)
Definition starts_at_most {A : Type} (n : nat) (c : M A) : Prop :=
  forall (e : Env) (m : Machine),
    (transmissions (log (final (c e m))) <= transmissions (log m) + n)%nat.

(** The messages a tick may start, by the state it is taken in. *)
Definition tick_budget (st : State) : nat :=
  match st with
  | Connected => 3
  | RequestLastValues => 2
  | SubscribeMqttTopics => 1
  | _ => 0
  end.

End Cloud.

Arguments Returned {PropertyContainer A}.
Arguments Reset {PropertyContainer A}.

(** * A concrete device, to run the model on *)

Module Bench.

(** An MKR WiFi 1010-like build: OTA through the NINA module, not an AVR,
    a transmit buffer of 256 bytes. *)
#[export] Instance mkr : Board :=
  {| OTA_ENABLED := true;
     OTA_STORAGE_SNU := true;
     AVR := false;
     MQTT_TRANSMIT_BUFFER_SIZE := 256 |}.

(** The container of an echoing device: the encodings of the properties
    that wait to be sent, oldest first. *)
Definition Outbox : Type := list (list byte).

(** The encoder takes the oldest waiting encoding; with nothing waiting
    it encodes zero bytes and reports no error. *)
Definition echo_encode (pc : Outbox) (size : nat) (lightPayload : bool)
    : EncodeResult Outbox :=
  match pc with
  | [] => mkEncodeResult CborNoError (repeat x00 size) 0 []
  | p :: rest =>
      mkEncodeResult CborNoError
        (p ++ repeat x00 (size - List.length p))
        (Z.of_nat (List.length p)) rest
  end.

(** The decoder accepts a CBOR array of one item (first byte 0x81), which
    the device then has to report back, and an empty array (0x80);
    anything else is malformed and leaves the container alone. *)
Definition echo_decode (pc : Outbox) (payload : list byte)
    (isSyncMessage : bool) : DecodeResult Outbox :=
  match payload with
  | x81 :: _ => mkDecodeResult (pc ++ [payload]) false
  | [x80] => mkDecodeResult pc false
  | _ => mkDecodeResult pc true
  end.

#[export] Instance echo : PropertyCodec Outbox :=
  {| CBOREncoder_encode := echo_encode;
     CBORDecoder_decode := echo_decode;
     updateTimestampOnLocallyChangedProperties := fun _ pc => pc;
     ota_req := fun _ => false;
     ota_url := fun _ => "";
     assign_ota_error_None := fun pc => pc;
     assign_ota_error_DownloadFailed := fun pc => pc;
     assign_ota_req_false := fun pc => pc |}.

(** Answers of a healthy network at clock reading [t], with [inbox]
    arriving at the poll. *)
Definition online (t : Z) (inbox : list Message) : Env :=
  {| connection_check := fun _ => NCS_CONNECTED;
     time_service_getTime := fun _ => 1600000000;
     millis := fun _ => t;
     mqtt_connect := fun _ _ _ => true;
     mqtt_subscribe := fun _ _ => true;
     mqtt_connected := fun _ => true;
     mqtt_beginMessage := fun _ _ _ => true;
     mqtt_write := fun _ _ => true;
     mqtt_endMessage := fun _ => true;
     mqtt_poll := fun _ => inbox;
     wifi_downloadOTA := fun _ _ => true |}.

(** The network is up but the MQTT client has no connection yet. *)
Definition linking (t : Z) : Env :=
  {| connection_check := fun _ => NCS_CONNECTED;
     time_service_getTime := fun _ => 1600000000;
     millis := fun _ => t;
     mqtt_connect := fun _ _ _ => true;
     mqtt_subscribe := fun _ _ => true;
     mqtt_connected := fun _ => false;
     mqtt_beginMessage := fun _ _ _ => false;
     mqtt_write := fun _ _ => false;
     mqtt_endMessage := fun _ => false;
     mqtt_poll := fun _ => [];
     wifi_downloadOTA := fun _ _ => false |}.

(** The client is connected but [beginMessage] refuses every message. *)
Definition refusing (t : Z) : Env :=
  {| connection_check := fun _ => NCS_CONNECTED;
     time_service_getTime := fun _ => 1600000000;
     millis := fun _ => t;
     mqtt_connect := fun _ _ _ => true;
     mqtt_subscribe := fun _ _ => true;
     mqtt_connected := fun _ => true;
     mqtt_beginMessage := fun _ _ _ => false;
     mqtt_write := fun _ _ => false;
     mqtt_endMessage := fun _ => false;
     mqtt_poll := fun _ => [];
     wifi_downloadOTA := fun _ _ => false |}.

(** The MQTT client reports the connection lost. *)
Definition offline (t : Z) : Env :=
  {| connection_check := fun _ => NCS_DISCONNECTED;
     time_service_getTime := fun _ => 1600000000;
     millis := fun _ => t;
     mqtt_connect := fun _ _ _ => false;
     mqtt_subscribe := fun _ _ => false;
     mqtt_connected := fun _ => false;
     mqtt_beginMessage := fun _ _ _ => false;
     mqtt_write := fun _ _ => false;
     mqtt_endMessage := fun _ => false;
     mqtt_poll := fun _ => [];
     wifi_downloadOTA := fun _ _ => false |}.

Definition shadow_o : string := "/a/t/thing/shadow/o".
Definition shadow_i : string := "/a/t/thing/shadow/i".
Definition data_o : string := "/a/t/thing/e/o".
Definition data_i : string := "/a/t/thing/e/i".

(** The device after [begin], with a thing id: all four topics set. *)
Definition booted : Machine :=
  mkMachine
    (begun "mqtts-sa.iot.arduino.cc" 8883 shadow_o shadow_i data_o data_i
       (constructed ([] : Outbox)))
    [].

(** The device after [begin] without a thing id: no shadow topics. *)
Definition booted_without_thing : Machine :=
  mkMachine
    (begun "mqtts-sa.iot.arduino.cc" 8883 "" "" data_o data_i
       (constructed ([] : Outbox)))
    [].

(** Payloads used below. *)
Definition P : list byte := [x81; x01].
Definition P' : list byte := [x81; x02].
Definition empty_snapshot : list byte := [x80].
Definition garbage : list byte := [xff].

(** Three ticks take a device from ConnectPhy to SubscribeMqttTopics. *)
Definition link_ticks (t : Z) : list Env :=
  [linking t; linking t; online t []].

(** A fourth one subscribes. *)
Definition connect_ticks (t : Z) : list Env :=
  link_ticks t ++ [online t []].

(** With a thing id: connect, get an empty snapshot in answer to the
    request for the last values, then receive [P] from the cloud on
    data-in and report it back on the next tick. *)
Definition ticks_until_P_sent : list Env :=
  connect_ticks 100
  ++ [online 20000 [mkMessage shadow_i empty_snapshot];
      online 20100 [mkMessage data_i P];
      online 20200 []].

(** Then the connection drops; the device reconnects, and the snapshot
    that answers its next request carries a value it has to report. *)
Definition ticks_until_resynced : list Env :=
  ticks_until_P_sent
  ++ [offline 20300]
  ++ connect_ticks 30000
  ++ [online 40000 [mkMessage shadow_i P']].

(** Without a thing id: connect, receive [P] on data-in, report it. *)
Definition ticks_until_P_sent_without_thing : list Env :=
  connect_ticks 100
  ++ [online 200 [mkMessage data_i P]; online 300 []].

(** The device in the Connected state with [P] buffered and sent. *)
Definition steady : Machine := run ticks_until_P_sent booted.

(** The device in RequestLastValues, nothing requested yet. *)
Definition awaiting : Machine := run (connect_ticks 100) booted.

(** A container that also holds the OTA request flag: the outbox of the
    echoing device and [_ota_req]. The flag is raised by the data-in
    message [81 F5] (an array holding [true]). *)
Definition Updatable : Type := (Outbox * bool)%type.

Definition updatable_decode (pc : Updatable) (payload : list byte)
    (isSyncMessage : bool) : DecodeResult Updatable :=
  match payload with
  | [x81; xf5] => mkDecodeResult (fst pc, true) false
  | _ =>
      let r := echo_decode (fst pc) payload isSyncMessage in
      mkDecodeResult (dec_container r, snd pc) (dec_failed r)
  end.

Definition updatable_encode (pc : Updatable) (size : nat) (lightPayload : bool)
    : EncodeResult Updatable :=
  let r := echo_encode (fst pc) size lightPayload in
  mkEncodeResult (enc_error r) (enc_data r) (enc_bytes_encoded r)
    (enc_container r, snd pc).

Definition updatable : PropertyCodec Updatable :=
  {| CBOREncoder_encode := updatable_encode;
     CBORDecoder_decode := updatable_decode;
     updateTimestampOnLocallyChangedProperties := fun _ pc => pc;
     ota_req := snd;
     ota_url := fun _ => "https://example.org/update.bin";
     assign_ota_error_None := fun pc => pc;
     assign_ota_error_DownloadFailed := fun pc => pc;
     assign_ota_req_false := fun pc => (fst pc, false) |}.

(** The updatable device without a thing id, connected, with an OTA
    request just received on data-in. *)
Definition update_requested : @Machine Updatable :=
  run (codec := updatable)
    (connect_ticks 100 ++ [online 200 [mkMessage data_i [x81; xf5]]])
    (mkMachine
       (begun "mqtts-sa.iot.arduino.cc" 8883 "" "" data_o data_i
          (constructed (([], false) : Updatable)))
       []).


(** [CborErrorOutOfMemory] of tinycbor, [(int) (~0U / 2 + 1)]. *)
Definition CborErrorOutOfMemory : Z := -2147483648.

(** The echoing encoder made to respect the buffer: a waiting encoding
    that does not fit is refused with [CborErrorOutOfMemory]. *)
Definition strict_encode (pc : Outbox) (size : nat) (lightPayload : bool)
    : EncodeResult Outbox :=
  match pc with
  | [] => mkEncodeResult CborNoError (repeat x00 size) 0 []
  | p :: rest =>
      if (List.length p <=? size)%nat
      then mkEncodeResult CborNoError
             (p ++ repeat x00 (size - List.length p))
             (Z.of_nat (List.length p)) rest
      else mkEncodeResult CborErrorOutOfMemory (repeat x00 size) 0 pc
  end.

Definition strict : PropertyCodec Outbox :=
  {| CBOREncoder_encode := strict_encode;
     CBORDecoder_decode := echo_decode;
     updateTimestampOnLocallyChangedProperties := fun _ pc => pc;
     ota_req := fun _ => false;
     ota_url := fun _ => "";
     assign_ota_error_None := fun pc => pc;
     assign_ota_error_DownloadFailed := fun pc => pc;
     assign_ota_req_false := fun pc => pc |}.

(** The device in Connected with [P] received and waiting to be sent. *)
Definition loaded : Machine :=
  run (connect_ticks 100
       ++ [online 20000 [mkMessage shadow_i empty_snapshot];
           online 20100 [mkMessage data_i P]])
    booted.

(** The device in RequestLastValues with a request sent shortly before
    the clock wraps around. *)
Definition requested_before_wrap : Machine :=
  run (connect_ticks 100 ++ [online 4294960000 []]) booted.

(** Without a thing id: [P] sent, then the connection lost. *)
Definition dropped_with_P : Machine :=
  run (ticks_until_P_sent_without_thing ++ [offline 400]) booted_without_thing.

(** Without a thing id: the connection lost before anything was sent,
    the device back in Connected, and [P] just received. *)
Definition back_with_flag_up : Machine :=
  run (connect_ticks 100 ++ [offline 200] ++ connect_ticks 300
       ++ [online 400 [mkMessage data_i P]])
    booted_without_thing.

End Bench.

(** * [begin]: configuring the object *)

(** The board families [begin] is compiled for. *)
Class Platform : Type := {
  BOARD_HAS_OFFLOADED_ECCX08 : bool;
  BOARD_HAS_ECCX08 : bool;
  BOARD_ESP : bool;
  ESP32 : bool
}.

(** [enum class Permission] of the property library. *)
Inductive Permission : Type := Read | Write | ReadWrite.

(** What [begin] does to the property container. The OTA members are
    cells of the container's store (see [PropertyCodec]). *)
Class OtaProperties (PropertyContainer : Type) : Type := {
  (** [_ota_img_sha256 = ...] *)
  assign_ota_img_sha256 : string -> PropertyContainer -> PropertyContainer;
  (** [_ota_cap = ...] *)
  assign_ota_cap : bool -> PropertyContainer -> PropertyContainer;
  (** [addPropertyReal(member, name, permission)], followed by
      [.onSync(DEVICE_WINS)] when the flag is set. *)
  addPropertyReal :
    string -> Permission -> bool -> PropertyContainer -> PropertyContainer
}.

(** The calls [begin] makes, with the answers it got. *)
Inductive BeginIO : Type :=
| TimeServiceBegin
| WiFiFirmwareVersion (version : string)
| FlashSHA256Calc (start length : Z) (digest : string)
| ECCX08Begin (ok : bool)
| ECCX08End
| CryptoReadDeviceId (ok : bool)
| CryptoReconstructCertificate (ok : bool)
| SslSetClient
| SslSetEccSlot
| SslSetInsecure
| MqttSetClient
| MqttSetUsernamePassword (username password : string)
| MqttOnMessage
| MqttSetKeepAliveInterval (ms : Z)
| MqttSetConnectionTimeout (ms : Z)
| MqttSetId (id : string).

(** The collaborators' answers during [begin]. The getters of the base
    class ([getDeviceId], [getTopic_shadowout] and its siblings) are
    answers too: they are declared in the headers. *)
Record BeginEnv : Type := mkBeginEnv {
  wifi_firmwareVersion : list BeginIO -> string;
  flash_sha256_calc : list BeginIO -> string;
  eccx08_begin : list BeginIO -> bool;
  crypto_readDeviceId : list BeginIO -> bool;
  crypto_reconstructCertificate : list BeginIO -> bool;
  getDeviceId : list BeginIO -> string;
  getTopic_shadowout : list BeginIO -> string;
  getTopic_shadowin : list BeginIO -> string;
  getTopic_dataout : list BeginIO -> string;
  getTopic_datain : list BeginIO -> string
}.

Definition is_mqtt_setup (io : BeginIO) : bool :=
  match io with
  | MqttSetClient | MqttSetUsernamePassword _ _ | MqttOnMessage
  | MqttSetKeepAliveInterval _ | MqttSetConnectionTimeout _ | MqttSetId _ => true
  | _ => false
  end.

Section Begin.

Context {PropertyContainer : Type}.
Context {board : Board}.
Context {platform : Platform}.
Context {ota : OtaProperties PropertyContainer}.

Definition with_brokerAddress (v : string) (o : @ArduinoIoTCloudTCP PropertyContainer) :=
  mkCloud (_state o) (_lastSyncRequestTickTime o) (_mqtt_data_buf o)
    (_mqtt_data_len o) (_mqtt_data_request_retransmit o) (_shadowTopicOut o)
    (_shadowTopicIn o) (_dataTopicOut o) (_dataTopicIn o) v (_brokerPort o)
    (_property_container o).

Definition with_brokerPort (v : Z) (o : @ArduinoIoTCloudTCP PropertyContainer) :=
  mkCloud (_state o) (_lastSyncRequestTickTime o) (_mqtt_data_buf o)
    (_mqtt_data_len o) (_mqtt_data_request_retransmit o) (_shadowTopicOut o)
    (_shadowTopicIn o) (_dataTopicOut o) (_dataTopicIn o) (_brokerAddress o) v
    (_property_container o).

Definition with_shadowTopicOut (v : string) (o : @ArduinoIoTCloudTCP PropertyContainer) :=
  mkCloud (_state o) (_lastSyncRequestTickTime o) (_mqtt_data_buf o)
    (_mqtt_data_len o) (_mqtt_data_request_retransmit o) v
    (_shadowTopicIn o) (_dataTopicOut o) (_dataTopicIn o) (_brokerAddress o)
    (_brokerPort o) (_property_container o).

Definition with_shadowTopicIn (v : string) (o : @ArduinoIoTCloudTCP PropertyContainer) :=
  mkCloud (_state o) (_lastSyncRequestTickTime o) (_mqtt_data_buf o)
    (_mqtt_data_len o) (_mqtt_data_request_retransmit o) (_shadowTopicOut o)
    v (_dataTopicOut o) (_dataTopicIn o) (_brokerAddress o)
    (_brokerPort o) (_property_container o).

Definition with_dataTopicOut (v : string) (o : @ArduinoIoTCloudTCP PropertyContainer) :=
  mkCloud (_state o) (_lastSyncRequestTickTime o) (_mqtt_data_buf o)
    (_mqtt_data_len o) (_mqtt_data_request_retransmit o) (_shadowTopicOut o)
    (_shadowTopicIn o) v (_dataTopicIn o) (_brokerAddress o)
    (_brokerPort o) (_property_container o).

Definition with_dataTopicIn (v : string) (o : @ArduinoIoTCloudTCP PropertyContainer) :=
  mkCloud (_state o) (_lastSyncRequestTickTime o) (_mqtt_data_buf o)
    (_mqtt_data_len o) (_mqtt_data_request_retransmit o) (_shadowTopicOut o)
    (_shadowTopicIn o) (_dataTopicOut o) v (_brokerAddress o)
    (_brokerPort o) (_property_container o).

(** The object during [begin], with the one member [begin] reads that the
    state machine does not have ([_password], of the ESP boards) and the
    log of the calls made. *)
Record Setup : Type := mkSetup {
  object : @ArduinoIoTCloudTCP PropertyContainer;
  _password : string;
  calls : list BeginIO
}.

(** A statement either goes on or returns from the function. *)
Inductive Step (A : Type) : Type :=
| Next (a : A) (s : Setup)
| Return_ (code : Z) (s : Setup).
Arguments Next {A}.
Arguments Return_ {A}.

Definition B (A : Type) : Type := BeginEnv -> Setup -> Step A.

Definition go {A : Type} (a : A) : B A := fun _ s => Next a s.

Definition and_then {A C : Type} (c : B A) (k : A -> B C) : B C :=
  fun e s =>
    match c e s with
    | Next a s' => k a e s'
    | Return_ code s' => Return_ code s'
    end.

Notation "x <-- c ;;; k" := (and_then c (fun x => k))
  (at level 61, c at next level, right associativity).
Notation "c ;;; k" := (and_then c (fun _ => k))
  (at level 61, right associativity).

(** [return code;] *)
Definition return_ {A : Type} (code : Z) : B A := fun _ s => Return_ code s.

Definition member {A : Type} (f : @ArduinoIoTCloudTCP PropertyContainer -> A) : B A :=
  fun _ s => Next (f (object s)) s.

Definition set_member
    (f : @ArduinoIoTCloudTCP PropertyContainer -> @ArduinoIoTCloudTCP PropertyContainer)
    : B unit :=
  fun _ s => Next tt (mkSetup (f (object s)) (_password s) (calls s)).

Definition tell (io : BeginIO) : B unit :=
  fun _ s => Next tt (mkSetup (object s) (_password s) (calls s ++ [io])).

Definition ask {A : Type} (answer : BeginEnv -> list BeginIO -> A)
    (io : A -> BeginIO) : B A :=
  fun e s =>
    let r := answer e (calls s) in
    Next r (mkSetup (object s) (_password s) (calls s ++ [io r])).

(** A getter of the base class. *)
Definition get {A : Type} (answer : BeginEnv -> list BeginIO -> A) : B A :=
  fun e s => Next (answer e (calls s)) s.

(** The setup a step ends in, and the value the function returns. *)
Definition setup_of {A : Type} (r : Step A) : Setup :=
  match r with
  | Next _ s => s
  | Return_ _ s => s
  end.

Definition returned (r : Step Z) : Z :=
  match r with
  | Next code _ => code
  | Return_ code _ => code
  end.

(** [int begin(String brokerAddress, uint16_t brokerPort)] *)
Definition begin (brokerAddress : string) (brokerPort : Z) : B Z :=
  set_member (with_brokerAddress brokerAddress) ;;;
  set_member (with_brokerPort brokerPort) ;;;
  (if AVR then
     nina_fw_version <-- ask wifi_firmwareVersion WiFiFirmwareVersion ;;;
     if String.ltb nina_fw_version "1.4.2" then return_ 0 else go tt
   else go tt) ;;;
  (if OTA_ENABLED && negb AVR then
     digest <-- ask flash_sha256_calc
                  (FlashSHA256Calc 0x2000 (0x40000 - 0x2000)) ;;;
     pc <-- member _property_container ;;;
     set_member (with_property_container (assign_ota_img_sha256 digest pc))
   else go tt) ;;;
  (if BOARD_HAS_OFFLOADED_ECCX08 then
     ok <-- ask eccx08_begin ECCX08Begin ;;;
     if negb ok then return_ 0
     else
       ok <-- ask crypto_readDeviceId CryptoReadDeviceId ;;;
       if negb ok then return_ 0 else tell ECCX08End
   else go tt) ;;;
  (if BOARD_HAS_ECCX08 then
     ok <-- ask eccx08_begin ECCX08Begin ;;;
     if negb ok then return_ 0
     else
       ok <-- ask crypto_readDeviceId CryptoReadDeviceId ;;;
       if negb ok then return_ 0
       else
         ok <-- ask crypto_reconstructCertificate CryptoReconstructCertificate ;;;
         if negb ok then return_ 0
         else tell SslSetClient ;;; tell SslSetEccSlot
   else if BOARD_ESP then
     (if negb ESP32 then tell SslSetInsecure else go tt)
   else go tt) ;;;
  tell MqttSetClient ;;;
  (if BOARD_ESP then
     id <-- get getDeviceId ;;;
     fun e s => tell (MqttSetUsernamePassword id (_password s)) e s
   else go tt) ;;;
  tell MqttOnMessage ;;;
  tell (MqttSetKeepAliveInterval (30 * 1000)) ;;;
  tell (MqttSetConnectionTimeout 1500) ;;;
  id <-- get getDeviceId ;;;
  tell (MqttSetId id) ;;;
  shadowout <-- get getTopic_shadowout ;;;
  set_member (with_shadowTopicOut shadowout) ;;;
  shadowin <-- get getTopic_shadowin ;;;
  set_member (with_shadowTopicIn shadowin) ;;;
  dataout <-- get getTopic_dataout ;;;
  set_member (with_dataTopicOut dataout) ;;;
  datain <-- get getTopic_datain ;;;
  set_member (with_dataTopicIn datain) ;;;
  (if OTA_ENABLED then
     pc <-- member _property_container ;;;
     set_member
       (with_property_container
          (addPropertyReal "OTA_REQ" ReadWrite true
             (addPropertyReal "OTA_URL" ReadWrite true
                (addPropertyReal "OTA_SHA256" Read false
                   (addPropertyReal "OTA_ERROR" Read false
                      (addPropertyReal "OTA_CAP" Read false pc))))))
   else go tt) ;;;
  (if OTA_STORAGE_SNU && OTA_ENABLED then
     nina_fw_version <-- ask wifi_firmwareVersion WiFiFirmwareVersion ;;;
     pc <-- member _property_container ;;;
     if String.ltb nina_fw_version "1.4.1"
     then set_member (with_property_container (assign_ota_cap false pc))
     else set_member (with_property_container (assign_ota_cap true pc))
   else go tt) ;;;
  go 1.

(** [int begin(ConnectionHandler & connection, String brokerAddress,
    uint16_t brokerPort)] *)
Definition begin_with_connection (brokerAddress : string) (brokerPort : Z)
    : B Z :=
  set_member (with_brokerAddress brokerAddress) ;;;
  set_member (with_brokerPort brokerPort) ;;;
  tell TimeServiceBegin ;;;
  host <-- member _brokerAddress ;;;
  port <-- member _brokerPort ;;;
  begin host port.

(** The statements of [begin] up to the last check, and from the first
    configuration of the MQTT client on. *)
Definition begin_checks (brokerAddress : string) (brokerPort : Z) : B unit :=
  and_then (set_member (with_brokerAddress brokerAddress)) (fun _ =>
  and_then (set_member (with_brokerPort brokerPort)) (fun _ =>
  and_then
    (if AVR then
       and_then (ask wifi_firmwareVersion WiFiFirmwareVersion)
         (fun nina_fw_version =>
            if String.ltb nina_fw_version "1.4.2" then return_ 0 else go tt)
     else go tt) (fun _ =>
  and_then
    (if OTA_ENABLED && negb AVR then
       and_then
         (ask flash_sha256_calc (FlashSHA256Calc 0x2000 (0x40000 - 0x2000)))
         (fun digest =>
            and_then (member _property_container) (fun pc =>
              set_member
                (with_property_container (assign_ota_img_sha256 digest pc))))
     else go tt) (fun _ =>
  and_then
    (if BOARD_HAS_OFFLOADED_ECCX08 then
       and_then (ask eccx08_begin ECCX08Begin) (fun ok =>
         if negb ok then return_ 0
         else
           and_then (ask crypto_readDeviceId CryptoReadDeviceId) (fun ok =>
             if negb ok then return_ 0 else tell ECCX08End))
     else go tt) (fun _ =>
    (if BOARD_HAS_ECCX08 then
       and_then (ask eccx08_begin ECCX08Begin) (fun ok =>
         if negb ok then return_ 0
         else
           and_then (ask crypto_readDeviceId CryptoReadDeviceId) (fun ok =>
             if negb ok then return_ 0
             else
               and_then
                 (ask crypto_reconstructCertificate CryptoReconstructCertificate)
                 (fun ok =>
                    if negb ok then return_ 0
                    else and_then (tell SslSetClient)
                           (fun _ => tell SslSetEccSlot))))
     else if BOARD_ESP then
       (if negb ESP32 then tell SslSetInsecure else go tt)
     else go tt)))))).

Definition begin_configure : B Z :=
  and_then (tell MqttSetClient) (fun _ =>
  and_then
    (if BOARD_ESP then
       and_then (get getDeviceId) (fun id =>
         fun e s => tell (MqttSetUsernamePassword id (_password s)) e s)
     else go tt) (fun _ =>
  and_then (tell MqttOnMessage) (fun _ =>
  and_then (tell (MqttSetKeepAliveInterval (30 * 1000))) (fun _ =>
  and_then (tell (MqttSetConnectionTimeout 1500)) (fun _ =>
  and_then (get getDeviceId) (fun id =>
  and_then (tell (MqttSetId id)) (fun _ =>
  and_then (get getTopic_shadowout) (fun shadowout =>
  and_then (set_member (with_shadowTopicOut shadowout)) (fun _ =>
  and_then (get getTopic_shadowin) (fun shadowin =>
  and_then (set_member (with_shadowTopicIn shadowin)) (fun _ =>
  and_then (get getTopic_dataout) (fun dataout =>
  and_then (set_member (with_dataTopicOut dataout)) (fun _ =>
  and_then (get getTopic_datain) (fun datain =>
  and_then (set_member (with_dataTopicIn datain)) (fun _ =>
  and_then
    (if OTA_ENABLED then
       and_then (member _property_container) (fun pc =>
         set_member
           (with_property_container
              (addPropertyReal "OTA_REQ" ReadWrite true
                 (addPropertyReal "OTA_URL" ReadWrite true
                    (addPropertyReal "OTA_SHA256" Read false
                       (addPropertyReal "OTA_ERROR" Read false
                          (addPropertyReal "OTA_CAP" Read false pc)))))))
     else go tt) (fun _ =>
  and_then
    (if OTA_STORAGE_SNU && OTA_ENABLED then
       and_then (ask wifi_firmwareVersion WiFiFirmwareVersion)
         (fun nina_fw_version =>
            and_then (member _property_container) (fun pc =>
              if String.ltb nina_fw_version "1.4.1"
              then set_member (with_property_container (assign_ota_cap false pc))
              else set_member (with_property_container (assign_ota_cap true pc))))
     else go tt) (fun _ =>
  go 1))))))))))))))))).

(** What [begin] leaves alone: the state, the timer and the retransmit
    record. *)
Definition session_of (s : Setup) : State * Z * (list byte * Z * bool) :=
  (_state (object s), _lastSyncRequestTickTime (object s),
   (_mqtt_data_buf (object s), _mqtt_data_len (object s),
    _mqtt_data_request_retransmit (object s))).

Definition setup_topics (s : Setup) : string * string * string * string :=
  (_shadowTopicOut (object s), _shadowTopicIn (object s),
   _dataTopicOut (object s), _dataTopicIn (object s)).

Definition broker_of (s : Setup) : string * Z :=
  (_brokerAddress (object s), _brokerPort (object s)).

(** [s'] comes from [s] by calls that do not configure the MQTT client
    and by assignments to the broker and to the container only. *)
Definition only_checked (s s' : Setup) : Prop :=
  session_of s' = session_of s
  /\ setup_topics s' = setup_topics s
  /\ exists d, calls s' = calls s ++ d /\ forallb (fun io => negb (is_mqtt_setup io)) d = true.

(** [keeps f c]: the observation [f] of the setup is the same after [c],
    however [c] ends. *)
Definition keeps {A C : Type} (f : Setup -> C) (c : B A) : Prop :=
  forall (e : BeginEnv) (s : Setup), f (setup_of (c e s)) = f s.

(** [checks c]: [c] goes on or returns 0, and either way has only
    checked. *)
Definition checks {A : Type} (c : B A) : Prop :=
  forall (e : BeginEnv) (s : Setup),
    match c e s with
    | Next _ s' => only_checked s s'
    | Return_ code s' => code = 0 /\ only_checked s s'
    end.

(** [goes_on c]: [c] never returns from the function. *)
Definition goes_on {A : Type} (c : B A) : Prop :=
  forall (e : BeginEnv) (s : Setup), exists a s', c e s = Next a s'.

End Begin.

Arguments Next {PropertyContainer A}.
Arguments Return_ {PropertyContainer A}.

(** A build with a crypto chip and OTA, and the cells of its container. *)
Module BeginBench.

Import Bench.

#[export] Instance with_crypto_chip : Platform :=
  {| BOARD_HAS_OFFLOADED_ECCX08 := false;
     BOARD_HAS_ECCX08 := true;
     BOARD_ESP := false;
     ESP32 := false |}.

(** The outbox has no OTA cells: the assignments leave it as it is. *)
#[export] Instance outbox_ota : OtaProperties Outbox :=
  {| assign_ota_img_sha256 := fun _ pc => pc;
     assign_ota_cap := fun _ pc => pc;
     addPropertyReal := fun _ _ _ pc => pc |}.

(** An ESP8266 build: no crypto chip, user name and password instead. *)
Definition esp8266 : Platform :=
  {| BOARD_HAS_OFFLOADED_ECCX08 := false;
     BOARD_HAS_ECCX08 := false;
     BOARD_ESP := true;
     ESP32 := false |}.

(** An Uno WiFi Rev. 2: an AVR with an offloaded crypto chip, no OTA. *)
Definition uno_wifi_rev2 : Board :=
  {| OTA_ENABLED := false;
     OTA_STORAGE_SNU := false;
     AVR := true;
     MQTT_TRANSMIT_BUFFER_SIZE := 256 |}.

Definition uno_wifi_rev2_platform : Platform :=
  {| BOARD_HAS_OFFLOADED_ECCX08 := true;
     BOARD_HAS_ECCX08 := false;
     BOARD_ESP := false;
     ESP32 := false |}.

(** Every check passes (or not, by [chip]); the resolver answers with the
    topics of the bench. *)
Definition provisioning (chip : bool) : BeginEnv :=
  {| wifi_firmwareVersion := fun _ => "1.4.8";
     flash_sha256_calc := fun _ => "c0ffee";
     eccx08_begin := fun _ => chip;
     crypto_readDeviceId := fun _ => true;
     crypto_reconstructCertificate := fun _ => true;
     getDeviceId := fun _ => "device";
     getTopic_shadowout := fun _ => shadow_o;
     getTopic_shadowin := fun _ => shadow_i;
     getTopic_dataout := fun _ => data_o;
     getTopic_datain := fun _ => data_i |}.

(** The same, with a NINA module that reports [version]. *)
Definition with_firmware (version : string) : BeginEnv :=
  {| wifi_firmwareVersion := fun _ => version;
     flash_sha256_calc := fun _ => "c0ffee";
     eccx08_begin := fun _ => true;
     crypto_readDeviceId := fun _ => true;
     crypto_reconstructCertificate := fun _ => true;
     getDeviceId := fun _ => "device";
     getTopic_shadowout := fun _ => shadow_o;
     getTopic_shadowin := fun _ => shadow_i;
     getTopic_dataout := fun _ => data_o;
     getTopic_datain := fun _ => data_i |}.

(** The object as constructed, nothing called yet. *)
Definition fresh : Setup :=
  mkSetup (constructed ([] : Outbox)) "" [].

End BeginBench.

(** * Properties of the state machine *)

Section CloudFacts.

Context {PropertyContainer : Type}.
Context {codec : PropertyCodec PropertyContainer}.
Context {board : Board}.

Local Abbreviation Machine := (@Machine PropertyContainer).
Local Abbreviation M := (@M PropertyContainer).
Local Abbreviation ArduinoIoTCloudTCP :=
  (@ArduinoIoTCloudTCP PropertyContainer).
Local Abbreviation preserves := (@preserves PropertyContainer).
Local Abbreviation appends := (@appends PropertyContainer).
Local Abbreviation yields := (@yields PropertyContainer).

(** ** Basic facts *)

Lemma State_eqb_eq (a b : State) : State_eqb a b = true <-> a = b.
Proof. destruct a, b; simpl; split; congruence. Qed.

Lemma State_eqb_neq (a b : State) : State_eqb a b = false <-> a <> b.
Proof. destruct a, b; simpl; split; congruence. Qed.

Lemma events_app (ev : ArduinoIoTCloudEvent) (l d : list IO) :
  events ev (l ++ d) = (events ev l + events ev d)%nat.
Proof. unfold events. now rewrite filter_app, length_app. Qed.

Lemma stops_app (l d : list IO) :
  stops (l ++ d) = (stops l + stops d)%nat.
Proof. unfold stops. now rewrite filter_app, length_app. Qed.

Lemma transmissions_app (l d : list IO) :
  transmissions (l ++ d) = (transmissions l + transmissions d)%nat.
Proof. unfold transmissions. now rewrite filter_app, length_app. Qed.

Lemma payloads_app (l d : list IO) :
  payloads (l ++ d) = payloads l ++ payloads d.
Proof.
  induction l as [|io l IH]; [reflexivity|].
  destruct io; simpl; rewrite ?IH; reflexivity.
Qed.

Lemma span_read_bytes (n : nat) (rx : list byte) :
  span (read_bytes n rx) (Z.of_nat n) = read_bytes n rx.
Proof.
  unfold span. rewrite Nat2Z.id.
  revert rx; induction n as [|n IH]; intros rx; [reflexivity|].
  destruct rx as [|b rx]; simpl; now rewrite IH.
Qed.

Lemma read_bytes_all (rx : list byte) :
  read_bytes (List.length rx) rx = rx.
Proof. induction rx as [|b rx IH]; simpl; congruence. Qed.

(** Called from the poll, [handleMessage] decodes the whole payload. *)
Lemma received_whole (rx : Message) :
  received rx (Z.of_nat (List.length (msg_payload rx))) = msg_payload rx.
Proof.
  unfold received. rewrite Nat2Z.id, span_read_bytes. apply read_bytes_all.
Qed.

Lemma write_sent (topic : string) (data : list byte) (length : Z)
    (e : Env) (m : Machine) :
  exists (r : Z) (d : list IO),
    write topic data length e m = Returned r (mkMachine (self m) (log m ++ d))
    /\ sent topic (span data length) length d.
Proof.
  unfold write, bind, mqttClient_beginMessage, mqttClient_write,
    mqttClient_endMessage, query, ret; simpl.
  destruct (mqtt_beginMessage e (log m) topic length); simpl.
  - destruct (mqtt_write e _ (span data length)); simpl.
    + destruct (mqtt_endMessage e _); simpl; rewrite <- ?app_assoc; simpl;
        eexists _, _; (split; [reflexivity|]); constructor.
    + rewrite <- ?app_assoc; simpl.
      eexists _, _; split; [reflexivity|constructor].
  - eexists _, _; split; [reflexivity|constructor].
Qed.

Ltac step_write :=
  match goal with
  | |- context [write ?t ?b ?l ?e ?m] =>
      let r := fresh "r" in
      let d := fresh "d" in
      let Hw := fresh "Hw" in
      let Hs := fresh "Hsent" in
      destruct (write_sent t b l e m) as (r & d & Hw & Hs);
      rewrite Hw; clear Hw; simpl
  end.

(** ** Frame reasoning: what a computation leaves alone *)

Lemma final_bind {A B : Type} (c : M A) (k : A -> M B) (e : Env) (m : Machine) :
  final (bind c k e m) =
  match c e m with
  | Returned a m' => final (k a e m')
  | Reset m' => m'
  end.
Proof. unfold bind. destruct (c e m); reflexivity. Qed.

Lemma preserves_bind {A B C : Type} (f : Machine -> C) (c : M A) (k : A -> M B) :
  preserves f c -> (forall a, preserves f (k a)) -> preserves f (bind c k).
Proof.
  intros Hc Hk e m. rewrite final_bind.
  specialize (Hc e m). destruct (c e m) as [a m'|m']; simpl in Hc.
  - now rewrite Hk.
  - exact Hc.
Qed.

Lemma preserves_ret {A B : Type} (f : Machine -> B) (a : A) : preserves f (ret a).
Proof. intros e m; reflexivity. Qed.

Lemma preserves_read {A B : Type} (f : Machine -> B)
    (g : ArduinoIoTCloudTCP -> A) : preserves f (read g).
Proof. intros e m; reflexivity. Qed.

Lemma preserves_assign {B : Type} (f : Machine -> B)
    (g : ArduinoIoTCloudTCP -> ArduinoIoTCloudTCP) :
  (forall m, f (mkMachine (g (self m)) (log m)) = f m) ->
  preserves f (assign g).
Proof. intros H e m; apply H. Qed.

Lemma preserves_call {B : Type} (f : Machine -> B) (ev : IO) :
  (forall m, f (mkMachine (self m) (log m ++ [ev])) = f m) ->
  preserves f (call ev).
Proof. intros H e m; apply H. Qed.

Lemma preserves_query {A B : Type} (f : Machine -> B)
    (answer : Env -> list IO -> A) (ev : A -> IO) :
  (forall m r, f (mkMachine (self m) (log m ++ [ev r])) = f m) ->
  preserves f (query answer ev).
Proof. intros H e m; apply H. Qed.

Lemma preserves_peek {A B : Type} (f : Machine -> B)
    (answer : Env -> list IO -> A) : preserves f (peek answer).
Proof. intros e m; reflexivity. Qed.

Lemma preserves_reset {A B : Type} (f : Machine -> B) :
  (forall m, f (mkMachine (self m) (log m ++ [NvicSystemReset])) = f m) ->
  preserves f (reset (A := A)).
Proof. intros H e m; apply H. Qed.

Ltac frame_leaf :=
  intros;
  unfold record_of, timer_of, pending_of, state_of, topics_of, events_of,
    stops_of, events, transmissions, stops;
  simpl; rewrite ?filter_app, ?length_app; simpl;
  rewrite ?Nat.add_0_r; try reflexivity.

Create HintDb frame discriminated.

Ltac unfold_members :=
  unfold update, connected, mqttClient_poll, onMessage, handleMessage,
    handle_Connected, handle_RequestLastValues, handle_SubscribeMqttTopics,
    handle_ConnectMqttBroker, handle_SyncTime, handle_ConnectPhy,
    onOTARequest, requestLastValue, sendPropertiesToCloud, write,
    updateTimestampOnLocallyChangedProperties_, CBORDecoder_decode_,
    execCloudEventCallback, mqttClient_endMessage, mqttClient_write,
    mqttClient_beginMessage, mqttClient_stop, mqttClient_connected,
    mqttClient_subscribe, mqttClient_connect, millis_,
    time_service_getTime_, connection_check_.

Ltac frame :=
  unfold_members;
  repeat first
    [ solve [auto with frame]
    | apply preserves_bind; [|intros]
    | apply preserves_ret
    | apply preserves_read
    | apply preserves_peek
    | apply preserves_assign; frame_leaf
    | apply preserves_call; frame_leaf
    | apply preserves_query; frame_leaf
    | apply preserves_reset; frame_leaf
    | match goal with
      | |- preserves _ (if ?b then _ else _) => destruct b
      | |- preserves _ (match ?o with Some _ => _ | None => _ end) => destruct o
      | |- preserves _ (match ?s with ConnectPhy => _ | _ => _ end) => destruct s
      | |- preserves _ (let _ := _ in _) => cbv zeta
      end ].

(** *** The message callback and the poll *)

(** The retransmit flag, the timer and the topics are out of the reach of
    every message. *)
Lemma handleMessage_keeps_pending (rx : Message) (length : Z) :
  preserves pending_of (handleMessage rx length).
Proof. frame. Qed.

Lemma handleMessage_keeps_timer (rx : Message) (length : Z) :
  preserves timer_of (handleMessage rx length).
Proof. frame. Qed.

Lemma handleMessage_keeps_topics (rx : Message) (length : Z) :
  preserves topics_of (handleMessage rx length).
Proof. frame. Qed.

Lemma handleMessage_no_connect (rx : Message) (length : Z) :
  preserves (events_of CONNECT) (handleMessage rx length).
Proof. frame. Qed.

Lemma handleMessage_no_disconnect (rx : Message) (length : Z) :
  preserves (events_of DISCONNECT) (handleMessage rx length).
Proof. frame. Qed.

Lemma handleMessage_no_stop_request (rx : Message) (length : Z) :
  preserves stops_of (handleMessage rx length).
Proof. frame. Qed.

Lemma dispatch_preserves {B : Type} (f : Machine -> B) :
  (forall rx length, preserves f (handleMessage rx length)) ->
  forall inbox, preserves f (dispatch inbox).
Proof.
  intros H inbox; induction inbox as [|rx rest IH]; simpl.
  - apply preserves_ret.
  - apply preserves_bind; [apply H | intros _; exact IH].
Qed.

Lemma dispatch_keeps_pending inbox : preserves pending_of (dispatch inbox).
Proof. apply dispatch_preserves, handleMessage_keeps_pending. Qed.

Lemma dispatch_keeps_timer inbox : preserves timer_of (dispatch inbox).
Proof. apply dispatch_preserves, handleMessage_keeps_timer. Qed.

Lemma dispatch_keeps_topics inbox : preserves topics_of (dispatch inbox).
Proof. apply dispatch_preserves, handleMessage_keeps_topics. Qed.

Lemma dispatch_no_connect inbox : preserves (events_of CONNECT) (dispatch inbox).
Proof. apply dispatch_preserves, handleMessage_no_connect. Qed.

Lemma dispatch_no_disconnect inbox :
  preserves (events_of DISCONNECT) (dispatch inbox).
Proof. apply dispatch_preserves, handleMessage_no_disconnect. Qed.

Lemma dispatch_no_stop_request inbox : preserves stops_of (dispatch inbox).
Proof. apply dispatch_preserves, handleMessage_no_stop_request. Qed.

#[local] Hint Resolve dispatch_keeps_pending dispatch_keeps_timer
  dispatch_keeps_topics dispatch_no_connect dispatch_no_disconnect
  dispatch_no_stop_request : frame.

(** *** The send path, case by case *)

Lemma sendPropertiesToCloud_sends (e : Env) (m : Machine) :
  to_send (encoded (self m)) = true ->
  exists d,
    sendPropertiesToCloud e m =
      Returned tt (mkMachine (stored (encoded (self m)) (self m))
                             (log m ++ CborEncode :: d))
    /\ sent (_dataTopicOut (self m))
         (span (_mqtt_data_buf (stored (encoded (self m)) (self m)))
               (enc_bytes_encoded (encoded (self m))))
         (enc_bytes_encoded (encoded (self m))) d.
Proof.
  unfold to_send, encoded. intros H. apply andb_true_iff in H as [He Hn].
  unfold sendPropertiesToCloud, bind, read, assign, call, ret; simpl.
  rewrite He, Hn. step_write.
  exists d. rewrite <- app_assoc. split; [reflexivity | exact Hsent].
Qed.

Lemma sendPropertiesToCloud_skips (e : Env) (m : Machine) :
  to_send (encoded (self m)) = false ->
  sendPropertiesToCloud e m =
    Returned tt
      (mkMachine
         (with_property_container (enc_container (encoded (self m))) (self m))
         (log m ++ [CborEncode])).
Proof.
  unfold to_send, encoded. intros H.
  unfold sendPropertiesToCloud, bind, read, assign, call, ret; simpl.
  apply andb_false_iff in H as [H|H]; rewrite H; [reflexivity|].
  destruct (_ =? _)%Z; reflexivity.
Qed.

(** *** Messages outside the handshake *)

Lemma handleMessage_idle (rx : Message) (length : Z) (e : Env) (m : Machine) :
  completes_handshake rx (self m) = false ->
  handleMessage rx length e m =
    Returned tt
      (if String.eqb (_dataTopicIn (self m)) (msg_topic rx)
       then delta_decoded (received rx length) m
       else m).
Proof.
  unfold completes_handshake, handleMessage, CBORDecoder_decode_, bind, read,
    assign, call, ret, delta_decoded, received.
  intros H. destruct (String.eqb (_dataTopicIn (self m)) (msg_topic rx));
    simpl; rewrite H; reflexivity.
Qed.

Lemma inbound_app (d1 d2 : list IO) :
  inbound d1 -> inbound d2 -> inbound (d1 ++ d2).
Proof. unfold inbound. rewrite forallb_app. now intros -> ->. Qed.

Lemma inbound_silent (d : list IO) :
  inbound d ->
  (forall ev, events ev d = 0%nat) /\ transmissions d = 0%nat
  /\ stops d = 0%nat /\ payloads d = []
  /\ filter is_sync_decode d = [].
Proof.
  unfold inbound, events, transmissions, stops.
  induction d as [|io d IH]; simpl; [now auto|].
  intros H. apply andb_true_iff in H as [Hio Hd].
  destruct (IH Hd) as (He & Ht & Hs & Hp & Hf).
  destruct io as [| | | | | | | | | | | | | ? [|] | | |]; simpl in *;
    try discriminate; auto.
Qed.

(** Outside the handshake a poll only moves the container: the connection
    state, the retransmit record and the timer stay, and nothing but
    partial decodes is logged. *)
Lemma dispatch_idle (inbox : list Message) (e : Env) (m : Machine) :
  _state (self m) <> RequestLastValues ->
  exists pc d,
    dispatch inbox e m =
      Returned tt (mkMachine (with_property_container pc (self m)) (log m ++ d))
    /\ inbound d.
Proof.
  revert m. induction inbox as [|rx rest IH]; intros m Hst.
  - exists (_property_container (self m)), []. rewrite app_nil_r.
    destruct m as [[] l]; simpl. split; reflexivity.
  - simpl. unfold bind, onMessage. rewrite handleMessage_idle.
    2:{ unfold completes_handshake. apply State_eqb_neq in Hst. rewrite Hst.
        apply andb_false_r. }
    destruct (String.eqb _ _).
    + destruct (IH (delta_decoded (received rx (Z.of_nat (List.length (msg_payload rx)))) m))
        as (pc & d & -> & Hd); [exact Hst|].
      unfold delta_decoded; simpl. rewrite <- app_assoc.
      eexists pc, _. split; [reflexivity|].
      apply (inbound_app [_] d); [reflexivity | exact Hd].
    + apply IH, Hst.
Qed.

Lemma update_handler (e : Env) (m : Machine) :
  update e m = bind (handler (_state (self m))) update_tail e m.
Proof. reflexivity. Qed.

Lemma update_tail_idle (next_state : State) (e : Env) (m : Machine) :
  next_state <> RequestLastValues ->
  exists pc d,
    update_tail next_state e m =
      Returned tt
        (mkMachine (with_property_container pc (with_state next_state (self m)))
                   (log m ++ d))
    /\ inbound d.
Proof.
  intros Hn. unfold update_tail, mqttClient_connected, mqttClient_poll,
    bind, assign, query, ret; simpl.
  destruct (mqtt_connected e (log m)) eqn:Hc; simpl.
  - match goal with
    | |- context [dispatch ?i e ?m'] =>
        destruct (dispatch_idle i e m') as (pc & d & Hrun & Hd);
          [exact Hn | rewrite Hrun; clear Hrun]
    end.
    simpl. rewrite <- !app_assoc. exists pc. eexists. split; [reflexivity|].
    apply (inbound_app [_; _] d); [reflexivity | exact Hd].
  - exists (_property_container (self m)), [MqttConnected false].
    split; reflexivity.
Qed.

Lemma sendPropertiesToCloud_returns (e : Env) (m : Machine) :
  sendPropertiesToCloud e m = Returned tt (final (sendPropertiesToCloud e m)).
Proof.
  destruct (to_send (encoded (self m))) eqn:H.
  - destruct (sendPropertiesToCloud_sends e m H) as (d & -> & _). reflexivity.
  - rewrite (sendPropertiesToCloud_skips e m H). reflexivity.
Qed.

Lemma sendPropertiesToCloud_silent (ev : ArduinoIoTCloudEvent) :
  preserves (events_of ev) sendPropertiesToCloud.
Proof. frame. Qed.

Lemma sendPropertiesToCloud_keeps_pending :
  preserves pending_of sendPropertiesToCloud.
Proof. frame. Qed.

(** *** Messages that complete the handshake *)

Lemma handleMessage_handshake (rx : Message) (length : Z) (e : Env) (m : Machine) :
  completes_handshake rx (self m) = true ->
  let m1 := if String.eqb (_dataTopicIn (self m)) (msg_topic rx)
            then delta_decoded (received rx length) m else m in
  let m2 := final (sendPropertiesToCloud e (sync_decoded (received rx length) m1)) in
  handleMessage rx length e m =
    Returned tt
      (mkMachine (with_state Connected (self m2)) (log m2 ++ [CloudEvent SYNC])).
Proof.
  unfold completes_handshake, handleMessage, CBORDecoder_decode_,
    execCloudEventCallback, bind, read, assign, call, ret, delta_decoded,
    sync_decoded, received.
  intros H. destruct (String.eqb (_dataTopicIn (self m)) (msg_topic rx));
    simpl; rewrite H; rewrite sendPropertiesToCloud_returns; reflexivity.
Qed.

Lemma handle_RequestLastValues_due (e : Env) (m : Machine) :
  request_due e m = true ->
  exists d,
    handle_RequestLastValues e m =
      Returned RequestLastValues
        (mkMachine (with_lastSyncRequestTickTime (now e m) (self m))
                   (log m ++ Millis (now e m) :: d))
    /\ sent (_shadowTopicOut (self m)) CBOR_REQUEST_LAST_VALUE_MSG 22 d.
Proof.
  unfold request_due, now. intros H.
  unfold handle_RequestLastValues, requestLastValue, millis_, bind, query,
    read, assign, ret; simpl.
  rewrite H. step_write. exists d. rewrite <- app_assoc.
  split; [reflexivity | exact Hsent].
Qed.

Lemma handle_RequestLastValues_early (e : Env) (m : Machine) :
  request_due e m = false ->
  handle_RequestLastValues e m =
    Returned RequestLastValues
      (mkMachine (self m) (log m ++ [Millis (now e m)])).
Proof.
  unfold request_due, now. intros H.
  unfold handle_RequestLastValues, requestLastValue, millis_, bind, query,
    read, assign, ret; simpl.
  rewrite H. reflexivity.
Qed.

Lemma sent_transmissions (topic : string) (payload : list byte) (size : Z)
    (d : list IO) :
  sent topic payload size d -> transmissions d = 1%nat.
Proof. intros []; reflexivity. Qed.

(** *** The Connected handler, case by case *)

Lemma handle_Connected_offline (e : Env) (m : Machine) :
  mqtt_connected e (log m) = false ->
  handle_Connected e m =
    Returned ConnectPhy
      (mkMachine (with_mqtt_data_request_retransmit true (self m))
         (log m ++ [MqttConnected false; MqttStop; CloudEvent DISCONNECT])).
Proof.
  intros Hc.
  unfold handle_Connected, mqttClient_connected, mqttClient_stop,
    execCloudEventCallback, bind, query, call, assign, ret; simpl.
  rewrite Hc; simpl. now rewrite <- !app_assoc.
Qed.

Lemma handle_Connected_online (e : Env) (m : Machine) :
  mqtt_connected e (log m) = true ->
  exists d,
    (if resend_due (self m)
     then sent (_dataTopicOut (self m))
            (span (_mqtt_data_buf (self m)) (_mqtt_data_len (self m)))
            (_mqtt_data_len (self m)) d
     else d = [])
    /\ handle_Connected e m =
         ota_and_return e
           (final (sendPropertiesToCloud e
                     (mkMachine (resent e m)
                                (log m ++ MqttConnected true :: d)))).
Proof.
  intros Hc. unfold resent, resend_due.
  unfold handle_Connected, bind at 1, mqttClient_connected, query; simpl.
  rewrite Hc; simpl.
  unfold updateTimestampOnLocallyChangedProperties_, bind, peek, read, assign;
    simpl.
  fold (stamped e m).
  destruct (_mqtt_data_request_retransmit (self m) && (0 <? _mqtt_data_len (self m))%Z).
  - step_write. exists d. split; [exact Hsent|].
    rewrite <- app_assoc. simpl.
    rewrite sendPropertiesToCloud_returns. reflexivity.
  - exists []. split; [reflexivity|]. simpl.
    rewrite sendPropertiesToCloud_returns. reflexivity.
Qed.

Lemma ota_and_return_keeps_pending : preserves pending_of ota_and_return.
Proof. unfold ota_and_return. frame. Qed.

(** *** Each handler's frame *)

Lemma handler_keeps_state (st : State) : preserves state_of (handler st).
Proof. destruct st; unfold handler; frame. Qed.

Lemma handler_keeps_topics (st : State) : preserves topics_of (handler st).
Proof. destruct st; unfold handler; frame. Qed.

Lemma handler_no_sync (st : State) : preserves (events_of SYNC) (handler st).
Proof. destruct st; unfold handler; frame. Qed.

Lemma handler_keeps_pending (st : State) :
  st <> Connected -> preserves pending_of (handler st).
Proof. destruct st; try congruence; intros _; unfold handler; frame. Qed.

Lemma handler_keeps_timer (st : State) :
  st <> RequestLastValues -> preserves timer_of (handler st).
Proof. destruct st; try congruence; intros _; unfold handler; frame. Qed.

Lemma handler_keeps_record (st : State) :
  st <> Connected -> preserves record_of (handler st).
Proof. destruct st; try congruence; intros _; unfold handler; frame. Qed.

Lemma update_tail_keeps_pending (next_state : State) :
  preserves pending_of (update_tail next_state).
Proof. unfold update_tail. frame. Qed.

Lemma update_tail_keeps_timer (next_state : State) :
  preserves timer_of (update_tail next_state).
Proof. unfold update_tail. frame. Qed.

Lemma update_tail_no_connect (next_state : State) :
  preserves (events_of CONNECT) (update_tail next_state).
Proof. unfold update_tail. frame. Qed.

(** *** A whole tick *)

Lemma update_final (e : Env) (m : Machine) :
  final (update e m) =
  match handler (_state (self m)) e m with
  | Returned next_state m1 => final (update_tail next_state e m1)
  | Reset m1 => m1
  end.
Proof. rewrite update_handler. apply final_bind. Qed.

Lemma update_pending (e : Env) (m : Machine) :
  pending_of (final (update e m)) =
  pending_of (final (handler (_state (self m)) e m)).
Proof.
  rewrite update_final. destruct (handler _ e m) as [next m1|m1]; simpl.
  - apply update_tail_keeps_pending.
  - reflexivity.
Qed.

Lemma update_on_disconnect (e : Env) (m : Machine) :
  _state (self m) = Connected ->
  mqtt_connected e (log m) = false ->
  exists pc d,
    update e m =
      Returned tt
        (mkMachine
           (with_property_container pc
              (with_state ConnectPhy
                 (with_mqtt_data_request_retransmit true (self m))))
           (log m ++ [MqttConnected false; MqttStop; CloudEvent DISCONNECT] ++ d))
    /\ inbound d.
Proof.
  intros Hst Hc. rewrite update_handler, Hst. unfold bind, handler.
  rewrite (handle_Connected_offline e m Hc).
  destruct (update_tail_idle ConnectPhy e
              (mkMachine (with_mqtt_data_request_retransmit true (self m))
                 (log m ++ [MqttConnected false; MqttStop; CloudEvent DISCONNECT])))
    as (pc & d & -> & Hd); [discriminate|].
  exists pc, d. simpl. rewrite <- app_assoc. split; [reflexivity | exact Hd].
Qed.

(** *** The log only grows *)

Lemma appends_bind {A B : Type} (c : M A) (k : A -> M B) :
  appends c -> (forall a, appends (k a)) -> appends (bind c k).
Proof.
  intros Hc Hk e m. rewrite final_bind.
  destruct (Hc e m) as (d1 & H1). destruct (c e m) as [a m'|m']; simpl in H1.
  - destruct (Hk a e m') as (d2 & H2). exists (d1 ++ d2).
    now rewrite H2, H1, app_assoc.
  - now exists d1.
Qed.

Lemma appends_ret {A : Type} (a : A) : appends (ret a : M A).
Proof. intros e m. exists []. now rewrite app_nil_r. Qed.

Lemma appends_read {A : Type} (g : ArduinoIoTCloudTCP -> A) : appends (read g).
Proof. intros e m. exists []. now rewrite app_nil_r. Qed.

Lemma appends_peek {A : Type} (answer : Env -> list IO -> A) :
  appends (peek answer : M A).
Proof. intros e m. exists []. now rewrite app_nil_r. Qed.

Lemma appends_assign (g : ArduinoIoTCloudTCP -> ArduinoIoTCloudTCP) :
  appends (assign g).
Proof. intros e m. exists []. simpl. now rewrite app_nil_r. Qed.

Lemma appends_call (ev : IO) : appends (call ev : M unit).
Proof. intros e m. now exists [ev]. Qed.

Lemma appends_query {A : Type} (answer : Env -> list IO -> A) (ev : A -> IO) :
  appends (query answer ev : M A).
Proof. intros e m. now eexists [_]. Qed.

Lemma appends_reset {A : Type} : appends (reset : M A).
Proof. intros e m. now exists [NvicSystemReset]. Qed.

Lemma appends_dispatch (inbox : list Message) :
  (forall rx length, appends (handleMessage rx length)) ->
  appends (dispatch inbox).
Proof.
  intros H. induction inbox as [|rx rest IH]; simpl.
  - apply appends_ret.
  - apply appends_bind; [apply H | intros _; exact IH].
Qed.

Ltac appending :=
  unfold_members;
  repeat first
    [ solve [auto with frame]
    | apply appends_bind; [|intros]
    | apply appends_ret
    | apply appends_read
    | apply appends_peek
    | apply appends_assign
    | apply appends_call
    | apply appends_query
    | apply appends_reset
    | match goal with
      | |- appends (if ?b then _ else _) => destruct b
      | |- appends (match ?o with Some _ => _ | None => _ end) => destruct o
      | |- appends (match ?s with ConnectPhy => _ | _ => _ end) => destruct s
      | |- appends (let _ := _ in _) => cbv zeta
      end ].

Lemma handleMessage_appends (rx : Message) (length : Z) :
  appends (handleMessage rx length).
Proof. appending. Qed.

Lemma dispatch_appends (inbox : list Message) : appends (dispatch inbox).
Proof. apply appends_dispatch, handleMessage_appends. Qed.

#[local] Hint Resolve dispatch_appends : frame.

Lemma sendPropertiesToCloud_appends : appends sendPropertiesToCloud.
Proof. appending. Qed.

Lemma ota_and_return_appends : appends ota_and_return.
Proof. unfold ota_and_return. appending. Qed.

Lemma update_tail_appends (next_state : State) :
  appends (update_tail next_state).
Proof. unfold update_tail. appending. Qed.

Lemma handler_appends (st : State) : appends (handler st).
Proof. destruct st; unfold handler; appending. Qed.

Lemma update_appends : appends update.
Proof.
  intros e m. rewrite update_handler.
  apply appends_bind; [apply handler_appends | apply update_tail_appends].
Qed.

(** *** What a handler can return *)

Lemma yields_bind {A B : Type} (P : B -> Prop) (c : M A) (k : A -> M B) :
  (forall a, yields P (k a)) -> yields P (bind c k).
Proof.
  intros Hk e m b m'. unfold bind.
  destruct (c e m) as [a m1|m1]; [apply Hk | discriminate].
Qed.

Lemma yields_ret {A : Type} (P : A -> Prop) (a : A) :
  P a -> yields P (ret a : M A).
Proof. intros H e m a' m' [= <- _]. exact H. Qed.

Ltac yielding :=
  unfold_members;
  repeat first
    [ apply yields_bind; intros
    | apply yields_ret
    | match goal with
      | |- yields _ (if ?b then _ else _) => destruct b
      end ].

Lemma handle_ConnectPhy_next :
  yields (fun s => s = SyncTime \/ s = ConnectPhy) handle_ConnectPhy.
Proof. yielding; auto. Qed.

Lemma handle_SyncTime_next :
  yields (fun s => s = ConnectMqttBroker) handle_SyncTime.
Proof. yielding; auto. Qed.

Lemma handle_ConnectMqttBroker_next :
  yields (fun s => s = SubscribeMqttTopics \/ s = ConnectPhy)
    handle_ConnectMqttBroker.
Proof. yielding; auto. Qed.

Lemma handle_Connected_next :
  yields (fun s => s = ConnectPhy \/ s = Connected) handle_Connected.
Proof. yielding; auto. Qed.

Lemma handle_SubscribeMqttTopics_no_shadow (e : Env) (m : Machine)
    (next : State) (m' : Machine) :
  _shadowTopicIn (self m) = "" ->
  handle_SubscribeMqttTopics e m = Returned next m' ->
  next = SubscribeMqttTopics \/ next = Connected.
Proof.
  intros Hs.
  unfold handle_SubscribeMqttTopics, mqttClient_subscribe,
    execCloudEventCallback, bind, read, query, call, ret; simpl.
  destruct (mqtt_subscribe e (log m) (_dataTopicIn (self m))); simpl;
    rewrite ?Hs; simpl; intros [= <- _]; auto.
Qed.

Lemma handler_next_no_shadow (st : State) (e : Env) (m : Machine)
    (next : State) (m' : Machine) :
  st <> RequestLastValues ->
  _shadowTopicIn (self m) = "" ->
  handler st e m = Returned next m' ->
  next <> RequestLastValues.
Proof.
  intros Hst Hs H. destruct st; unfold handler in H.
  - apply handle_ConnectPhy_next in H as [-> | ->]; discriminate.
  - apply handle_SyncTime_next in H as ->; discriminate.
  - apply handle_ConnectMqttBroker_next in H as [-> | ->]; discriminate.
  - apply (handle_SubscribeMqttTopics_no_shadow e m next m' Hs) in H
      as [-> | ->]; discriminate.
  - congruence.
  - apply handle_Connected_next in H as [-> | ->]; discriminate.
Qed.

Lemma update_no_shadow (e : Env) (m : Machine) :
  no_shadow m ->
  no_shadow (final (update e m))
  /\ events SYNC (log (final (update e m))) = events SYNC (log m).
Proof.
  intros [Hs Hst]. rewrite update_final.
  pose proof (handler_keeps_topics (_state (self m)) e m) as Ht.
  pose proof (handler_keeps_state (_state (self m)) e m) as Hk.
  pose proof (handler_no_sync (_state (self m)) e m) as Hn.
  destruct (handler (_state (self m)) e m) as [next m1|m1] eqn:Hh;
    simpl in Ht, Hk, Hn; unfold topics_of, state_of, events_of in *.
  - assert (Hnext : next <> RequestLastValues)
      by (eapply handler_next_no_shadow; eauto).
    destruct (update_tail_idle next e m1 Hnext) as (pc & d & -> & Hd).
    destruct (inbound_silent d Hd) as (Hev & _).
    unfold no_shadow; simpl. rewrite events_app, Hev, Hn, Nat.add_0_r.
    repeat split; [congruence | exact Hnext].
  - unfold no_shadow. rewrite Hk. repeat split; congruence.
Qed.

Lemma run_no_shadow (ticks : list Env) (m : Machine) :
  no_shadow m ->
  events SYNC (log (run ticks m)) = events SYNC (log m).
Proof.
  revert m. induction ticks as [|e rest IH]; intros m Hm; [reflexivity|].
  simpl. destruct (update_no_shadow e m Hm) as [Hinv Hev].
  destruct (update e m) as [[] m'|m']; simpl in Hinv, Hev.
  - rewrite IH; assumption.
  - exact Hev.
Qed.

Lemma handle_SubscribeMqttTopics_success (e : Env) (m : Machine) :
  subscriptions_succeed e m = true ->
  exists d,
    handle_SubscribeMqttTopics e m =
      Returned (after_subscription (self m)) (mkMachine (self m) (log m ++ d))
    /\ events CONNECT d = 1%nat
    /\ events SYNC d = 0%nat
    /\ events DISCONNECT d = 0%nat.
Proof.
  unfold subscriptions_succeed, after_subscription. intros H.
  apply andb_true_iff in H as [H1 H2].
  unfold handle_SubscribeMqttTopics, mqttClient_subscribe,
    execCloudEventCallback, bind, read, query, call, ret; simpl.
  rewrite H1; simpl.
  destruct (String.eqb (_shadowTopicIn (self m)) "") eqn:Hs; simpl in *.
  - eexists. rewrite <- app_assoc. split; [reflexivity|]. repeat split.
  - rewrite H2; simpl. eexists. rewrite <- !app_assoc.
    split; [reflexivity|]. repeat split.
Qed.

Lemma dispatch_returns (inbox : list Message) (e : Env) (m : Machine) :
  exists m',
    dispatch inbox e m = Returned tt m'
    /\ (_state (self m') = _state (self m) \/ _state (self m') = Connected).
Proof.
  revert m. induction inbox as [|rx rest IH]; intros m.
  - exists m. split; [reflexivity | now left].
  - simpl. unfold bind, onMessage.
    destruct (completes_handshake rx (self m)) eqn:H.
    + rewrite (handleMessage_handshake rx _ e m H).
      match goal with
      | |- context [dispatch rest e ?m1] =>
          destruct (IH m1) as (m2 & -> & H2)
      end.
      exists m2. split; [reflexivity|]. simpl in H2. destruct H2; auto.
    + rewrite (handleMessage_idle rx _ e m H).
      match goal with
      | |- context [dispatch rest e ?m1] =>
          destruct (IH m1) as (m2 & -> & H2)
      end.
      exists m2. split; [reflexivity|].
      destruct (String.eqb _ _); simpl in H2; exact H2.
Qed.

Lemma update_tail_returns (next_state : State) (e : Env) (m : Machine) :
  exists m',
    update_tail next_state e m = Returned tt m'
    /\ (_state (self m') = next_state \/ _state (self m') = Connected).
Proof.
  unfold update_tail, mqttClient_connected, mqttClient_poll, bind, assign,
    query, ret; simpl.
  destruct (mqtt_connected e (log m)); simpl.
  - match goal with
    | |- context [dispatch ?i e ?m'] =>
        destruct (dispatch_returns i e m') as (m2 & -> & H)
    end.
    exists m2. split; [reflexivity | exact H].
  - eexists. split; [reflexivity | now left].
Qed.

(** Started from the constructed object with an empty shadow-in topic,
    no execution ever emits SYNC. *)
Lemma no_sync_without_shadow (ticks : list Env) (pc : PropertyContainer)
    (host : string) (port : Z) (shadowout dataout datain : string) :
  events SYNC
    (log (run ticks
            (mkMachine (begun host port shadowout "" dataout datain
                          (constructed pc)) []))) = 0%nat.
Proof. rewrite run_no_shadow; [reflexivity|]. split; [reflexivity|discriminate]. Qed.

(** Nor do the ticks that lead back to the subscription touch them. *)
Lemma restart_keeps_record_and_timer (e : Env) (m : Machine) :
  _state (self m) = ConnectPhy \/ _state (self m) = SyncTime
  \/ _state (self m) = ConnectMqttBroker ->
  exists m',
    update e m = Returned tt m'
    /\ record_of m' = record_of m
    /\ timer_of m' = timer_of m.
Proof.
  intros Hst. rewrite update_handler. unfold bind.
  assert (Hr : preserves record_of (handler (_state (self m))))
    by (apply handler_keeps_record; intuition congruence).
  assert (Ht : preserves timer_of (handler (_state (self m))))
    by (apply handler_keeps_timer; intuition congruence).
  specialize (Hr e m). specialize (Ht e m).
  destruct (handler (_state (self m)) e m) as [next m1|m1] eqn:Hh.
  - assert (Hnext : next <> RequestLastValues).
    { destruct Hst as [Hst|[Hst|Hst]]; rewrite Hst in Hh; unfold handler in Hh.
      - apply handle_ConnectPhy_next in Hh as [-> | ->]; discriminate.
      - apply handle_SyncTime_next in Hh as ->; discriminate.
      - apply handle_ConnectMqttBroker_next in Hh as [-> | ->]; discriminate. }
    destruct (update_tail_idle next e m1 Hnext) as (pc & d & -> & _).
    eexists. split; [reflexivity|]. simpl in Hr, Ht.
    rewrite <- Hr, <- Ht. split; reflexivity.
  - exfalso. revert Hh.
    destruct Hst as [Hst|[Hst|Hst]]; rewrite Hst; unfold handler;
      unfold_members; unfold bind, query, read, ret; simpl;
      repeat match goal with
             | |- context [if ?b then _ else _] => destruct b
             end; discriminate.
Qed.

(** *** The retransmission on the path without a handshake *)

Lemma sendPropertiesToCloud_log (e : Env) (m : Machine) :
  exists x, log (final (sendPropertiesToCloud e m)) = log m ++ CborEncode :: x.
Proof.
  destruct (to_send (encoded (self m))) eqn:H.
  - destruct (sendPropertiesToCloud_sends e m H) as (d & -> & _). now exists d.
  - rewrite (sendPropertiesToCloud_skips e m H). now exists [].
Qed.

(** A tick in Connected with the transport up and a resend due hands the
    buffered bytes to the transport before it encodes anything new, and
    clears the flag. *)
Lemma resend_precedes_encoding (e : Env) (m : Machine) :
  _state (self m) = Connected ->
  mqtt_connected e (log m) = true ->
  resend_due (self m) = true ->
  exists d rest,
    log (final (update e m)) = log m ++ MqttConnected true :: d ++ CborEncode :: rest
    /\ sent (_dataTopicOut (self m))
         (span (_mqtt_data_buf (self m)) (_mqtt_data_len (self m)))
         (_mqtt_data_len (self m)) d
    /\ _mqtt_data_request_retransmit (self (final (update e m))) = false.
Proof.
  intros Hst Hc Hdue.
  destruct (handle_Connected_online e m Hc) as (d & Hd & Hh).
  rewrite Hdue in Hd.
  assert (Hp : pending_of (final (update e m)) = false).
  { rewrite update_pending, Hst. unfold handler. rewrite Hh.
    rewrite ota_and_return_keeps_pending, sendPropertiesToCloud_keeps_pending.
    unfold pending_of, resent. rewrite Hdue. reflexivity. }
  rewrite update_final, Hst. unfold handler. rewrite Hh.
  set (m2 := mkMachine (resent e m) (log m ++ MqttConnected true :: d)).
  destruct (sendPropertiesToCloud_log e m2) as (x & Hx).
  destruct (ota_and_return_appends e (final (sendPropertiesToCloud e m2)))
    as (y & Hy).
  assert (Hz : exists z,
            log match ota_and_return e (final (sendPropertiesToCloud e m2)) with
                | Returned next_state m1 => final (update_tail next_state e m1)
                | Reset m1 => m1
                end
            = log (final (ota_and_return e (final (sendPropertiesToCloud e m2))))
              ++ z).
  { destruct (ota_and_return e _) as [next m1|m1]; simpl.
    - apply update_tail_appends.
    - exists []. now rewrite app_nil_r. }
  destruct Hz as (z & Hz).
  exists d, (x ++ y ++ z). split; [|split; [exact Hd|]].
  - rewrite Hz, Hy, Hx. unfold m2; simpl.
    rewrite <- !app_assoc. reflexivity.
  - revert Hp. rewrite update_final, Hst. unfold handler. rewrite Hh.
    intros Hp; exact Hp.
Qed.

(** Until that tick comes, a device without shadow topics keeps the
    buffered payload, its length and the raised flag. *)
Lemma pending_payload_kept (e : Env) (m : Machine) :
  no_shadow m ->
  _mqtt_data_request_retransmit (self m) = true ->
  _state (self m) <> Connected \/ mqtt_connected e (log m) = false ->
  no_shadow (final (update e m))
  /\ record_of (final (update e m)) = record_of m.
Proof.
  intros [Hs Hn] Hp Hcase.
  destruct (State_eqb (_state (self m)) Connected) eqn:Hst.
  - apply State_eqb_eq in Hst. destruct Hcase as [Hcase|Hc]; [congruence|].
    destruct (update_on_disconnect e m Hst Hc) as (pc & d & -> & _).
    unfold no_shadow, record_of; simpl. rewrite Hp.
    repeat split; [exact Hs | discriminate].
  - apply State_eqb_neq in Hst. rewrite update_final.
    pose proof (handler_keeps_topics (_state (self m)) e m) as Ht.
    pose proof (handler_keeps_state (_state (self m)) e m) as Hk.
    pose proof (handler_keeps_record (_state (self m)) Hst e m) as Hr.
    destruct (handler (_state (self m)) e m) as [next m1|m1] eqn:Hh;
      simpl in Ht, Hk, Hr; unfold topics_of, state_of in *.
    + assert (Hnext : next <> RequestLastValues)
        by (eapply handler_next_no_shadow; eauto).
      destruct (update_tail_idle next e m1 Hnext) as (pc & d & -> & _).
      unfold no_shadow; simpl. split; [split; [congruence | exact Hnext]|].
      exact Hr.
    + unfold no_shadow. rewrite Hk. split; [split; congruence | exact Hr].
Qed.

(** ** The claims *)

(** C2. A tick taken in the Connected state while the transport reports
    disconnected: [handle_Connected] stops the transport, sets the
    retransmit flag, emits DISCONNECT and returns ConnectPhy; the whole
    [update()] ends in ConnectPhy with the flag set, having stopped the
    transport once and emitted DISCONNECT exactly once. *)
Theorem connected_tick_on_disconnect (e : Env) (m : Machine) :
  _state (self m) = Connected ->
  mqtt_connected e (log m) = false ->
  handle_Connected e m =
    Returned ConnectPhy
      (mkMachine (with_mqtt_data_request_retransmit true (self m))
         (log m ++ [MqttConnected false; MqttStop; CloudEvent DISCONNECT]))
  /\ exists m' d,
       update e m = Returned tt m'
       /\ _state (self m') = ConnectPhy
       /\ _mqtt_data_request_retransmit (self m') = true
       /\ log m' = log m ++ d
       /\ stops d = 1%nat
       /\ events DISCONNECT d = 1%nat.
Proof.
  intros Hst Hc. split.
  - unfold handle_Connected, mqttClient_connected, mqttClient_stop,
      execCloudEventCallback, bind, query, call, assign, ret; simpl.
    rewrite Hc; simpl. now rewrite <- !app_assoc.
  - rewrite update_handler, Hst. unfold bind, handler.
    unfold handle_Connected at 1, mqttClient_connected, mqttClient_stop,
      execCloudEventCallback, bind, query, call, assign, ret; simpl.
    rewrite Hc; simpl.
    match goal with
    | |- context [update_tail ConnectPhy e ?m1] =>
        destruct (update_tail_idle ConnectPhy e m1) as (pc & d & -> & Hd);
          [discriminate|]
    end.
    destruct (inbound_silent d Hd) as (Hev & _ & Hstop & _).
    eexists _, _. split; [reflexivity|]. simpl.
    repeat split.
    + rewrite <- !app_assoc. reflexivity.
    + rewrite !stops_app, Hstop. reflexivity.
    + rewrite !events_app, Hev. reflexivity.
Qed.

(** C3. A tick in SubscribeMqttTopics on which every required subscription
    is granted: the handler emits CONNECT exactly once, no SYNC, and
    returns RequestLastValues when the shadow-in topic is not empty,
    Connected when it is; the whole [update()] emits CONNECT exactly once.
    When the shadow-in topic is empty the tick ends in Connected and no
    SYNC is emitted on it or on any later tick. *)
Theorem subscribe_tick_connect (e : Env) (m : Machine) (ticks : list Env) :
  _state (self m) = SubscribeMqttTopics ->
  subscriptions_succeed e m = true ->
  (exists d,
     handle_SubscribeMqttTopics e m =
       Returned (if String.eqb (_shadowTopicIn (self m)) ""
                 then Connected else RequestLastValues)
                (mkMachine (self m) (log m ++ d))
     /\ events CONNECT d = 1%nat
     /\ events SYNC d = 0%nat)
  /\ exists m',
       update e m = Returned tt m'
       /\ events CONNECT (log m') = (events CONNECT (log m) + 1)%nat
       /\ if String.eqb (_shadowTopicIn (self m)) ""
          then _state (self m') = Connected
               /\ events SYNC (log (run ticks m')) = events SYNC (log m)
          else _state (self m') = RequestLastValues
               \/ _state (self m') = Connected.
Proof.
  intros Hst Hok.
  destruct (handle_SubscribeMqttTopics_success e m Hok) as (d & Hh & Hc & Hs & _).
  unfold after_subscription in Hh.
  split; [exists d; auto|].
  rewrite update_handler, Hst. unfold bind, handler. rewrite Hh.
  set (m1 := mkMachine (self m) (log m ++ d)).
  pose proof (update_tail_no_connect
                (if String.eqb (_shadowTopicIn (self m)) ""
                 then Connected else RequestLastValues) e m1) as Hkeep.
  unfold events_of in Hkeep.
  destruct (String.eqb (_shadowTopicIn (self m)) "") eqn:Hshadow.
  - destruct (update_tail_idle Connected e m1) as (pc & d2 & Ht & Hd2);
      [discriminate|].
    rewrite Ht in Hkeep |- *. simpl in Hkeep.
    eexists. split; [reflexivity|]. simpl.
    split; [rewrite Hkeep, events_app, Hc; reflexivity|].
    split; [reflexivity|].
    rewrite run_no_shadow.
    + simpl. destruct (inbound_silent d2 Hd2) as (Hev & _).
      rewrite !events_app, Hs, Hev. lia.
    + split; simpl; [now apply String.eqb_eq | discriminate].
  - destruct (update_tail_returns RequestLastValues e m1) as (m' & Ht & Hm').
    rewrite Ht in Hkeep |- *. simpl in Hkeep.
    exists m'. split; [reflexivity|].
    split; [rewrite Hkeep; unfold m1; simpl; rewrite events_app, Hc; reflexivity|].
    exact Hm'.
Qed.

(** C4. In RequestLastValues a request goes out on a tick exactly when
    [now - _lastSyncRequestTickTime] (unsigned, so modulo 2^32) exceeds
    10000 ms, and then the timer is set to [now]; otherwise the timer
    stays. Hence of two calls of the handler no more than the interval
    apart at most one sends, and together they start at most one message
    (a started message is the most that reaches the wire). *)
Theorem request_last_values_rate_limited (e1 e2 : Env) (m : Machine) :
  ulong_sub (now e2 (final (handle_RequestLastValues e1 m))) (now e1 m)
    <= TIMEOUT_FOR_LASTVALUES_SYNC ->
  exists m1 m2,
    handle_RequestLastValues e1 m = Returned RequestLastValues m1
    /\ handle_RequestLastValues e2 m1 = Returned RequestLastValues m2
    /\ requests_in e1 m = (if request_due e1 m then 1 else 0)%nat
    /\ _lastSyncRequestTickTime (self m1) =
         (if request_due e1 m then now e1 m
          else _lastSyncRequestTickTime (self m))
    /\ requests_in e2 m1 = (if request_due e2 m1 then 1 else 0)%nat
    /\ request_due e1 m && request_due e2 m1 = false
    /\ (requests_in e1 m + requests_in e2 m1 <= 1)%nat.
Proof.
  intros Hgap. unfold requests_in.
  assert (Hone : forall (e : Env) (m0 : Machine),
            exists m', handle_RequestLastValues e m0
                       = Returned RequestLastValues m'
              /\ (transmissions (log m') - transmissions (log m0))%nat
                 = (if request_due e m0 then 1 else 0)%nat
              /\ _lastSyncRequestTickTime (self m') =
                   (if request_due e m0 then now e m0
                    else _lastSyncRequestTickTime (self m0))).
  { intros e m0. destruct (request_due e m0) eqn:Hd.
    - destruct (handle_RequestLastValues_due e m0 Hd) as (d & -> & Hs).
      eexists. split; [reflexivity|]. cbn [self log].
      rewrite transmissions_app.
      change (transmissions (Millis (now e m0) :: d)) with (transmissions d).
      rewrite (sent_transmissions _ _ _ _ Hs). split; [lia | reflexivity].
    - rewrite (handle_RequestLastValues_early e m0 Hd).
      eexists. split; [reflexivity|]. cbn [self log].
      rewrite transmissions_app.
      change (transmissions [Millis (now e m0)]) with 0%nat.
      split; [lia | reflexivity]. }
  destruct (Hone e1 m) as (m1 & H1 & Hn1 & Ht1).
  rewrite H1 in Hgap |- *. cbn [final] in Hgap |- *.
  destruct (Hone e2 m1) as (m2 & H2 & Hn2 & Ht2).
  exists m1, m2. rewrite H2. cbn [final].
  split; [reflexivity|]. split; [reflexivity|].
  split; [exact Hn1|]. split; [exact Ht1|]. split; [exact Hn2|].
  rewrite Hn1, Hn2.
  destruct (request_due e1 m) eqn:Hd1.
  - assert (Hd2 : request_due e2 m1 = false).
    { unfold request_due. rewrite Ht1. apply Z.ltb_ge. exact Hgap. }
    rewrite Hd2. split; [reflexivity | lia].
  - split; [reflexivity|]. destruct (request_due e2 m1); lia.
Qed.

(** C5, as the code has it. Over one [update()], whatever the answers and
    the messages polled: in a state other than Connected the retransmit
    flag keeps its value; in Connected with the transport down it becomes
    true, whatever the buffered length; in Connected with the transport up
    it becomes false exactly if it was true with a length above 0, and
    then the tick starts with the resend of the buffered bytes, handed to
    the transport on the data-out topic, whatever the transport answers. *)
Theorem retransmit_flag_per_tick (e : Env) (m : Machine) :
  _mqtt_data_request_retransmit (self (final (update e m))) =
    match _state (self m) with
    | Connected =>
        if mqtt_connected e (log m)
        then _mqtt_data_request_retransmit (self m)
             && negb (0 <? _mqtt_data_len (self m))%Z
        else true
    | _ => _mqtt_data_request_retransmit (self m)
    end
  /\ exists d rest,
       log (final (update e m)) = log m ++ d ++ rest
       /\ if State_eqb (_state (self m)) Connected
             && mqtt_connected e (log m) && resend_due (self m)
          then exists d',
                 d = MqttConnected true :: d'
                 /\ sent (_dataTopicOut (self m))
                      (span (_mqtt_data_buf (self m)) (_mqtt_data_len (self m)))
                      (_mqtt_data_len (self m)) d'
          else d = [].
Proof.
  split.
  - change (pending_of (final (update e m)) =
            match _state (self m) with
            | Connected =>
                if mqtt_connected e (log m)
                then pending_of m && negb (0 <? _mqtt_data_len (self m))%Z
                else true
            | _ => pending_of m
            end).
    rewrite update_pending.
    destruct (_state (self m)) eqn:Hst;
      try (apply handler_keeps_pending; discriminate).
    unfold handler. destruct (mqtt_connected e (log m)) eqn:Hc.
    + destruct (handle_Connected_online e m Hc) as (d & _ & ->).
      rewrite ota_and_return_keeps_pending, sendPropertiesToCloud_keeps_pending.
      unfold pending_of, resent, resend_due, stamped; simpl.
      destruct (_mqtt_data_request_retransmit (self m)) eqn:Hr;
        destruct (0 <? _mqtt_data_len (self m))%Z; simpl; rewrite ?Hr;
        reflexivity.
    + rewrite (handle_Connected_offline e m Hc). reflexivity.
  - destruct (State_eqb (_state (self m)) Connected
              && mqtt_connected e (log m) && resend_due (self m)) eqn:Hcase.
    + apply andb_true_iff in Hcase as [Hcase Hdue].
      apply andb_true_iff in Hcase as [Hst Hc].
      apply State_eqb_eq in Hst.
      destruct (handle_Connected_online e m Hc) as (d & Hd & Hh).
      rewrite Hdue in Hd.
      rewrite update_final, Hst. unfold handler. rewrite Hh.
      set (m2 := mkMachine (resent e m) (log m ++ MqttConnected true :: d)).
      destruct (sendPropertiesToCloud_appends e m2) as (x & Hx).
      destruct (ota_and_return_appends e (final (sendPropertiesToCloud e m2)))
        as (y & Hy).
      assert (Hz : exists z,
                log match ota_and_return e (final (sendPropertiesToCloud e m2)) with
                    | Returned next_state m1 => final (update_tail next_state e m1)
                    | Reset m1 => m1
                    end
                = log (final (ota_and_return e (final (sendPropertiesToCloud e m2))))
                  ++ z).
      { destruct (ota_and_return e _) as [next m1|m1]; simpl.
        - apply update_tail_appends.
        - exists []. now rewrite app_nil_r. }
      destruct Hz as (z & ->). rewrite Hy, Hx. unfold m2; simpl.
      exists (MqttConnected true :: d), (x ++ y ++ z). split.
      * now rewrite <- !app_assoc.
      * exists d. split; [reflexivity | exact Hd].
    + destruct (update_appends e m) as (rest & ->).
      exists [], rest. split; reflexivity.
Qed.

(** C6, as the code has it. [handleMessage] always returns, and whatever
    the decoder makes of the payload (the decoder is arbitrary here, so
    payloads it fails on are included) the connection state afterwards is
    the one before, with nothing done but the partial decode of a data-in
    message, except for a message on the shadow-in topic in the
    RequestLastValues state: that one moves the state to Connected and
    emits SYNC once. *)
Theorem handleMessage_state (rx : Message) (length : Z) (e : Env) (m : Machine) :
  exists m',
    handleMessage rx length e m = Returned tt m'
    /\ _state (self m') =
         (if completes_handshake rx (self m) then Connected
          else _state (self m))
    /\ if completes_handshake rx (self m)
       then events SYNC (log m') = S (events SYNC (log m))
       else m' = if String.eqb (_dataTopicIn (self m)) (msg_topic rx)
                 then delta_decoded (received rx length) m
                 else m.
Proof.
  destruct (completes_handshake rx (self m)) eqn:H.
  - rewrite (handleMessage_handshake rx length e m H).
    eexists. split; [reflexivity|]. split; [reflexivity|]. simpl.
    rewrite events_app.
    pose proof (sendPropertiesToCloud_silent SYNC e) as Hs.
    unfold events_of in Hs. rewrite Hs. simpl.
    destruct (String.eqb _ _); simpl; rewrite ?events_app; unfold events;
      simpl; lia.
  - rewrite (handleMessage_idle rx length e m H).
    eexists. split; [reflexivity|].
    split; [destruct (String.eqb _ _); reflexivity | reflexivity].
Qed.

(** C7. [requestLastValue] addresses the shadow-out topic, announces 22
    bytes and hands the transport a payload whose 22 bytes are
    81 A2 00 63 72 3A 6D 03 6D 67 65 74 4C 61 73 74 56 61 6C 75 65 73:
    a one-element array holding the map of 0 to the text r:m and of 3 to
    the text getLastValues. *)
Theorem requestLastValue_wire (e : Env) (m : Machine) :
  exists (payload : list byte) (d : list IO),
    requestLastValue e m = Returned tt (mkMachine (self m) (log m ++ d))
    /\ sent (_shadowTopicOut (self m)) payload 22 d
    /\ map Byte.to_N payload = SPEC_REQUEST_BYTES
    /\ List.length payload = 22%nat
    /\ payload =
         [x81; xa2; x00; x63] ++ list_byte_of_string "r:m"
         ++ [x03; x6d] ++ list_byte_of_string "getLastValues".
Proof.
  unfold requestLastValue, bind, read, ret; simpl.
  step_write. exists (span CBOR_REQUEST_LAST_VALUE_MSG 22), d.
  split; [reflexivity|]. split; [exact Hsent|]. repeat split.
Qed.

(** C8. When the encoder has encoded zero bytes, [sendPropertiesToCloud]
    returns normally having made no call to the transport: the log gains
    the encoder call only, no message is started, and buffer, length and
    retransmit flag are the ones before. *)
Theorem sendPropertiesToCloud_nothing_encoded (e : Env) (m : Machine) :
  enc_bytes_encoded (encoded (self m)) = 0 ->
  exists m',
    sendPropertiesToCloud e m = Returned tt m'
    /\ log m' = log m ++ [CborEncode]
    /\ transmissions (log m') = transmissions (log m)
    /\ payloads (log m') = payloads (log m)
    /\ record_of m' = record_of m
    /\ _state (self m') = _state (self m).
Proof.
  intros H0. rewrite sendPropertiesToCloud_skips.
  2:{ unfold to_send. rewrite H0. apply andb_false_r. }
  eexists. split; [reflexivity|]. simpl.
  rewrite transmissions_app, payloads_app; simpl.
  rewrite Nat.add_0_r, app_nil_r. repeat split.
Qed.

(** C9, as the code has it. The tick that detects the disconnection in
    Connected restarts the session from ConnectPhy with the buffered
    payload, its length and the timer exactly as they were, and the
    retransmit flag set. *)
Theorem disconnect_keeps_record_and_timer (e : Env) (m : Machine) :
  _state (self m) = Connected ->
  mqtt_connected e (log m) = false ->
  exists m',
    update e m = Returned tt m'
    /\ _state (self m') = ConnectPhy
    /\ _mqtt_data_buf (self m') = _mqtt_data_buf (self m)
    /\ _mqtt_data_len (self m') = _mqtt_data_len (self m)
    /\ _mqtt_data_request_retransmit (self m') = true
    /\ _lastSyncRequestTickTime (self m') = _lastSyncRequestTickTime (self m).
Proof.
  intros Hst Hc.
  destruct (update_on_disconnect e m Hst Hc) as (pc & d & -> & _).
  eexists. split; [reflexivity|]. simpl. repeat split.
Qed.

(** C10. A message on the shadow-in topic while the state is not
    RequestLastValues is not a shadow update: [handleMessage] returns
    with the connection state as it was, no full-snapshot decode, no SYNC
    event and nothing sent. *)
Theorem shadow_message_outside_handshake (rx : Message) (length : Z)
    (e : Env) (m : Machine) :
  msg_topic rx = _shadowTopicIn (self m) ->
  _state (self m) <> RequestLastValues ->
  exists m' d,
    handleMessage rx length e m = Returned tt m'
    /\ log m' = log m ++ d
    /\ filter is_sync_decode d = []
    /\ events SYNC d = 0%nat
    /\ transmissions d = 0%nat
    /\ _state (self m') = _state (self m)
    /\ record_of m' = record_of m.
Proof.
  intros Ht Hst. rewrite handleMessage_idle.
  2:{ unfold completes_handshake. apply State_eqb_neq in Hst. rewrite Hst.
      apply andb_false_r. }
  destruct (String.eqb _ _).
  - eexists _, [_]. split; [reflexivity|]. simpl. repeat split.
  - exists m, []. rewrite app_nil_r. repeat split.
Qed.

(** ** Further properties *)

Local Abbreviation maintains := (@maintains PropertyContainer).

(** *** Executions *)

Lemma run_maintains (I : Machine -> Prop) :
  maintains I update ->
  forall (ticks : list Env) (m : Machine), I m -> I (run ticks m).
Proof.
  intros Hstep ticks. induction ticks as [|e rest IH]; intros m Hm; [exact Hm|].
  simpl. specialize (Hstep e m Hm).
  destruct (update e m) as [[] m'|m']; simpl in Hstep; auto.
Qed.

(** *** Ticks before the broker connection *)

Lemma handler_before_broker (e : Env) (m : Machine) :
  before_broker (_state (self m)) = true ->
  exists io,
    handler (_state (self m)) e m =
      Returned (next_before_broker e m) (mkMachine (self m) (log m ++ [io]))
    /\ is_inbound io = false /\ is_event CONNECT io = false
    /\ is_event DISCONNECT io = false /\ is_event SYNC io = false
    /\ is_beginMessage io = false /\ is_stop io = false
    /\ is_sync_decode io = false.
Proof.
  unfold next_before_broker.
  destruct (_state (self m)) eqn:Hst; try discriminate; intros _;
    unfold handler, handle_ConnectPhy, handle_SyncTime,
      handle_ConnectMqttBroker, connection_check_, time_service_getTime_,
      mqttClient_connect, bind, query, read, ret; simpl.
  - destruct (NetworkConnectionState_eqb _ _);
      eexists; split; [reflexivity | repeat split | reflexivity | repeat split].
  - eexists; split; [reflexivity | repeat split].
  - destruct (mqtt_connect e _ _ _);
      eexists; split; [reflexivity | repeat split | reflexivity | repeat split].
Qed.

Lemma next_before_broker_idle (e : Env) (m : Machine) :
  before_broker (_state (self m)) = true ->
  next_before_broker e m <> RequestLastValues
  /\ session_up (next_before_broker e m) = false.
Proof.
  unfold next_before_broker.
  destruct (_state (self m)); try discriminate; intros _;
    repeat match goal with
           | |- context [if ?b then _ else _] => destruct b
           end; split; (discriminate || reflexivity).
Qed.

(** What a tick before the broker connection does to the machine. *)
Lemma update_before_broker (e : Env) (m : Machine) :
  before_broker (_state (self m)) = true ->
  exists pc io d,
    update e m =
      Returned tt
        (mkMachine
           (with_property_container pc
              (with_state (next_before_broker e m) (self m)))
           (log m ++ io :: d))
    /\ inbound d
    /\ is_event CONNECT io = false /\ is_event DISCONNECT io = false
    /\ is_event SYNC io = false /\ is_beginMessage io = false
    /\ is_stop io = false /\ is_sync_decode io = false.
Proof.
  intros Hb. destruct (handler_before_broker e m Hb) as (io & Hh & _ & Hio).
  destruct (next_before_broker_idle e m Hb) as [Hn _].
  rewrite update_handler. unfold bind. rewrite Hh.
  destruct (update_tail_idle (next_before_broker e m) e
              (mkMachine (self m) (log m ++ [io])) Hn) as (pc & d & -> & Hd).
  exists pc, io, d. simpl. rewrite <- app_assoc. auto.
Qed.

(** X1. A tick taken in ConnectPhy, SyncTime or ConnectMqttBroker always
    returns. It leads to SyncTime when the network reports connected
    (else stays in ConnectPhy), from SyncTime to ConnectMqttBroker, and to
    SubscribeMqttTopics when the broker accepts (else back to ConnectPhy);
    it emits no event, starts no message, does not stop the transport, and
    leaves the retransmit record and the timer alone, whatever the poll at
    its end delivers. *)
Theorem tick_before_broker (e : Env) (m : Machine) :
  before_broker (_state (self m)) = true ->
  exists m' d,
    update e m = Returned tt m'
    /\ _state (self m') = next_before_broker e m
    /\ log m' = log m ++ d
    /\ events CONNECT d = 0%nat /\ events DISCONNECT d = 0%nat
    /\ events SYNC d = 0%nat
    /\ transmissions d = 0%nat /\ stops d = 0%nat
    /\ record_of m' = record_of m /\ timer_of m' = timer_of m.
Proof.
  intros Hb.
  destruct (update_before_broker e m Hb)
    as (pc & io & d & -> & Hd & Hc & Hdi & Hs & Ht & Hst & _).
  destruct (inbound_silent d Hd) as (Hev & Htr & Hsp & _).
  eexists _, (io :: d). split; [reflexivity|]. simpl.
  unfold events, transmissions, stops in *; simpl.
  rewrite Hc, Hdi, Hs, Ht, Hst.
  repeat split; try apply Hev; assumption.
Qed.


(** *** Subscription refused *)

Lemma handle_SubscribeMqttTopics_refused (e : Env) (m : Machine) :
  subscriptions_succeed e m = false ->
  exists d,
    handle_SubscribeMqttTopics e m =
      Returned SubscribeMqttTopics (mkMachine (self m) (log m ++ d))
    /\ subscriptions d =
         (if mqtt_subscribe e (log m) (_dataTopicIn (self m)) then 2 else 1)%nat
    /\ forallb is_subscribe d = true.
Proof.
  unfold subscriptions_succeed. intros H.
  unfold handle_SubscribeMqttTopics, mqttClient_subscribe,
    execCloudEventCallback, bind, read, query, call, ret; simpl.
  destruct (mqtt_subscribe e (log m) (_dataTopicIn (self m))) eqn:H1; simpl in *.
  - apply orb_false_iff in H as [Hs H2]. rewrite Hs; simpl. rewrite H2; simpl.
    rewrite <- app_assoc. eexists. split; [reflexivity|]. split; reflexivity.
  - eexists. split; [reflexivity|]. split; reflexivity.
Qed.

Lemma only_subscribes_silent (d : list IO) :
  forallb is_subscribe d = true ->
  (forall ev, events ev d = 0%nat) /\ transmissions d = 0%nat
  /\ stops d = 0%nat /\ sync_decodes d = 0%nat.
Proof.
  unfold events, transmissions, stops, sync_decodes.
  induction d as [|io d IH]; simpl; [now auto|].
  intros H. apply andb_true_iff in H as [Hio Hd].
  destruct (IH Hd) as (He & Ht & Hs & Hy).
  destruct io; simpl in *; try discriminate; auto.
Qed.



(** *** The handshake *)

Lemma no_reply_no_handshake (o : ArduinoIoTCloudTCP) (inbox : list Message)
    (rx : Message) :
  existsb (fun rx => String.eqb (_shadowTopicIn o) (msg_topic rx)) inbox = false ->
  In rx inbox ->
  String.eqb (_shadowTopicIn o) (msg_topic rx) = false.
Proof.
  intros H Hin. destruct (String.eqb _ (msg_topic rx)) eqn:E; [|reflexivity].
  rewrite <- H. symmetry. apply existsb_exists. now exists rx.
Qed.

(** A poll without a message on shadow-in only moves the container. *)
Lemma dispatch_without_reply (inbox : list Message) (e : Env) (m : Machine) :
  existsb (fun rx => String.eqb (_shadowTopicIn (self m)) (msg_topic rx)) inbox
    = false ->
  exists pc d,
    dispatch inbox e m =
      Returned tt (mkMachine (with_property_container pc (self m)) (log m ++ d))
    /\ inbound d.
Proof.
  revert m. induction inbox as [|rx rest IH]; intros m Hno.
  - exists (_property_container (self m)), []. rewrite app_nil_r.
    destruct m as [[] l]; simpl. split; reflexivity.
  - simpl in Hno. apply orb_false_iff in Hno as [Hrx Hrest].
    simpl. unfold bind, onMessage. rewrite handleMessage_idle.
    2:{ unfold completes_handshake. rewrite Hrx. reflexivity. }
    destruct (String.eqb (_dataTopicIn (self m)) (msg_topic rx)).
    + destruct (IH (delta_decoded (received rx (Z.of_nat (List.length (msg_payload rx)))) m))
        as (pc & d & -> & Hd); [exact Hrest|].
      unfold delta_decoded; simpl. rewrite <- app_assoc.
      eexists pc, _. split; [reflexivity|].
      apply (inbound_app [_] d); [reflexivity | exact Hd].
    + apply IH, Hrest.
Qed.

Lemma handle_RequestLastValues_returns (e : Env) (m : Machine) :
  exists d,
    handle_RequestLastValues e m =
      Returned RequestLastValues
        (mkMachine
           (if request_due e m
            then with_lastSyncRequestTickTime (now e m) (self m)
            else self m)
           (log m ++ Millis (now e m) :: d))
    /\ (if request_due e m
        then sent (_shadowTopicOut (self m)) CBOR_REQUEST_LAST_VALUE_MSG 22 d
        else d = []).
Proof.
  destruct (request_due e m) eqn:Hd.
  - destruct (handle_RequestLastValues_due e m Hd) as (d & -> & Hs).
    now exists d.
  - rewrite (handle_RequestLastValues_early e m Hd). now exists [].
Qed.

Lemma sent_silent (topic : string) (payload : list byte) (size : Z)
    (d : list IO) :
  sent topic payload size d ->
  (forall ev, events ev d = 0%nat) /\ stops d = 0%nat
  /\ sync_decodes d = 0%nat /\ subscriptions d = 0%nat.
Proof. intros []; repeat split. Qed.

(** X4. The handshake has no way out but the reply: a tick taken in
    RequestLastValues whose poll brings no message on the shadow-in topic
    returns in RequestLastValues, however much time has passed, and emits
    no event; all it may do is repeat the request. *)
Theorem handshake_waits_for_reply (e : Env) (m : Machine) :
  _state (self m) = RequestLastValues ->
  no_shadow_reply e (self m) ->
  exists m',
    update e m = Returned tt m'
    /\ _state (self m') = RequestLastValues
    /\ events CONNECT (log m') = events CONNECT (log m)
    /\ events DISCONNECT (log m') = events DISCONNECT (log m)
    /\ events SYNC (log m') = events SYNC (log m)
    /\ (transmissions (log m') <= transmissions (log m) + 1)%nat.
Proof.
  intros Hst Hno.
  destruct (handle_RequestLastValues_returns e m) as (d & Hh & Hd).
  rewrite update_handler, Hst. unfold bind, handler. rewrite Hh.
  unfold update_tail, mqttClient_connected, mqttClient_poll, bind, assign,
    query, ret; simpl.
  assert (Hdq : (forall ev, events ev d = 0%nat) /\ (transmissions d <= 1)%nat).
  { destruct (request_due e m).
    - split; [apply (sent_silent _ _ _ _ Hd)|].
      rewrite (sent_transmissions _ _ _ _ Hd). lia.
    - subst d. split; [reflexivity | unfold transmissions; simpl; lia]. }
  destruct Hdq as [Hev Htr].
  destruct (mqtt_connected e _); simpl.
  - match goal with
    | |- context [dispatch ?i e ?m1] =>
        destruct (dispatch_without_reply i e m1) as (pc & d2 & -> & Hd2)
    end.
    { simpl. destruct (request_due e m); simpl; apply Hno. }
    destruct (inbound_silent d2 Hd2) as (Hev2 & Htr2 & _).
    eexists. split; [reflexivity|]. simpl.
    rewrite !events_app, !transmissions_app.
    change (events ?ev (Millis ?t :: d)) with (events ev d).
    change (transmissions (Millis (now e m) :: d)) with (transmissions d).
    rewrite !Hev, !Hev2, Htr2. unfold events, transmissions in *; simpl.
    repeat split; lia.
  - eexists. split; [reflexivity|]. simpl.
    rewrite !events_app, !transmissions_app.
    change (events ?ev (Millis ?t :: d)) with (events ev d).
    change (transmissions (Millis (now e m) :: d)) with (transmissions d).
    rewrite !Hev. unfold events, transmissions in *; simpl.
    repeat split; lia.
Qed.

Lemma sync_decodes_app (l d : list IO) :
  sync_decodes (l ++ d) = (sync_decodes l + sync_decodes d)%nat.
Proof. unfold sync_decodes. now rewrite filter_app, length_app. Qed.

Lemma inbound_no_sync_decode (d : list IO) :
  inbound d -> sync_decodes d = 0%nat.
Proof.
  intros H. destruct (inbound_silent d H) as (_ & _ & _ & _ & Hf).
  unfold sync_decodes. now rewrite Hf.
Qed.

Lemma sendPropertiesToCloud_no_sync_decode :
  preserves (fun m => List.length (filter is_sync_decode (log m)))
    sendPropertiesToCloud.
Proof. frame. Qed.

Lemma sendPropertiesToCloud_keeps_timer :
  preserves timer_of sendPropertiesToCloud.
Proof. frame. Qed.


(** *** The events and the state *)

Ltac tally :=
  unfold accounted, events, sync_decodes, transmissions, stops in *;
  simpl in *; rewrite ?filter_app, ?length_app in *; simpl in *.

Lemma handleMessage_handshake_counts (rx : Message) (length : Z) (e : Env)
    (m : Machine) :
  completes_handshake rx (self m) = true ->
  exists m',
    handleMessage rx length e m = Returned tt m'
    /\ _state (self m') = Connected
    /\ events CONNECT (log m') = events CONNECT (log m)
    /\ events DISCONNECT (log m') = events DISCONNECT (log m)
    /\ events SYNC (log m') = S (events SYNC (log m))
    /\ sync_decodes (log m') = S (sync_decodes (log m)).
Proof.
  intros H. rewrite (handleMessage_handshake rx length e m H).
  eexists. split; [reflexivity|]. split; [reflexivity|]. simpl.
  pose proof (fun ev => sendPropertiesToCloud_silent ev e) as Hs.
  pose proof (sendPropertiesToCloud_no_sync_decode e) as Hy.
  unfold events_of in Hs. simpl in Hy.
  rewrite !events_app, sync_decodes_app, !Hs. unfold sync_decodes. rewrite Hy.
  destruct (String.eqb _ _); tally; repeat split; lia.
Qed.

(** A poll leaves CONNECT and DISCONNECT alone; it either keeps the state
    and the SYNC count, or completes the handshake, once. *)
Lemma dispatch_session (inbox : list Message) (e : Env) (m : Machine) :
  exists m',
    dispatch inbox e m = Returned tt m'
    /\ events CONNECT (log m') = events CONNECT (log m)
    /\ events DISCONNECT (log m') = events DISCONNECT (log m)
    /\ ((_state (self m') = _state (self m)
         /\ events SYNC (log m') = events SYNC (log m)
         /\ sync_decodes (log m') = sync_decodes (log m))
        \/ (_state (self m) = RequestLastValues
            /\ _state (self m') = Connected
            /\ events SYNC (log m') = S (events SYNC (log m))
            /\ sync_decodes (log m') = S (sync_decodes (log m)))).
Proof.
  revert m. induction inbox as [|rx rest IH]; intros m.
  - exists m. split; [reflexivity|]. split; [reflexivity|].
    split; [reflexivity|]. left. repeat split.
  - simpl. unfold bind, onMessage.
    destruct (completes_handshake rx (self m)) eqn:H.
    + destruct (handleMessage_handshake_counts rx
                  (Z.of_nat (List.length (msg_payload rx))) e m H)
        as (m1 & -> & Hst & Hc & Hd & Hs & Hy).
      destruct (dispatch_idle rest e m1) as (pc & d & -> & Hin);
        [rewrite Hst; discriminate|].
      destruct (inbound_silent d Hin) as (Hev & _).
      pose proof (inbound_no_sync_decode d Hin) as Hf.
      eexists. split; [reflexivity|]. simpl.
      rewrite !events_app, sync_decodes_app, !Hev, Hf, !Nat.add_0_r.
      split; [exact Hc|]. split; [exact Hd|]. right.
      unfold completes_handshake in H. apply andb_true_iff in H as [_ H].
      apply State_eqb_eq in H. auto.
    + rewrite (handleMessage_idle rx _ e m H).
      match goal with
      | |- context [dispatch rest e ?m1] =>
          destruct (IH m1) as (m2 & -> & Hc & Hd & Hcase)
      end.
      exists m2. split; [reflexivity|].
      destruct (String.eqb (_dataTopicIn (self m)) (msg_topic rx));
        tally; rewrite ?Nat.add_0_r in *; intuition.
Qed.

Lemma update_tail_session (next_state : State) (e : Env) (m : Machine) :
  exists m',
    update_tail next_state e m = Returned tt m'
    /\ events CONNECT (log m') = events CONNECT (log m)
    /\ events DISCONNECT (log m') = events DISCONNECT (log m)
    /\ ((_state (self m') = next_state
         /\ events SYNC (log m') = events SYNC (log m)
         /\ sync_decodes (log m') = sync_decodes (log m))
        \/ (next_state = RequestLastValues
            /\ _state (self m') = Connected
            /\ events SYNC (log m') = S (events SYNC (log m))
            /\ sync_decodes (log m') = S (sync_decodes (log m)))).
Proof.
  unfold update_tail, mqttClient_connected, mqttClient_poll, bind, assign,
    query, ret; simpl.
  destruct (mqtt_connected e (log m)); simpl.
  - match goal with
    | |- context [dispatch ?i e ?m1] =>
        destruct (dispatch_session i e m1) as (m2 & -> & Hc & Hd & Hcase)
    end.
    exists m2. split; [reflexivity|]. tally. rewrite ?Nat.add_0_r in *.
    intuition.
  - eexists. split; [reflexivity|]. tally. rewrite ?Nat.add_0_r.
    intuition.
Qed.

Lemma handler_no_sync_decode (st : State) :
  preserves (fun m => List.length (filter is_sync_decode (log m))) (handler st).
Proof. destruct st; unfold handler; frame. Qed.

Lemma handle_RequestLastValues_silent (ev : ArduinoIoTCloudEvent) :
  preserves (events_of ev) handle_RequestLastValues.
Proof. frame. Qed.

Lemma ota_and_return_silent (ev : ArduinoIoTCloudEvent) :
  preserves (events_of ev) ota_and_return.
Proof. unfold ota_and_return. frame. Qed.

Lemma ota_and_return_next :
  yields (fun s => s = Connected) ota_and_return.
Proof. unfold ota_and_return. yielding; auto. Qed.

(** What the handler does to the counters in Connected with the
    transport up. *)
Lemma handle_Connected_online_counts (e : Env) (m : Machine) :
  mqtt_connected e (log m) = true ->
  let m1 := final (handle_Connected e m) in
  (forall ev, events ev (log m1) = events ev (log m))
  /\ (handle_Connected e m = Returned Connected m1
      \/ handle_Connected e m = Reset m1).
Proof.
  intros Hc. cbv zeta.
  destruct (handle_Connected_online e m Hc) as (d & Hd & ->).
  split.
  - intros ev.
    pose proof (ota_and_return_silent ev e) as Ho.
    pose proof (sendPropertiesToCloud_silent ev e) as Hs.
    unfold events_of in Ho, Hs. rewrite Ho, Hs. simpl.
    rewrite events_app.
    change (events ev (MqttConnected true :: d)) with (events ev d).
    destruct (resend_due (self m)).
    + destruct (sent_silent _ _ _ _ Hd) as (Hev & _). rewrite Hev. lia.
    + subst d. unfold events; simpl. lia.
  - destruct (ota_and_return e _) as [next m1|m1] eqn:Ho; simpl; [left|now right].
    apply ota_and_return_next in Ho as Hn. now subst next.
Qed.

Lemma update_accounted : maintains accounted update.
Proof.
  intros e m (Hc & Hs & Hy).
  destruct (before_broker (_state (self m))) eqn:Hb.
  { destruct (update_before_broker e m Hb)
      as (pc & io & d & -> & Hd & Hio1 & Hio2 & Hio3 & _ & _ & Hio4).
    destruct (next_before_broker_idle e m Hb) as [Hn Hup].
    apply State_eqb_neq in Hn.
    destruct (inbound_silent d Hd) as (Hev & _ & _ & _ & Hf).
    pose proof (Hev CONNECT) as H1. pose proof (Hev DISCONNECT) as H2.
    pose proof (Hev SYNC) as H3.
    assert (Hup0 : session_up (_state (self m)) = false)
      by (destruct (_state (self m)); try discriminate; reflexivity).
    assert (Hrlv : State_eqb (_state (self m)) RequestLastValues = false)
      by (destruct (_state (self m)); try discriminate; reflexivity).
    unfold accounted in *. simpl. rewrite Hup, Hn. rewrite Hup0 in Hc.
    rewrite Hrlv in Hs. tally. rewrite Hio1, Hio2, Hio3, Hio4, Hf. simpl.
    repeat split; lia. }
  rewrite update_final.
  pose proof (handler_no_sync_decode (_state (self m)) e m) as Hdec.
  simpl in Hdec.
  destruct (_state (self m)) eqn:Hst; try discriminate; unfold handler in *.
  - (* SubscribeMqttTopics *)
    destruct (subscriptions_succeed e m) eqn:Hok.
    + destruct (handle_SubscribeMqttTopics_success e m Hok)
        as (d & Hh & H1 & H2 & H3).
      rewrite Hh in Hdec |- *. simpl in Hdec.
      destruct (update_tail_session (after_subscription (self m)) e
                  (mkMachine (self m) (log m ++ d)))
        as (m' & -> & Hc' & Hd' & Hcase).
      simpl in Hc', Hd', Hcase |- *.
      rewrite events_app in Hc', Hd', Hcase.
      unfold sync_decodes in Hcase, Hy |- *. rewrite Hdec in Hcase.
      unfold accounted, sync_decodes. rewrite Hc', Hd', H1, H3.
      unfold after_subscription in Hcase.
      destruct Hcase as [(Hs' & Hsy & Hde)|(Hn & Hs' & Hsy & Hde)];
        rewrite Hs', Hsy, Hde, H2;
        destruct (String.eqb (_shadowTopicIn (self m)) ""); simpl in *;
        try discriminate; repeat split; lia.
    + destruct (handle_SubscribeMqttTopics_refused e m Hok) as (d & Hh & _ & Hd).
      destruct (only_subscribes_silent d Hd) as (Hev & _ & _ & Hsd).
      rewrite Hh.
      destruct (update_tail_idle SubscribeMqttTopics e
                  (mkMachine (self m) (log m ++ d))) as (pc & d2 & -> & Hd2);
        [discriminate|].
      destruct (inbound_silent d2 Hd2) as (Hev2 & _ & _ & _ & Hf).
      pose proof (Hev CONNECT). pose proof (Hev DISCONNECT).
      pose proof (Hev SYNC). pose proof (Hev2 CONNECT).
      pose proof (Hev2 DISCONNECT). pose proof (Hev2 SYNC).
      tally. rewrite Hf. simpl. repeat split; lia.
  - (* RequestLastValues *)
    destruct (handle_RequestLastValues_returns e m) as (d & Hh & _).
    pose proof (fun ev => handle_RequestLastValues_silent ev e m) as Hev.
    unfold events_of in Hev. rewrite Hh in Hdec, Hev |- *. simpl in Hdec, Hev.
    match goal with
    | |- context [update_tail RequestLastValues e ?m1] =>
        destruct (update_tail_session RequestLastValues e m1)
          as (m' & -> & Hc' & Hd' & Hcase)
    end.
    simpl in Hc', Hd', Hcase |- *.
    unfold sync_decodes in Hcase, Hy |- *. rewrite Hdec, !Hev in *.
    unfold accounted, sync_decodes. rewrite Hc', Hd'.
    destruct Hcase as [(Hs' & Hsy & Hde)|(Hn & Hs' & Hsy & Hde)];
      rewrite Hs', Hsy, Hde; simpl in *; repeat split; lia.
  - (* Connected *)
    destruct (mqtt_connected e (log m)) eqn:Hcon.
    + destruct (handle_Connected_online_counts e m Hcon) as (Hev & Hout).
      pose proof (handler_keeps_state Connected e m) as Hks.
      unfold handler, state_of in Hks.
      destruct Hout as [Hout|Hout]; rewrite Hout in Hdec, Hev, Hks |- *;
        simpl in Hdec, Hev, Hks.
      * match goal with
        | |- context [update_tail Connected e ?m1] =>
            destruct (update_tail_idle Connected e m1) as (pc & d2 & Ht & Hd2);
              [discriminate|]
        end.
        rewrite Ht. destruct (inbound_silent d2 Hd2) as (Hev2 & _ & _ & _ & Hf).
        unfold accounted, sync_decodes in *. simpl.
        rewrite !events_app, filter_app, length_app, !Hev2, Hf, !Hev, Hdec.
        simpl in *. repeat split; lia.
      * unfold accounted, sync_decodes in *.
        rewrite !Hev, Hdec, Hks, Hst. simpl in *. repeat split; lia.
    + destruct (update_on_disconnect e m Hst Hcon) as (pc & d & Hu & Hd).
      pose proof (update_final e m) as Hfin. rewrite Hst in Hfin.
      unfold handler in Hfin. rewrite <- Hfin, Hu. cbn [final].
      destruct (inbound_silent d Hd) as (Hev2 & _ & _ & _ & Hf).
      pose proof (Hev2 CONNECT). pose proof (Hev2 DISCONNECT).
      pose proof (Hev2 SYNC).
      tally. rewrite Hf. simpl. repeat split; lia.
Qed.

(** X6. The events keep pace with the state, in every execution of a
    device started as constructed: CONNECT is exactly one ahead of
    DISCONNECT while the state is RequestLastValues or Connected and level
    with it otherwise, so the two alternate, CONNECT first; SYNC never
    outnumbers CONNECT and is strictly behind it while the handshake is
    outstanding; and a full snapshot is decoded exactly as often as SYNC
    is emitted. *)
Theorem events_keep_pace (ticks : list Env) (pc : PropertyContainer)
    (host : string) (port : Z) (shadowout shadowin dataout datain : string) :
  let m :=
    run ticks
      (mkMachine (begun host port shadowout shadowin dataout datain
                    (constructed pc)) []) in
  events CONNECT (log m) =
    (events DISCONNECT (log m)
     + if session_up (_state (self m)) then 1 else 0)%nat
  /\ (events SYNC (log m)
      + (if State_eqb (_state (self m)) RequestLastValues then 1 else 0)
      <= events CONNECT (log m))%nat
  /\ sync_decodes (log m) = events SYNC (log m).
Proof.
  cbv zeta. apply (run_maintains accounted update_accounted).
  repeat split. simpl. lia.
Qed.

(** *** System resets *)

Lemma onOTARequest_reset (e : Env) (m m' : Machine) :
  onOTARequest e m = Reset m' ->
  OTA_STORAGE_SNU = true /\ AVR = false
  /\ self m' = self m
  /\ log m' =
       log m
       ++ [WiFiStorageRemove "/fs/UPDATE.BIN.LZSS";
           WiFiStorageRemove "/fs/UPDATE.BIN.LZSS.TMP";
           WiFiStorageDownloadOTA (ota_url (_property_container (self m))) true;
           NvicSystemReset].
Proof.
  unfold onOTARequest, bind, call, read, query, assign, ret, reset; simpl.
  destruct OTA_STORAGE_SNU; simpl.
  - destruct (wifi_downloadOTA e _ _) eqn:Hd; simpl; [|discriminate].
    destruct AVR; simpl; [discriminate|].
    intros [= <-]. simpl. rewrite <- !app_assoc. repeat split.
  - destruct AVR; discriminate.
Qed.

Lemma ota_and_return_reset (e : Env) (m m' : Machine) :
  ota_and_return e m = Reset m' ->
  OTA_ENABLED = true /\ OTA_STORAGE_SNU = true /\ AVR = false
  /\ ota_req (_property_container (self m)) = true
  /\ exists l url,
       log m' = l ++ [WiFiStorageDownloadOTA url true; NvicSystemReset].
Proof.
  unfold ota_and_return, bind at 1.
  destruct OTA_ENABLED; [|discriminate].
  unfold bind at 1, read at 1.
  destruct (ota_req (_property_container (self m))); [|discriminate].
  unfold bind, read, assign; simpl.
  rewrite sendPropertiesToCloud_returns.
  destruct (onOTARequest e _) as [[] m1|m1] eqn:Ho; [discriminate|].
  intros [= <-]. apply onOTARequest_reset in Ho as (Hs & Ha & _ & Hl).
  repeat split; try assumption.
  eexists (_ ++ [_; _]), _. rewrite Hl. rewrite <- app_assoc. reflexivity.
Qed.

(** X7. A tick ends in a system reset only in one way: it is taken in
    Connected with the transport up, on a build with OTA over the
    network module's storage that is not an AVR, and the reset is the
    call that follows a successful download. Every other tick returns to
    its caller. The reset leaves [_state] as it was. *)
Theorem reset_only_after_download (e : Env) (m m' : Machine) :
  update e m = Reset m' ->
  _state (self m) = Connected
  /\ mqtt_connected e (log m) = true
  /\ OTA_ENABLED = true /\ OTA_STORAGE_SNU = true /\ AVR = false
  /\ _state (self m') = Connected
  /\ exists l url,
       log m' = l ++ [WiFiStorageDownloadOTA url true; NvicSystemReset].
Proof.
  rewrite update_handler. unfold bind.
  destruct (handler (_state (self m)) e m) as [next m1|m1] eqn:Hh.
  { destruct (update_tail_returns next e m1) as (m2 & -> & _). discriminate. }
  intros [= <-].
  destruct (before_broker (_state (self m))) eqn:Hb.
  { destruct (handler_before_broker e m Hb) as (io & Hr & _). congruence. }
  pose proof (handler_keeps_state (_state (self m)) e m) as Hks.
  rewrite Hh in Hks. unfold state_of in Hks. simpl in Hks.
  destruct (_state (self m)) eqn:Hst; try discriminate; unfold handler in Hh.
  - destruct (subscriptions_succeed e m) eqn:Hok.
    + destruct (handle_SubscribeMqttTopics_success e m Hok) as (d & Hr & _).
      congruence.
    + destruct (handle_SubscribeMqttTopics_refused e m Hok) as (d & Hr & _).
      congruence.
  - destruct (handle_RequestLastValues_returns e m) as (d & Hr & _). congruence.
  - destruct (mqtt_connected e (log m)) eqn:Hc.
    + destruct (handle_Connected_online e m Hc) as (d & _ & Hr).
      rewrite Hr in Hh. apply ota_and_return_reset in Hh
        as (H1 & H2 & H3 & _ & H5).
      repeat split; assumption.
    + rewrite (handle_Connected_offline e m Hc) in Hh. discriminate.
Qed.

(** *** The retransmit buffer *)

Lemma maintains_bind {A B : Type} (I : Machine -> Prop) (c : M A) (k : A -> M B) :
  maintains I c -> (forall a, maintains I (k a)) -> maintains I (bind c k).
Proof.
  intros Hc Hk e m Hm. rewrite final_bind.
  specialize (Hc e m Hm). destruct (c e m) as [a m'|m']; simpl in Hc.
  - now apply Hk.
  - exact Hc.
Qed.

Lemma maintains_ret {A : Type} (I : Machine -> Prop) (a : A) :
  maintains I (ret a : M A).
Proof. intros e m H; exact H. Qed.

Lemma maintains_read {A : Type} (I : Machine -> Prop)
    (g : ArduinoIoTCloudTCP -> A) : maintains I (read g).
Proof. intros e m H; exact H. Qed.

Lemma maintains_peek {A : Type} (I : Machine -> Prop)
    (answer : Env -> list IO -> A) : maintains I (peek answer : M A).
Proof. intros e m H; exact H. Qed.

Lemma maintains_assign (I : Machine -> Prop)
    (g : ArduinoIoTCloudTCP -> ArduinoIoTCloudTCP) :
  (forall m, I m -> I (mkMachine (g (self m)) (log m))) ->
  maintains I (assign g).
Proof. intros H e m Hm; apply H, Hm. Qed.

Lemma maintains_call (I : Machine -> Prop) (ev : IO) :
  (forall m, I m -> I (mkMachine (self m) (log m ++ [ev]))) ->
  maintains I (call ev).
Proof. intros H e m Hm; apply H, Hm. Qed.

Lemma maintains_query {A : Type} (I : Machine -> Prop)
    (answer : Env -> list IO -> A) (ev : A -> IO) :
  (forall m r, I m -> I (mkMachine (self m) (log m ++ [ev r]))) ->
  maintains I (query answer ev).
Proof. intros H e m Hm; apply H, Hm. Qed.

Lemma maintains_reset {A : Type} (I : Machine -> Prop) :
  (forall m, I m -> I (mkMachine (self m) (log m ++ [NvicSystemReset]))) ->
  maintains I (reset : M A).
Proof. intros H e m Hm; apply H, Hm. Qed.

Lemma maintains_dispatch (I : Machine -> Prop) :
  (forall rx length, maintains I (handleMessage rx length)) ->
  forall inbox, maintains I (dispatch inbox).
Proof.
  intros H inbox; induction inbox as [|rx rest IH]; simpl.
  - apply maintains_ret.
  - apply maintains_bind; [apply H | intros _; exact IH].
Qed.

(** Every member function but [sendPropertiesToCloud], opened up. *)
Ltac unfold_callers :=
  unfold update, mqttClient_poll, onMessage, handleMessage,
    handle_Connected, handle_RequestLastValues, handle_SubscribeMqttTopics,
    handle_ConnectMqttBroker, handle_SyncTime, handle_ConnectPhy,
    onOTARequest, requestLastValue, write,
    updateTimestampOnLocallyChangedProperties_, CBORDecoder_decode_,
    execCloudEventCallback, mqttClient_endMessage, mqttClient_write,
    mqttClient_beginMessage, mqttClient_stop, mqttClient_connected,
    mqttClient_subscribe, mqttClient_connect, millis_,
    time_service_getTime_, connection_check_.

Ltac maintaining :=
  unfold_callers;
  repeat first
    [ assumption
    | apply maintains_bind; [|intros]
    | apply maintains_ret
    | apply maintains_read
    | apply maintains_peek
    | apply maintains_assign; unfold buffer_has; intros; simpl; assumption
    | apply maintains_call; unfold buffer_has; intros; simpl; assumption
    | apply maintains_query; unfold buffer_has; intros; simpl; assumption
    | apply maintains_reset; unfold buffer_has; intros; simpl; assumption
    | apply maintains_dispatch; intros
    | match goal with
      | |- maintains _ (if ?b then _ else _) => destruct b
      | |- maintains _ (match ?o with Some _ => _ | None => _ end) => destruct o
      | |- maintains _ (match ?s with ConnectPhy => _ | _ => _ end) => destruct s
      | |- maintains _ (let _ := _ in _) => cbv zeta
      end ].

(** [sendPropertiesToCloud] is the only writer of the retransmit buffer
    and of its length: what it keeps of them, every tick keeps. *)
Lemma buffer_written_by_send_only (Q : list byte -> Z -> Prop) :
  maintains (buffer_has Q) sendPropertiesToCloud ->
  maintains (buffer_has Q) update.
Proof. intros Hsend. maintaining. Qed.

Lemma sendPropertiesToCloud_keeps_positive :
  maintains (buffer_has (fun _ len => 0 < len)) sendPropertiesToCloud.
Proof.
  intros e m Hm. unfold buffer_has in *.
  destruct (to_send (encoded (self m))) eqn:H.
  - destruct (sendPropertiesToCloud_sends e m H) as (d & -> & _). simpl.
    unfold to_send in H. apply andb_true_iff in H as [_ H].
    now apply Z.ltb_lt.
  - rewrite (sendPropertiesToCloud_skips e m H). exact Hm.
Qed.

(** X8. The retransmit buffer is never emptied: once a payload has been
    stored ([_mqtt_data_len] above 0), the length stays above 0 through
    every later tick, disconnections, reconnections and resends
    included. *)
Theorem buffer_never_emptied (ticks : list Env) (m : Machine) :
  0 < _mqtt_data_len (self m) ->
  0 < _mqtt_data_len (self (run ticks m)).
Proof.
  apply (run_maintains (buffer_has (fun _ len => 0 < len))).
  apply buffer_written_by_send_only, sendPropertiesToCloud_keeps_positive.
Qed.

Lemma length_memcpy (dst src : list byte) (n : Z) :
  (Z.to_nat n <= List.length src)%nat ->
  (Z.to_nat n <= List.length dst)%nat ->
  List.length (memcpy dst src n) = List.length dst.
Proof.
  intros Hs Hd. unfold memcpy.
  rewrite length_app, length_firstn, length_skipn. lia.
Qed.

Lemma span_memcpy (dst src : list byte) (n : Z) :
  (Z.to_nat n <= List.length src)%nat ->
  span (memcpy dst src n) n = span src n.
Proof.
  intros Hs. unfold span, memcpy.
  rewrite firstn_app, firstn_firstn, Nat.min_id, length_firstn.
  replace (Z.to_nat n - Nat.min (Z.to_nat n) (List.length src))%nat with 0%nat
    by lia.
  simpl. apply app_nil_r.
Qed.

Lemma sendPropertiesToCloud_within_buffer :
  encoder_fits ->
  maintains (buffer_has within_buffer) sendPropertiesToCloud.
Proof.
  intros Hfit e m Hm. unfold buffer_has, within_buffer in *.
  destruct (to_send (encoded (self m))) eqn:H.
  - destruct (sendPropertiesToCloud_sends e m H) as (d & -> & _). simpl.
    destruct (Hfit (_property_container (self m)) H) as (Hlen & Hle).
    fold (encoded (self m)) in Hlen, Hle.
    unfold to_send in H. apply andb_true_iff in H as [_ H].
    apply Z.ltb_lt in H. destruct Hm as (Hbuf & _).
    split; [|lia]. rewrite length_memcpy; [exact Hbuf | lia | lia].
  - rewrite (sendPropertiesToCloud_skips e m H). exact Hm.
Qed.

(** X9. With an encoder that stays within the buffer it is given, the
    retransmit buffer is never overrun: in every execution of a device
    started as constructed, [_mqtt_data_buf] keeps its size of
    MQTT_TRANSMIT_BUFFER_SIZE bytes and [_mqtt_data_len] lies between 0
    and that size. *)
Theorem buffer_never_overrun (ticks : list Env) (pc : PropertyContainer)
    (host : string) (port : Z) (shadowout shadowin dataout datain : string) :
  encoder_fits ->
  let m :=
    run ticks
      (mkMachine (begun host port shadowout shadowin dataout datain
                    (constructed pc)) []) in
  List.length (_mqtt_data_buf (self m)) = MQTT_TRANSMIT_BUFFER_SIZE
  /\ 0 <= _mqtt_data_len (self m) <= Z.of_nat MQTT_TRANSMIT_BUFFER_SIZE.
Proof.
  intros Hfit. cbv zeta.
  apply (run_maintains (buffer_has within_buffer)).
  - apply buffer_written_by_send_only, sendPropertiesToCloud_within_buffer, Hfit.
  - unfold buffer_has, within_buffer; simpl. rewrite repeat_length. lia.
Qed.

(** X10. What is kept for retransmission is what was sent: when
    [sendPropertiesToCloud] transmits, and the encoder's [data] holds the
    [bytes_encoded] bytes it reports, the payload handed to the transport
    on data-out is exactly those bytes, and the stored length with the
    first bytes of the stored buffer are the same payload. *)
Theorem stored_is_sent (e : Env) (m : Machine) :
  to_send (encoded (self m)) = true ->
  (Z.to_nat (enc_bytes_encoded (encoded (self m)))
   <= List.length (enc_data (encoded (self m))))%nat ->
  exists m' d,
    sendPropertiesToCloud e m = Returned tt m'
    /\ log m' = log m ++ CborEncode :: d
    /\ sent (_dataTopicOut (self m))
         (span (enc_data (encoded (self m)))
               (enc_bytes_encoded (encoded (self m))))
         (enc_bytes_encoded (encoded (self m))) d
    /\ _mqtt_data_len (self m') = enc_bytes_encoded (encoded (self m))
    /\ span (_mqtt_data_buf (self m')) (_mqtt_data_len (self m'))
       = span (enc_data (encoded (self m)))
              (enc_bytes_encoded (encoded (self m))).
Proof.
  intros Hsend Hfit.
  destruct (sendPropertiesToCloud_sends e m Hsend) as (d & -> & Hsent).
  simpl in Hsent. rewrite (span_memcpy _ _ _ Hfit) in Hsent.
  eexists _, d. split; [reflexivity|]. simpl.
  split; [reflexivity|]. split; [exact Hsent|]. split; [reflexivity|].
  apply span_memcpy, Hfit.
Qed.

(** *** The configuration *)

Lemma handleMessage_keeps_config (rx : Message) (length : Z) :
  preserves
    (fun m => (topics_of m, _brokerAddress (self m), _brokerPort (self m)))
    (handleMessage rx length).
Proof. frame. Qed.

Lemma dispatch_keeps_config (inbox : list Message) :
  preserves
    (fun m => (topics_of m, _brokerAddress (self m), _brokerPort (self m)))
    (dispatch inbox).
Proof. apply dispatch_preserves, handleMessage_keeps_config. Qed.

#[local] Hint Resolve dispatch_keeps_config : frame.

Lemma update_keeps_config : preserves config_of update.
Proof. unfold config_of. frame. Qed.

(** X11. No tick changes what [begin] configured: after any execution
    the four topics, the broker address and the broker port are the ones
    the device started with. *)
Theorem config_never_changes (ticks : list Env) (m : Machine) :
  _shadowTopicOut (self (run ticks m)) = _shadowTopicOut (self m)
  /\ _shadowTopicIn (self (run ticks m)) = _shadowTopicIn (self m)
  /\ _dataTopicOut (self (run ticks m)) = _dataTopicOut (self m)
  /\ _dataTopicIn (self (run ticks m)) = _dataTopicIn (self m)
  /\ _brokerAddress (self (run ticks m)) = _brokerAddress (self m)
  /\ _brokerPort (self (run ticks m)) = _brokerPort (self m).
Proof.
  assert (H : config_of (run ticks m) = config_of m).
  { apply (run_maintains (fun m' => config_of m' = config_of m)); [|reflexivity].
    intros e m0 H0. now rewrite update_keeps_config. }
  unfold config_of, topics_of in H. inversion H. repeat split; assumption.
Qed.

(** *** The timer and the clock's wrap-around *)

Lemma ulong_sub_elapsed (last dt : Z) :
  0 <= dt < ULONG_MODULUS ->
  ulong_sub (to_ulong (last + dt)) last = dt.
Proof.
  intros Hdt. unfold ulong_sub, to_ulong.
  rewrite Zminus_mod_idemp_l.
  replace (last + dt - last) with dt by lia.
  apply Z.mod_small, Hdt.
Qed.

(** X12. The request timer measures true elapsed time across the
    wrap-around of [millis()]: if [dt] milliseconds (less than 2^32) have
    passed since the reading stored in [_lastSyncRequestTickTime], so
    that the clock now reads the stored value plus [dt] modulo 2^32, the
    handler sends a request exactly when [dt] exceeds 10000, and then
    stores the new reading. *)
Theorem request_timer_survives_wraparound (e : Env) (m : Machine) (dt : Z) :
  0 <= dt < ULONG_MODULUS ->
  to_ulong (millis e (log m))
    = to_ulong (_lastSyncRequestTickTime (self m) + dt) ->
  exists m',
    handle_RequestLastValues e m = Returned RequestLastValues m'
    /\ (transmissions (log m') - transmissions (log m))%nat
       = (if (TIMEOUT_FOR_LASTVALUES_SYNC <? dt)%Z then 1 else 0)%nat
    /\ _lastSyncRequestTickTime (self m') =
         (if (TIMEOUT_FOR_LASTVALUES_SYNC <? dt)%Z
          then to_ulong (_lastSyncRequestTickTime (self m) + dt)
          else _lastSyncRequestTickTime (self m)).
Proof.
  intros Hdt Hm.
  assert (Hdue : request_due e m = (TIMEOUT_FOR_LASTVALUES_SYNC <? dt)%Z).
  { unfold request_due, now. rewrite Hm, (ulong_sub_elapsed _ _ Hdt).
    reflexivity. }
  destruct (handle_RequestLastValues_returns e m) as (d & -> & Hd).
  rewrite Hdue in *. eexists. split; [reflexivity|]. simpl.
  rewrite transmissions_app.
  change (transmissions (Millis (now e m) :: d)) with (transmissions d).
  unfold now. rewrite Hm.
  destruct (TIMEOUT_FOR_LASTVALUES_SYNC <? dt)%Z.
  - rewrite (sent_transmissions _ _ _ _ Hd). split; [lia | reflexivity].
  - subst d. unfold transmissions at 2. simpl. split; [lia | reflexivity].
Qed.

(** *** The retransmission, from the disconnection to the resend *)

Lemma run_on_the_way_back (ticks : list Env) (m : Machine) :
  no_shadow m ->
  _mqtt_data_request_retransmit (self m) = true ->
  on_the_way_back ticks m ->
  no_shadow (run ticks m) /\ record_of (run ticks m) = record_of m.
Proof.
  revert m. induction ticks as [|e rest IH]; intros m Hns Hp Hway.
  - split; [exact Hns | reflexivity].
  - destruct Hway as [Hcase Hrest]. simpl.
    destruct (pending_payload_kept e m Hns Hp Hcase) as [Hns' Hrec].
    destruct (update e m) as [[] m'|m'] eqn:Hu; simpl in Hns', Hrec, Hrest.
    + assert (Hp' : _mqtt_data_request_retransmit (self m') = true).
      { unfold record_of in Hrec. inversion Hrec. congruence. }
      destruct (IH m' Hns' Hp' Hrest) as [H1 H2].
      split; [exact H1 | congruence].
    + split; assumption.
Qed.

(** X13. On a device without shadow topics the retransmission does what
    it is there for. From a state with the retransmit flag up and a
    payload buffered, however many ticks the way back to Connected takes
    (none of them taken in Connected with the transport up), the buffered
    payload and its length stay untouched, and the first tick in Connected
    with the transport up hands exactly that payload to the transport on
    data-out before it encodes anything new, and lowers the flag. *)
Theorem resend_after_reconnect (ticks : list Env) (e : Env) (m : Machine) :
  no_shadow m ->
  _mqtt_data_request_retransmit (self m) = true ->
  0 < _mqtt_data_len (self m) ->
  on_the_way_back ticks m ->
  _state (self (run ticks m)) = Connected ->
  mqtt_connected e (log (run ticks m)) = true ->
  exists d rest,
    log (final (update e (run ticks m))) =
      log (run ticks m) ++ MqttConnected true :: d ++ CborEncode :: rest
    /\ sent (_dataTopicOut (self m))
         (span (_mqtt_data_buf (self m)) (_mqtt_data_len (self m)))
         (_mqtt_data_len (self m)) d
    /\ _mqtt_data_request_retransmit (self (final (update e (run ticks m))))
       = false.
Proof.
  intros Hns Hp Hlen Hway Hst Hc.
  destruct (run_on_the_way_back ticks m Hns Hp Hway) as [_ Hrec].
  pose proof (update_keeps_config) as Hcfg.
  assert (Hconf : config_of (run ticks m) = config_of m).
  { apply (run_maintains (fun m' => config_of m' = config_of m)); [|reflexivity].
    intros e0 m0 H0. now rewrite Hcfg. }
  unfold record_of in Hrec. injection Hrec as Hb Hl Hf.
  unfold config_of, topics_of in Hconf.
  injection Hconf as _ _ Hout _ _ _.
  assert (Hdue : resend_due (self (run ticks m)) = true).
  { unfold resend_due. rewrite Hf, Hl, Hp. simpl. now apply Z.ltb_lt. }
  destruct (resend_precedes_encoding e (run ticks m) Hst Hc Hdue)
    as (d & rest & Hlog & Hsent & Hflag).
  exists d, rest. rewrite Hb, Hl, Hout in Hsent. auto.
Qed.

(** *** A flag raised over an empty buffer *)

Lemma update_tail_keeps_positive (next_state : State) :
  maintains (buffer_has (fun _ len => 0 < len)) (update_tail next_state).
Proof.
  pose proof sendPropertiesToCloud_keeps_positive. unfold update_tail.
  maintaining.
Qed.

Lemma ota_and_return_keeps_positive :
  maintains (buffer_has (fun _ len => 0 < len)) ota_and_return.
Proof.
  pose proof sendPropertiesToCloud_keeps_positive. unfold ota_and_return.
  maintaining.
Qed.

(** X14. A disconnection detected before anything was ever sent leaves
    the flag up over an empty buffer, and the flag then outlives the next
    send: on a tick in Connected with the transport up, the flag up and
    length 0, on which the encoder has something to send, the payload is
    stored and a message is started, but the flag stays up. The device
    ends the tick with a resend due, so the following tick in Connected
    hands the payload it has just sent to the transport once more. *)
Theorem flag_over_empty_buffer_outlives_send (e : Env) (m : Machine) :
  _state (self m) = Connected ->
  mqtt_connected e (log m) = true ->
  _mqtt_data_request_retransmit (self m) = true ->
  _mqtt_data_len (self m) = 0 ->
  to_send (encoded (stamped e m)) = true ->
  resend_due (self (final (update e m))) = true
  /\ (transmissions (log m) < transmissions (log (final (update e m))))%nat.
Proof.
  intros Hst Hc Hp Hl Hsend.
  destruct (handle_Connected_online e m Hc) as (d & Hd & Hh).
  assert (Hdue : resend_due (self m) = false)
    by (unfold resend_due; rewrite Hp, Hl; reflexivity).
  unfold resent in Hh. rewrite Hdue in Hd, Hh. subst d.
  set (m1 := mkMachine (stamped e m) (log m ++ [MqttConnected true])) in *.
  destruct (sendPropertiesToCloud_sends e m1 Hsend) as (d & Hrun & Hsent).
  rewrite Hrun in Hh. cbn [final] in Hh.
  set (m2 := mkMachine (stored (encoded (self m1)) (self m1))
               (log m1 ++ CborEncode :: d)) in *.
  assert (Hpos2 : buffer_has (fun _ len => 0 < len) m2).
  { unfold buffer_has, m2; simpl. unfold to_send in Hsend.
    apply andb_true_iff in Hsend as [_ H]. now apply Z.ltb_lt. }
  assert (Htr2 : (transmissions (log m) < transmissions (log m2))%nat).
  { unfold m2, m1; simpl. rewrite !transmissions_app.
    change (transmissions (CborEncode :: d)) with (transmissions d).
    rewrite (sent_transmissions _ _ _ _ Hsent). lia. }
  assert (Hflag : pending_of (final (update e m)) = true).
  { rewrite update_pending, Hst. unfold handler. rewrite Hh.
    rewrite ota_and_return_keeps_pending. unfold pending_of, m2, m1; simpl.
    exact Hp. }
  assert (Hfin : buffer_has (fun _ len => 0 < len) (final (update e m))
                 /\ (transmissions (log m2)
                     <= transmissions (log (final (update e m))))%nat).
  { rewrite update_final, Hst. unfold handler. rewrite Hh.
    pose proof (ota_and_return_keeps_positive e m2 Hpos2) as Ho.
    destruct (ota_and_return_appends e m2) as (y & Hy).
    destruct (ota_and_return e m2) as [next m3|m3]; cbn [final] in Ho, Hy |- *.
    - split; [apply update_tail_keeps_positive, Ho|].
      destruct (update_tail_appends next e m3) as (z & ->).
      rewrite Hy, !transmissions_app. lia.
    - split; [exact Ho|]. rewrite Hy, transmissions_app. lia. }
  destruct Hfin as [Hpos Htr]. split; [|lia].
  unfold resend_due. unfold pending_of in Hflag. rewrite Hflag. simpl.
  now apply Z.ltb_lt.
Qed.

(** *** The work of one tick *)

Local Abbreviation starts_at_most := (@starts_at_most PropertyContainer).

Lemma starts_bind {A B : Type} (n1 n2 : nat) (c : M A) (k : A -> M B) :
  starts_at_most n1 c -> (forall a, starts_at_most n2 (k a)) ->
  starts_at_most (n1 + n2) (bind c k).
Proof.
  intros Hc Hk e m. rewrite final_bind. specialize (Hc e m).
  destruct (c e m) as [a m'|m']; simpl in Hc.
  - specialize (Hk a e m'). lia.
  - lia.
Qed.

Lemma starts_none {A : Type} (c : M A) :
  preserves (fun m => transmissions (log m)) c -> starts_at_most 0 c.
Proof. intros H e m. rewrite (H e m). lia. Qed.

Lemma starts_more {A : Type} (n n' : nat) (c : M A) :
  (n <= n')%nat -> starts_at_most n c -> starts_at_most n' c.
Proof. intros Hle H e m. specialize (H e m). lia. Qed.

Lemma sendPropertiesToCloud_starts_one : starts_at_most 1 sendPropertiesToCloud.
Proof.
  intros e m. destruct (to_send (encoded (self m))) eqn:H.
  - destruct (sendPropertiesToCloud_sends e m H) as (d & -> & Hs). simpl.
    rewrite transmissions_app.
    change (transmissions (CborEncode :: d)) with (transmissions d).
    rewrite (sent_transmissions _ _ _ _ Hs). lia.
  - rewrite (sendPropertiesToCloud_skips e m H). simpl.
    rewrite transmissions_app. unfold transmissions at 2. simpl. lia.
Qed.

Lemma ota_and_return_starts_one : starts_at_most 1 ota_and_return.
Proof.
  unfold ota_and_return.
  apply (starts_bind 1 0); [|intros; apply starts_none; frame].
  destruct OTA_ENABLED; [|apply (starts_more 0); [lia | apply starts_none; frame]].
  apply (starts_bind 0 1); [apply starts_none; frame | intros pc].
  destruct (ota_req pc);
    [|apply (starts_more 0); [lia | apply starts_none; frame]].
  apply (starts_bind 0 1); [apply starts_none; frame | intros _].
  apply (starts_bind 1 0); [apply sendPropertiesToCloud_starts_one | intros _].
  apply starts_none. frame.
Qed.

Lemma handle_Connected_starts_three : starts_at_most 3 handle_Connected.
Proof.
  intros e m. destruct (mqtt_connected e (log m)) eqn:Hc.
  - destruct (handle_Connected_online e m Hc) as (d & Hd & ->).
    pose proof (ota_and_return_starts_one e
                  (final (sendPropertiesToCloud e
                            (mkMachine (resent e m)
                               (log m ++ MqttConnected true :: d))))) as H1.
    pose proof (sendPropertiesToCloud_starts_one e
                  (mkMachine (resent e m) (log m ++ MqttConnected true :: d)))
      as H2.
    simpl in H2. rewrite transmissions_app in H2.
    change (transmissions (MqttConnected true :: d)) with (transmissions d) in H2.
    assert (Hd1 : (transmissions d <= 1)%nat).
    { destruct (resend_due (self m)).
      - rewrite (sent_transmissions _ _ _ _ Hd). lia.
      - subst d. unfold transmissions; simpl. lia. }
    lia.
  - rewrite (handle_Connected_offline e m Hc). simpl.
    rewrite transmissions_app. unfold transmissions at 2. simpl. lia.
Qed.

(** A poll starts at most one message, however many it delivers. *)
Lemma dispatch_starts_one (inbox : list Message) :
  starts_at_most 1 (dispatch inbox).
Proof.
  induction inbox as [|rx rest IH]; intros e m; simpl.
  - lia.
  - unfold bind, onMessage.
    destruct (completes_handshake rx (self m)) eqn:H.
    + destruct (handleMessage_handshake_counts rx
                  (Z.of_nat (List.length (msg_payload rx))) e m H)
        as (m1 & Hrun & Hst & _).
      pose proof Hrun as Hrun'.
      rewrite (handleMessage_handshake rx _ e m H) in Hrun'.
      injection Hrun' as Hm1. rewrite Hrun.
      destruct (dispatch_idle rest e m1) as (pc & d & -> & Hin);
        [rewrite Hst; discriminate|].
      destruct (inbound_silent d Hin) as (_ & Htr & _).
      simpl. rewrite transmissions_app, Htr, <- Hm1. simpl.
      rewrite transmissions_app.
      match goal with
      | |- context [sendPropertiesToCloud e ?m0] =>
          pose proof (sendPropertiesToCloud_starts_one e m0) as Hs
      end.
      unfold sync_decoded in Hs |- *. simpl in Hs.
      rewrite transmissions_app in Hs.
      destruct (String.eqb (_dataTopicIn (self m)) (msg_topic rx));
        unfold delta_decoded in Hs |- *; simpl in Hs;
        rewrite ?transmissions_app in Hs;
        unfold transmissions in *; simpl in *; lia.
    + rewrite (handleMessage_idle rx _ e m H).
      match goal with
      | |- context [dispatch rest e ?m1] => specialize (IH e m1)
      end.
      destruct (String.eqb (_dataTopicIn (self m)) (msg_topic rx));
        unfold delta_decoded in *; simpl in IH;
        rewrite ?transmissions_app in IH;
        unfold transmissions in *; simpl in *; lia.
Qed.

Lemma update_tail_starts_one (next_state : State) :
  starts_at_most 1 (update_tail next_state).
Proof.
  unfold update_tail, mqttClient_connected, mqttClient_poll.
  apply (starts_bind 0 1); [apply starts_none; frame | intros _].
  apply (starts_bind 0 1); [apply starts_none; frame | intros c].
  destruct c; [|apply (starts_more 0); [lia | apply starts_none; frame]].
  apply (starts_bind 0 1); [apply starts_none; frame | intros inbox].
  apply dispatch_starts_one.
Qed.

Lemma handle_SubscribeMqttTopics_starts_none :
  preserves (fun m => transmissions (log m)) handle_SubscribeMqttTopics.
Proof. frame. Qed.

(** X15. A tick does a bounded amount of sending, however many messages
    its poll delivers: it starts no message before the subscription, at
    most one in SubscribeMqttTopics (the answer to a snapshot that arrives
    at once), at most two in RequestLastValues (the request and that
    answer) and at most three in Connected (the resend, the new payload
    and the one of the OTA block). *)
Theorem tick_starts_few_messages (e : Env) (m : Machine) :
  (transmissions (log (final (update e m)))
   <= transmissions (log m) + tick_budget (_state (self m)))%nat
  /\ (transmissions (log (final (update e m))) <= transmissions (log m) + 3)%nat.
Proof.
  assert (H : (transmissions (log (final (update e m)))
               <= transmissions (log m) + tick_budget (_state (self m)))%nat).
  { destruct (before_broker (_state (self m))) eqn:Hb.
    { destruct (update_before_broker e m Hb)
        as (pc & io & d & -> & Hd & _ & _ & _ & Hio & _).
      destruct (inbound_silent d Hd) as (_ & Htr & _).
      simpl. rewrite transmissions_app.
      unfold transmissions in *. simpl. rewrite Hio, Htr. lia. }
    rewrite update_final.
    destruct (_state (self m)) eqn:Hst; try discriminate; unfold handler.
    - pose proof (handle_SubscribeMqttTopics_starts_none e m) as Hh.
      simpl in Hh.
      destruct (handle_SubscribeMqttTopics e m) as [next m1|m1]; simpl in Hh.
      + pose proof (update_tail_starts_one next e m1). simpl. lia.
      + simpl. lia.
    - destruct (handle_RequestLastValues_returns e m) as (d & -> & Hd).
      match goal with
      | |- context [update_tail RequestLastValues e ?m1] =>
          pose proof (update_tail_starts_one RequestLastValues e m1) as Ht
      end.
      simpl in Ht. rewrite transmissions_app in Ht.
      change (transmissions (Millis (now e m) :: d)) with (transmissions d) in Ht.
      assert (Hd1 : (transmissions d <= 1)%nat).
      { destruct (request_due e m).
        - rewrite (sent_transmissions _ _ _ _ Hd). lia.
        - subst d. unfold transmissions; simpl. lia. }
      simpl. lia.
    - pose proof (handle_Connected_starts_three e m) as Hh.
      destruct (handle_Connected e m) as [next m1|m1] eqn:Hrun; simpl in Hh.
      + assert (Hn : next <> RequestLastValues)
          by (apply handle_Connected_next in Hrun as [-> | ->]; discriminate).
        destruct (update_tail_idle next e m1 Hn) as (pc & d & -> & Hd).
        destruct (inbound_silent d Hd) as (_ & Htr & _).
        simpl. rewrite transmissions_app, Htr. lia.
      + simpl. lia. }
  split; [exact H|].
  destruct (_state (self m)); simpl in H; lia.
Qed.

(** X16. [write] returns 1 exactly when the transport accepted all three
    steps, and 0 otherwise; it offers the payload only after
    [beginMessage] has succeeded and ends the message only after the
    payload was taken, and it never changes the object. *)
Theorem write_result (topic : string) (data : list byte) (length : Z)
    (e : Env) (m : Machine) :
  exists (r : Z) (d : list IO),
    write topic data length e m = Returned r (mkMachine (self m) (log m ++ d))
    /\ sent topic (span data length) length d
    /\ (r = 0 \/ r = 1)
    /\ (r = 1 <->
        d = [MqttBeginMessage topic length true;
             MqttWrite (span data length) true; MqttEndMessage true]).
Proof.
  unfold write, bind, mqttClient_beginMessage, mqttClient_write,
    mqttClient_endMessage, query, ret; simpl.
  destruct (mqtt_beginMessage e (log m) topic length); simpl.
  - destruct (mqtt_write e _ (span data length)); simpl.
    + destruct (mqtt_endMessage e _); simpl; rewrite <- ?app_assoc; simpl;
        eexists _, _; (split; [reflexivity|]); (split; [constructor|]);
        (split; [auto|]); split; (reflexivity || discriminate).
    + rewrite <- ?app_assoc; simpl.
      eexists _, _; split; [reflexivity|]. split; [constructor|].
      split; [auto|]. split; discriminate.
  - eexists _, _; split; [reflexivity|]. split; [constructor|].
    split; [auto|]. split; discriminate.
Qed.

End CloudFacts.

(** * The device on the bench *)

Import Bench.

(** C1, on the bench. [P] is encoded and sent in Connected, the client
    then reports the connection lost, and the device reconnects. The
    snapshot that completes the handshake makes [handleMessage] encode and
    send [P'] and store it over [P] while the retransmit flag is still up,
    so the first tick in Connected resends [P']; [P] is not handed to the
    transport again, then or on the tick after. *)
Theorem handshake_overwrites_lost_payload :
  let dropped := run (ticks_until_P_sent ++ [offline 20300]) booted in
  let resynced := run ticks_until_resynced booted in
  let first_tick := run (ticks_until_resynced ++ [online 40100 []]) booted in
  let second_tick :=
    run (ticks_until_resynced ++ [online 40100 []; online 40200 []]) booted in
  (_state (self steady) = Connected
   /\ payloads (log steady) = [CBOR_REQUEST_LAST_VALUE_MSG; P]
   /\ span (_mqtt_data_buf (self steady)) (_mqtt_data_len (self steady)) = P)
  /\ (_state (self dropped) = ConnectPhy
      /\ _mqtt_data_request_retransmit (self dropped) = true
      /\ span (_mqtt_data_buf (self dropped)) (_mqtt_data_len (self dropped)) = P)
  /\ (_state (self resynced) = Connected
      /\ _mqtt_data_request_retransmit (self resynced) = true
      /\ payloads (log resynced) =
           [CBOR_REQUEST_LAST_VALUE_MSG; P; CBOR_REQUEST_LAST_VALUE_MSG; P']
      /\ span (_mqtt_data_buf (self resynced)) (_mqtt_data_len (self resynced))
         = P')
  /\ (_state (self first_tick) = Connected
      /\ _mqtt_data_request_retransmit (self first_tick) = false
      /\ payloads (log first_tick) =
           [CBOR_REQUEST_LAST_VALUE_MSG; P; CBOR_REQUEST_LAST_VALUE_MSG; P'; P'])
  /\ payloads (log second_tick) = payloads (log first_tick).
Proof. vm_compute. repeat split. Qed.

Lemma connected_tick_on_disconnect_witness :
  exists m',
    update (offline 20300) steady = Returned tt m'
    /\ _state (self m') = ConnectPhy
    /\ _mqtt_data_request_retransmit (self m') = true.
Proof.
  destruct (connected_tick_on_disconnect (offline 20300) steady)
    as (_ & m' & d & Hu & Hs & Hr & _).
  - reflexivity.
  - reflexivity.
  - exists m'. auto.
Defined.

Lemma subscribe_tick_connect_witness :
  exists m',
    update (online 100 []) (run (link_ticks 100) booted_without_thing)
      = Returned tt m'
    /\ events CONNECT (log m') = 1%nat
    /\ _state (self m') = Connected
    /\ events SYNC (log (run [online 200 []; offline 300] m')) = 0%nat.
Proof.
  destruct (subscribe_tick_connect (online 100 [])
              (run (link_ticks 100) booted_without_thing)
              [online 200 []; offline 300])
    as (_ & m' & Hu & Hc & Hst & Hsync).
  - reflexivity.
  - reflexivity.
  - exists m'. auto.
Defined.

Lemma request_last_values_rate_limited_witness :
  exists m1 m2,
    handle_RequestLastValues (online 20000 []) awaiting
      = Returned RequestLastValues m1
    /\ handle_RequestLastValues (online 25000 []) m1
       = Returned RequestLastValues m2
    /\ (requests_in (online 20000 []) awaiting
        + requests_in (online 25000 []) m1 <= 1)%nat.
Proof.
  destruct (request_last_values_rate_limited
              (online 20000 []) (online 25000 []) awaiting)
    as (m1 & m2 & H1 & H2 & _ & _ & _ & _ & Hle).
  - vm_compute. discriminate.
  - exists m1, m2. auto.
Defined.

Lemma sendPropertiesToCloud_nothing_encoded_witness :
  exists m',
    sendPropertiesToCloud (online 20300 []) steady = Returned tt m'
    /\ log m' = log steady ++ [CborEncode]
    /\ record_of m' = record_of steady.
Proof.
  destruct (sendPropertiesToCloud_nothing_encoded (online 20300 []) steady)
    as (m' & Hs & Hl & _ & _ & Hr & _).
  - reflexivity.
  - exists m'. auto.
Defined.

Lemma disconnect_keeps_record_and_timer_witness :
  exists m',
    update (offline 20300) steady = Returned tt m'
    /\ _mqtt_data_len (self m') = _mqtt_data_len (self steady)
    /\ _lastSyncRequestTickTime (self m')
       = _lastSyncRequestTickTime (self steady).
Proof.
  destruct (disconnect_keeps_record_and_timer (offline 20300) steady)
    as (m' & Hu & _ & _ & Hl & _ & Ht).
  - reflexivity.
  - reflexivity.
  - exists m'. auto.
Defined.

Lemma shadow_message_outside_handshake_witness :
  exists m',
    handleMessage (mkMessage shadow_i P') 2 (online 20300 []) steady
      = Returned tt m'
    /\ _state (self m') = Connected.
Proof.
  destruct (shadow_message_outside_handshake (mkMessage shadow_i P') 2
              (online 20300 []) steady)
    as (m' & d & Hh & _ & _ & _ & _ & Hst & _).
  - reflexivity.
  - vm_compute. discriminate.
  - exists m'. split; [exact Hh | exact Hst].
Defined.

(** Against C5 as stated. Without a thing id the device reaches Connected
    with nothing buffered; the disconnection then sets the flag while the
    length is 0. And when a resend is refused by the transport the flag is
    cleared all the same, the payload never having left. *)
Lemma retransmit_flag_without_payload :
  let dropped := run (connect_ticks 100 ++ [offline 200]) booted_without_thing in
  let back :=
    run (ticks_until_P_sent_without_thing ++ [offline 400] ++ connect_ticks 500)
      booted_without_thing in
  let refused :=
    run (ticks_until_P_sent_without_thing ++ [offline 400] ++ connect_ticks 500
         ++ [refusing 600])
      booted_without_thing in
  (_mqtt_data_request_retransmit (self dropped) = true
   /\ _mqtt_data_len (self dropped) = 0)
  /\ (_mqtt_data_request_retransmit (self back) = true
      /\ _mqtt_data_request_retransmit (self refused) = false
      /\ payloads (log refused) = payloads (log back)
      /\ payloads (log back) = [P]).
Proof. vm_compute. repeat split. Qed.

(** Against C6 as stated. The decoder fails on the payload, and the
    message, on the shadow-in topic in RequestLastValues, still moves the
    state to Connected. *)
Lemma malformed_snapshot_completes_handshake :
  let rx := mkMessage shadow_i garbage in
  dec_failed
    (CBORDecoder_decode (_property_container (self awaiting)) garbage true)
    = true
  /\ _state (self awaiting) = RequestLastValues
  /\ _state (self (final (handleMessage rx 1 (online 20000 []) awaiting)))
     = Connected
  /\ _state (self (run [online 20000 [rx]] awaiting)) = Connected.
Proof. vm_compute. repeat split. Qed.

(** Against C9 as stated. After the disconnection the session is back in
    ConnectPhy with the payload, its length, the flag and the timer all
    different from the constructor's values. *)
Lemma record_and_timer_survive_disconnect :
  let dropped := run (ticks_until_P_sent ++ [offline 20300]) booted in
  _state (self dropped) = ConnectPhy
  /\ _mqtt_data_len (self dropped) = 2
  /\ span (_mqtt_data_buf (self dropped)) (_mqtt_data_len (self dropped)) = P
  /\ _mqtt_data_request_retransmit (self dropped) = true
  /\ _lastSyncRequestTickTime (self dropped) = 20000
  /\ record_of booted = (repeat x00 256, 0, false)
  /\ timer_of booted = 0.
Proof. vm_compute. repeat split. Qed.

(** * Further runs on the bench *)

Lemma tick_before_broker_witness :
  exists m',
    update (linking 100) booted = Returned tt m'
    /\ _state (self m') = SyncTime.
Proof.
  destruct (tick_before_broker (linking 100) booted)
    as (m' & d & Hu & Hs & _).
  - reflexivity.
  - exists m'. split; [exact Hu | exact Hs].
Defined.



Lemma handshake_waits_for_reply_witness :
  exists m',
    update (online 50000 [mkMessage data_i P]) awaiting = Returned tt m'
    /\ _state (self m') = RequestLastValues.
Proof.
  destruct (handshake_waits_for_reply (online 50000 [mkMessage data_i P])
              awaiting)
    as (m' & Hu & Hs & _).
  - reflexivity.
  - intros l. reflexivity.
  - exists m'. split; [exact Hu | exact Hs].
Defined.


Lemma reset_only_after_download_witness :
  exists m',
    update (codec := updatable) (online 300 []) update_requested = Reset m'
    /\ _state (self m') = Connected.
Proof.
  eexists. split.
  - vm_compute. reflexivity.
  - eapply (reset_only_after_download (codec := updatable) (online 300 [])
              update_requested).
    vm_compute. reflexivity.
Defined.


Lemma buffer_never_emptied_witness :
  0 < _mqtt_data_len
        (self (run ([offline 20300] ++ connect_ticks 30000) steady)).
Proof.
  apply (buffer_never_emptied ([offline 20300] ++ connect_ticks 30000) steady).
  reflexivity.
Defined.

Lemma strict_encoder_fits : encoder_fits (codec := strict).
Proof.
  intros pc. cbv zeta.
  change (CBOREncoder_encode pc MQTT_TRANSMIT_BUFFER_SIZE false)
    with (strict_encode pc 256 false).
  change MQTT_TRANSMIT_BUFFER_SIZE with 256%nat.
  unfold strict_encode, to_send. destruct pc as [|p rest].
  - discriminate.
  - destruct (Nat.leb_spec (List.length p) 256) as [Hle|Hgt];
      cbn [enc_error enc_data enc_bytes_encoded].
    + intros _. rewrite length_app, repeat_length. lia.
    + discriminate.
Qed.

Lemma buffer_never_overrun_witness :
  List.length
    (_mqtt_data_buf
       (self (run (codec := strict) ticks_until_P_sent
                (mkMachine
                   (begun "mqtts-sa.iot.arduino.cc" 8883
                      shadow_o shadow_i data_o data_i
                      (constructed ([] : Outbox)))
                   [])))) = 256%nat.
Proof.
  apply (buffer_never_overrun (codec := strict) ticks_until_P_sent
           ([] : Outbox) "mqtts-sa.iot.arduino.cc" 8883
           shadow_o shadow_i data_o data_i strict_encoder_fits).
Defined.

Lemma stored_is_sent_witness :
  exists m',
    sendPropertiesToCloud (online 20200 []) loaded = Returned tt m'
    /\ span (_mqtt_data_buf (self m')) (_mqtt_data_len (self m')) = P.
Proof.
  destruct (stored_is_sent (online 20200 []) loaded)
    as (m' & d & Hrun & _ & _ & _ & Hspan).
  - reflexivity.
  - apply Nat.leb_le. reflexivity.
  - exists m'. split; [exact Hrun | exact Hspan].
Defined.

Lemma request_timer_survives_wraparound_witness :
  exists m',
    handle_RequestLastValues (online 5000 []) requested_before_wrap
      = Returned RequestLastValues m'
    /\ _lastSyncRequestTickTime (self m') = 5000.
Proof.
  destruct (request_timer_survives_wraparound (online 5000 [])
              requested_before_wrap 12296)
    as (m' & Hrun & _ & Ht).
  - vm_compute. split; [discriminate | reflexivity].
  - reflexivity.
  - exists m'. split; [exact Hrun | exact Ht].
Defined.

Lemma resend_after_reconnect_witness :
  _mqtt_data_request_retransmit
    (self (final (update (online 600 [])
                    (run (connect_ticks 500) dropped_with_P)))) = false.
Proof.
  destruct (resend_after_reconnect (connect_ticks 500) (online 600 [])
              dropped_with_P)
    as (d & rest & _ & _ & H).
  - split; [reflexivity | vm_compute; discriminate].
  - reflexivity.
  - reflexivity.
  - vm_compute. repeat split; left; discriminate.
  - reflexivity.
  - reflexivity.
  - exact H.
Defined.

Lemma flag_over_empty_buffer_outlives_send_witness :
  resend_due (self (final (update (online 500 []) back_with_flag_up))) = true.
Proof.
  destruct (flag_over_empty_buffer_outlives_send (online 500 [])
              back_with_flag_up) as (H & _).
  - reflexivity.
  - reflexivity.
  - reflexivity.
  - reflexivity.
  - reflexivity.
  - exact H.
Defined.

(** * Properties of [begin] *)

Section BeginFacts.

Context {PropertyContainer : Type}.
Context {board : Board}.
Context {platform : Platform}.
Context {ota : OtaProperties PropertyContainer}.

Local Abbreviation Setup := (@Setup PropertyContainer).
Local Abbreviation B := (@B PropertyContainer).
Local Abbreviation keeps := (@keeps PropertyContainer).
Local Abbreviation checks := (@checks PropertyContainer).
Local Abbreviation only_checked := (@only_checked PropertyContainer).

Lemma begin_split (a : string) (p : Z) (e : BeginEnv) (s : Setup) :
  begin a p e s =
  match begin_checks a p e s with
  | Next _ s1 => begin_configure e s1
  | Return_ code s1 => Return_ code s1
  end.
Proof.
  unfold begin, begin_checks, begin_configure.
  cbv beta delta [and_then set_member].
  repeat match goal with
         | |- match ?c with Next _ _ => _ | Return_ _ _ => _ end = _ =>
             destruct c; try reflexivity
         end.
Qed.

(** ** What a sequence of statements keeps *)

Lemma keeps_and_then {A C D : Type} (f : Setup -> D) (c : B A) (k : A -> B C) :
  keeps f c -> (forall a, keeps f (k a)) -> keeps f (and_then c k).
Proof.
  intros Hc Hk e s. unfold and_then.
  specialize (Hc e s). destruct (c e s) as [a s1 | code s1]; simpl in *.
  - rewrite (Hk a e s1). exact Hc.
  - exact Hc.
Qed.

Ltac keeping :=
  repeat first
    [ apply keeps_and_then; [ | intros ? ]
    | match goal with
      | |- keeps _ (if ?b then _ else _) => destruct b
      end
    | (intros ? ?; reflexivity) ].

Lemma begin_checks_keeps_session (a : string) (p : Z) :
  keeps (fun s => (session_of s, _password s)) (begin_checks a p).
Proof. unfold begin_checks. keeping. Qed.

Lemma begin_configure_keeps_session :
  keeps (fun s => (session_of s, _password s)) begin_configure.
Proof. unfold begin_configure. keeping. Qed.

Lemma begin_configure_keeps_broker : keeps broker_of begin_configure.
Proof. unfold begin_configure. keeping. Qed.

Lemma begin_checks_broker (a : string) (p : Z) (e : BeginEnv) (s : Setup) :
  broker_of (setup_of (begin_checks a p e s)) = (a, p).
Proof.
  unfold begin_checks.
  unfold and_then at 1. cbn [set_member].
  unfold and_then at 1. cbn [set_member].
  match goal with
  | |- broker_of (setup_of (?c e ?s2)) = _ =>
      assert (H : keeps broker_of c) by keeping; rewrite (H e s2)
  end.
  reflexivity.
Qed.

Lemma keeps_begin {D : Type} (f : Setup -> D) (a : string) (p : Z) :
  keeps f (begin_checks a p) -> keeps f begin_configure -> keeps f (begin a p).
Proof.
  intros Hc Hk e s. rewrite begin_split.
  specialize (Hc e s). destruct (begin_checks a p e s) as [u s1 | code s1];
    simpl in Hc.
  - rewrite (Hk e s1). exact Hc.
  - exact Hc.
Qed.

(** ** The checks *)

Lemma only_checked_refl (s : Setup) : only_checked s s.
Proof.
  repeat split. exists []. rewrite app_nil_r. split; reflexivity.
Qed.

Lemma only_checked_trans (s s1 s2 : Setup) :
  only_checked s s1 -> only_checked s1 s2 -> only_checked s s2.
Proof.
  intros (H1 & H2 & d1 & H3 & H4) (K1 & K2 & d2 & K3 & K4).
  split; [congruence |]. split; [congruence |].
  exists (d1 ++ d2). split.
  - rewrite K3, H3, app_assoc. reflexivity.
  - rewrite forallb_app, H4, K4. reflexivity.
Qed.

Lemma checks_and_then {A C : Type} (c : B A) (k : A -> B C) :
  checks c -> (forall a, checks (k a)) -> checks (and_then c k).
Proof.
  intros Hc Hk e s. unfold and_then.
  specialize (Hc e s). destruct (c e s) as [a s1 | code s1].
  - specialize (Hk a e s1). destruct (k a e s1) as [b s2 | code s2].
    + eapply only_checked_trans; eauto.
    + destruct Hk as [Hz Hk]. split; [exact Hz |].
      eapply only_checked_trans; eauto.
  - exact Hc.
Qed.

Lemma checks_go {A : Type} (a : A) : checks (go a).
Proof. intros e s. apply only_checked_refl. Qed.

Lemma checks_return {A : Type} : checks (return_ 0 : B A).
Proof. intros e s. split; [reflexivity | apply only_checked_refl]. Qed.

Lemma checks_member {A : Type} (f : ArduinoIoTCloudTCP -> A) :
  checks (member f).
Proof. intros e s. apply only_checked_refl. Qed.

Lemma checks_tell (io : BeginIO) :
  is_mqtt_setup io = false -> checks (tell io).
Proof.
  intros H e s. repeat split. exists [io]. split; [reflexivity |].
  simpl. rewrite H. reflexivity.
Qed.

Lemma checks_ask {A : Type} (answer : BeginEnv -> list BeginIO -> A)
    (io : A -> BeginIO) :
  (forall a, is_mqtt_setup (io a) = false) -> checks (ask answer io).
Proof.
  intros H e s. repeat split. eexists. split; [reflexivity |].
  simpl. rewrite H. reflexivity.
Qed.

Lemma checks_set_member (f : ArduinoIoTCloudTCP -> ArduinoIoTCloudTCP) :
  (forall o, (_state (f o), _lastSyncRequestTickTime (f o),
              (_mqtt_data_buf (f o), _mqtt_data_len (f o),
               _mqtt_data_request_retransmit (f o)))
             = (_state o, _lastSyncRequestTickTime o,
                (_mqtt_data_buf o, _mqtt_data_len o,
                 _mqtt_data_request_retransmit o))) ->
  (forall o, (_shadowTopicOut (f o), _shadowTopicIn (f o),
              _dataTopicOut (f o), _dataTopicIn (f o))
             = (_shadowTopicOut o, _shadowTopicIn o,
                _dataTopicOut o, _dataTopicIn o)) ->
  checks (set_member f).
Proof.
  intros H1 H2 e s. split; [apply H1 |]. split; [apply H2 |].
  exists []. simpl. rewrite app_nil_r. split; reflexivity.
Qed.

Ltac checking :=
  repeat first
    [ apply checks_and_then; [ | intros ? ]
    | apply checks_go
    | apply checks_return
    | apply checks_member
    | apply checks_tell; reflexivity
    | apply checks_ask; intros ?; reflexivity
    | apply checks_set_member; intros ?; reflexivity
    | match goal with
      | |- checks (if ?b then _ else _) => destruct b
      end ].

Lemma begin_checks_checks (a : string) (p : Z) : checks (begin_checks a p).
Proof. unfold begin_checks. checking. Qed.

(** ** The configuration *)

Lemma begin_configure_runs (e : BeginEnv) (s : Setup) :
  exists pc L d u,
    begin_configure e s =
    Next 1
      (mkSetup
         (with_property_container pc
            (begun (_brokerAddress (object s)) (_brokerPort (object s))
               (getTopic_shadowout e L) (getTopic_shadowin e L)
               (getTopic_dataout e L) (getTopic_datain e L) (object s)))
         (_password s) (L ++ d))
    /\ forallb (fun io => negb (is_mqtt_setup io)) d = true
    /\ L = calls s ++ MqttSetClient :: u ++
             [MqttOnMessage; MqttSetKeepAliveInterval 30000;
              MqttSetConnectionTimeout 1500;
              MqttSetId (getDeviceId e (removelast L))].
Proof.
  set (u := if BOARD_ESP
            then [MqttSetUsernamePassword
                    (getDeviceId e (calls s ++ [MqttSetClient])) (_password s)]
            else []).
  set (L3 := calls s ++ MqttSetClient :: u ++
               [MqttOnMessage; MqttSetKeepAliveInterval 30000;
                MqttSetConnectionTimeout 1500]).
  set (L := L3 ++ [MqttSetId (getDeviceId e L3)]).
  set (d := if OTA_STORAGE_SNU && OTA_ENABLED
            then [WiFiFirmwareVersion (wifi_firmwareVersion e L)] else []).
  set (pc1 := if OTA_ENABLED
              then addPropertyReal "OTA_REQ" ReadWrite true
                     (addPropertyReal "OTA_URL" ReadWrite true
                        (addPropertyReal "OTA_SHA256" Read false
                           (addPropertyReal "OTA_ERROR" Read false
                              (addPropertyReal "OTA_CAP" Read false
                                 (_property_container (object s))))))
              else _property_container (object s)).
  exists (if OTA_STORAGE_SNU && OTA_ENABLED
          then if String.ltb (wifi_firmwareVersion e L) "1.4.1"
               then assign_ota_cap false pc1 else assign_ota_cap true pc1
          else pc1).
  exists L, d, u. split; [| split].
  - unfold begin_configure.
    subst pc1 d L L3 u.
    destruct BOARD_ESP, OTA_ENABLED, OTA_STORAGE_SNU;
      cbn [and_then tell get set_member member go ask andb
           object _password calls];
      unfold and_then, ask, member; cbn [object _password calls];
      repeat rewrite <- app_assoc; cbn [app];
      change (30 * 1000) with 30000;
      try match goal with
          | |- context [String.ltb ?v ?w] => destruct (String.ltb v w)
          end;
      reflexivity.
  - subst d. destruct (OTA_STORAGE_SNU && OTA_ENABLED); reflexivity.
  - subst L. rewrite removelast_last. subst L3.
    rewrite <- app_assoc. cbn [app]. rewrite <- app_assoc. reflexivity.
Qed.

Lemma begin_configure_returns_1 (e : BeginEnv) (s : Setup) :
  returned (begin_configure e s) = 1.
Proof.
  destruct (begin_configure_runs e s) as (pc & L & d & u & H & _).
  rewrite H. reflexivity.
Qed.

Lemma begin_checks_pass_without_chip (a : string) (p : Z) (e : BeginEnv)
    (s : Setup) :
  AVR = false -> BOARD_HAS_OFFLOADED_ECCX08 = false ->
  BOARD_HAS_ECCX08 = false ->
  exists s1, begin_checks a p e s = Next tt s1.
Proof.
  intros H1 H2 H3. unfold begin_checks. rewrite H1, H2, H3.
  cbv beta delta [and_then tell get set_member member go ask].
  destruct OTA_ENABLED, BOARD_ESP, ESP32; cbn; eexists; reflexivity.
Qed.

(** ** What [begin] guarantees *)

Lemma begin_frame (a : string) (p : Z) (e : BeginEnv) (s : Setup) :
  session_of (setup_of (begin a p e s)) = session_of s
  /\ _password (setup_of (begin a p e s)) = _password s
  /\ broker_of (setup_of (begin a p e s)) = (a, p).
Proof.
  pose proof (keeps_begin _ a p (begin_checks_keeps_session a p)
                begin_configure_keeps_session e s) as H.
  cbv beta in H.
  split; [| split].
  - congruence.
  - congruence.
  - rewrite begin_split. pose proof (begin_checks_broker a p e s) as Hb.
    destruct (begin_checks a p e s) as [u s1 | code s1]; simpl in Hb.
    + rewrite (begin_configure_keeps_broker e s1). exact Hb.
    + exact Hb.
Qed.

(** X17. Neither [begin] touches the state machine: whatever is returned,
    the state, the time of the last request and the retransmit record
    (buffer, length, flag) are what they were, and so is the password; the
    broker's address and port are the arguments, also when a check fails
    and 0 is returned. *)
Theorem begin_keeps_session (a : string) (p : Z) (e : BeginEnv) (s : Setup) :
  (session_of (setup_of (begin a p e s)) = session_of s
   /\ _password (setup_of (begin a p e s)) = _password s
   /\ broker_of (setup_of (begin a p e s)) = (a, p))
  /\ (session_of (setup_of (begin_with_connection a p e s)) = session_of s
      /\ _password (setup_of (begin_with_connection a p e s)) = _password s
      /\ broker_of (setup_of (begin_with_connection a p e s)) = (a, p)).
Proof.
  split; [apply begin_frame |].
  change (begin_with_connection a p e s)
    with (begin a p e
            (mkSetup (with_brokerPort p (with_brokerAddress a (object s)))
               (_password s) (calls s ++ [TimeServiceBegin]))).
  destruct (begin_frame a p e
              (mkSetup (with_brokerPort p (with_brokerAddress a (object s)))
                 (_password s) (calls s ++ [TimeServiceBegin])))
    as (H1 & H2 & H3).
  rewrite H1, H2, H3. repeat split.
Qed.


(** X19. When [begin] returns 0 it has configured nothing: the four topics
    are what they were, and no call to the MQTT client was made (no
    client, no callback, no keep-alive, no timeout, no id): only the
    checks' own calls were. *)
Theorem begin_failure_configures_nothing (a : string) (p : Z) (e : BeginEnv)
    (s : Setup) :
  returned (begin a p e s) = 0 ->
  only_checked s (setup_of (begin a p e s)).
Proof.
  rewrite begin_split. pose proof (begin_checks_checks a p e s) as H.
  destruct (begin_checks a p e s) as [u s1 | code s1].
  - rewrite begin_configure_returns_1. discriminate.
  - intros _. apply H.
Qed.


(** X21. On a build that is not for AVR and has no crypto chip, offloaded
    or not, [begin] has no check to fail: it returns 1. *)
Theorem begin_without_chip_succeeds (a : string) (p : Z) (e : BeginEnv)
    (s : Setup) :
  AVR = false -> BOARD_HAS_OFFLOADED_ECCX08 = false ->
  BOARD_HAS_ECCX08 = false ->
  returned (begin a p e s) = 1.
Proof.
  intros H1 H2 H3. rewrite begin_split.
  destruct (begin_checks_pass_without_chip a p e s H1 H2 H3) as [s1 ->].
  apply begin_configure_returns_1.
Qed.

(** X22. On AVR, [begin] compares the NINA firmware's version with
    ["1.4.2"] as strings, character by character: a version that is
    smaller in that order makes it return 0 at once, after the one call
    that read the version and before any other; the broker's address and
    port have been assigned by then. *)
Theorem begin_rejects_old_firmware (a : string) (p : Z) (e : BeginEnv)
    (s : Setup) :
  AVR = true ->
  String.ltb (wifi_firmwareVersion e (calls s)) "1.4.2" = true ->
  begin a p e s =
  Return_ 0
    (mkSetup (with_brokerPort p (with_brokerAddress a (object s)))
       (_password s)
       (calls s ++ [WiFiFirmwareVersion (wifi_firmwareVersion e (calls s))])).
Proof.
  intros H1 H2. unfold begin. rewrite H1.
  cbv beta delta [and_then set_member ask]. cbn [calls object _password].
  rewrite H2. reflexivity.
Qed.

End BeginFacts.

(** * [begin] on the bench *)

Import BeginBench.

(** The crypto chip does not answer: [begin] returns 0 and the MQTT client
    has not been touched. *)
Lemma begin_failure_configures_nothing_witness :
  returned (begin "mqtts-sa.iot.arduino.cc" 8883 (provisioning false) fresh) = 0
  /\ only_checked fresh
       (setup_of (begin "mqtts-sa.iot.arduino.cc" 8883 (provisioning false) fresh)).
Proof.
  split; [reflexivity |].
  apply begin_failure_configures_nothing. reflexivity.
Defined.


(** An ESP8266 has no chip to fail, whatever the answers. *)
Lemma begin_without_chip_succeeds_witness :
  returned (@begin Outbox mkr esp8266 outbox_ota "mqtts-sa.iot.arduino.cc" 8883
              (provisioning false) fresh) = 1.
Proof.
  apply (@begin_without_chip_succeeds Outbox mkr esp8266 outbox_ota);
    reflexivity.
Defined.

(** Firmware 1.10.0 is newer than 1.4.2 and smaller as a string: the Uno
    WiFi Rev. 2 refuses it. *)
Lemma begin_rejects_old_firmware_witness :
  String.ltb "1.10.0" "1.4.2" = true
  /\ returned (@begin Outbox uno_wifi_rev2 uno_wifi_rev2_platform outbox_ota
                 "mqtts-sa.iot.arduino.cc" 8883 (with_firmware "1.10.0") fresh)
     = 0.
Proof.
  split; [reflexivity |].
  rewrite (@begin_rejects_old_firmware Outbox uno_wifi_rev2
             uno_wifi_rev2_platform outbox_ota "mqtts-sa.iot.arduino.cc" 8883
             (with_firmware "1.10.0") fresh eq_refl eq_refl).
  reflexivity.
Defined.
